(** * chipper: the runnable build (js/grunt/buildRunnable.js, js/grunt/minify.js,
      js/grunt/transpile.js)

    A shallow embedding of the build orchestration of chipper.  A JavaScript
    string is the Rocq string of its UTF-8 text, the arguments of
    [buildRunnable] are dynamically typed JavaScript values, the string table
    is a finite map, and the code that throws or writes files runs in a small
    exception-and-trace monad.
    The modules the build calls but that live outside these three files
    (require.js build, babel, uglify, the packaging steps, grunt's file
    access, the clock, ...) are the fields of one environment record. *)

From Stdlib Require Import String Ascii List ZArith Bool Lia.
From stdpp Require Import base gmap strings list pretty.

Import ListNotations.
Local Open Scope string_scope.
Local Open Scope list_scope.

(** ** JavaScript values and strings *)

(** The values a caller can pass to the build.  Objects are kept only as far
    as [typeof], truthiness and string conversion need them. *)
Inductive value : Type :=
| VUndefined
| VNull
| VBool (b : bool)
| VNum (z : Z)
| VStr (s : string)
| VObject (props : list (string * string)).

(** [typeof v] *)
Definition typeof (v : value) : string :=
  match v with
  | VUndefined => "undefined"
  | VNull => "object"
  | VBool _ => "boolean"
  | VNum _ => "number"
  | VStr _ => "string"
  | VObject _ => "object"
  end.

(** Truthiness, as used by [if], [||], [?:] and [assert]. *)
Definition truthy (v : value) : bool :=
  match v with
  | VUndefined | VNull => false
  | VBool b => b
  | VNum z => negb (z =? 0)%Z
  | VStr s => negb (String.eqb s "")
  | VObject _ => true
  end.

(** String conversion, as done by [+] with a string operand. *)
Definition to_string (v : value) : string :=
  match v with
  | VUndefined => "undefined"
  | VNull => "null"
  | VBool true => "true"
  | VBool false => "false"
  | VNum z => pretty z
  | VStr s => s
  | VObject _ => "[object Object]"
  end.

(** [s.length] is the number of UTF-16 code units of the string.  In the
    UTF-8 text a character of one, two or three bytes is one code unit and a
    character of four bytes is two (a surrogate pair): the first byte of a
    character tells, the bytes that continue it count for nothing. *)
Definition utf16_units (c : ascii) : N :=
  let n := N_of_ascii c in
  if (n <? 128)%N then 1%N
  else if (n <? 192)%N then 0%N
  else if (n <? 240)%N then 1%N
  else 2%N.

Fixpoint js_length (s : string) : N :=
  match s with
  | EmptyString => 0%N
  | String c r => (utf16_units c + js_length r)%N
  end.

(** [s.split( c )] for a one-character separator [c]: never empty, the empty
    string gives one empty piece. *)
Fixpoint split (c : ascii) (s : string) : list string :=
  match s with
  | EmptyString => [EmptyString]
  | String x r =>
      if Ascii.eqb x c then EmptyString :: split c r
      else match split c r with
           | h :: t => String x h :: t
           | [] => [String x EmptyString]
           end
  end.

(** [a.join( sep )] *)
Fixpoint join (sep : string) (l : list string) : string :=
  match l with
  | [] => ""
  | [x] => x
  | x :: r => x +:+ sep +:+ join sep r
  end.

(** [s.indexOf( c )] for a one-character [c]: [-1] when absent. *)
Fixpoint indexOf (c : ascii) (s : string) : Z :=
  match s with
  | EmptyString => (-1)%Z
  | String x r =>
      if Ascii.eqb x c then 0%Z
      else match indexOf c r with
           | Zneg _ => (-1)%Z
           | i => (i + 1)%Z
           end
  end.

(** [s.substring( 0, n )]: a negative [n] counts as [0], a large one as the
    length. *)
Fixpoint take_string (n : nat) (s : string) : string :=
  match n, s with
  | S n', String x r => String x (take_string n' r)
  | _, _ => EmptyString
  end.

Definition substring0 (n : Z) (s : string) : string :=
  take_string (Z.to_nat n) s.

Fixpoint drop_string (n : nat) (s : string) : string :=
  match n, s with
  | S n', String _ r => drop_string n' r
  | _, _ => s
  end.

(** Does [s] start with [pat]? *)
Fixpoint starts_with (pat s : string) : bool :=
  match pat with
  | EmptyString => true
  | String a pat' =>
      match s with
      | EmptyString => false
      | String b s' => Ascii.eqb a b && starts_with pat' s'
      end
  end.

(** [s.replace( pat, rep )] with a string pattern: only the FIRST occurrence
    of [pat] is replaced ([rep] here never holds a dollar sign, so it is
    inserted as it is). *)
Fixpoint replace (pat rep s : string) : string :=
  if starts_with pat s then rep +:+ drop_string (String.length pat) s
  else match s with
       | EmptyString => EmptyString
       | String x r => String x (replace pat rep r)
       end.

(** The control character U+000B (vertical tab) and its escaped spelling,
    the four characters backslash, x, 0, B. *)
Definition VT : ascii := ascii_of_nat 11.
Definition VT_string : string := String VT EmptyString.
Definition VT_escaped : string := String (ascii_of_nat 92) "x0B".

(** Does the string hold the character? *)
Fixpoint contains_char (c : ascii) (s : string) : bool :=
  match s with
  | EmptyString => false
  | String x r => Ascii.eqb x c || contains_char c r
  end.

(** ** Exceptions and effects *)

Inductive exn : Type :=
| AssertionError (message : string)
| TypeError (message : string)
| Error (message : string)
| SyntaxError (message : string).

(** ** Data handed to the collaborators *)

(** The string table: locale, then string key, to the localized text. *)
Abbreviation StringMap := (gmap string (gmap string string)).

(** [package.json], as far as the build reads it. *)
Record PackageObject : Type := {
  version : string;
  phet_requirejsNamespace : string;
  phet_accessible : value
}.

(** Options of [requireBuild]. *)
Record RequireBuildOptions : Type := {
  insertRequire : string;
  rb_instrument : value;
  rb_brand : string
}.

(** Options of [getInitializationScript]: the three fields each call chooses,
    extended with [commonInitializationOptions]. *)
Record InitializationOptions : Type := {
  init_locale : string;
  includeAllLocales : bool;
  isDebugBuild : bool;
  init_brand : string;
  init_repo : string;
  init_stringMap : StringMap;
  init_dependencies : value;
  init_timestamp : string;
  init_version : string;
  init_thirdPartyEntries : value
}.

(** Options of [packageRunnable]. *)
Record PackageOptions : Type := {
  pkg_repo : string;
  pkg_stringMap : StringMap;
  pkg_htmlHeader : string;
  pkg_locale : string;
  pkg_scripts : list string
}.

(** Options of [packageXHTML]. *)
Record XHTMLOptions : Type := {
  xhtml_repo : string;
  xhtml_brand : string;
  xhtml_stringMap : StringMap;
  xhtml_htmlHeader : string;
  xhtml_scripts : list string
}.

(** The configuration object [minify] hands to [uglify.minify]. *)
Record MangleConfig : Type := { safari10 : bool }.

Record UglifyConfig : Type := {
  cfg_mangle : option MangleConfig;      (* [false] is [None] *)
  dead_code : bool;
  global_defs : gmap string bool;
  inline_script : bool;
  beautify : bool
}.

(** What [uglify.minify] returns: [error] is set when it failed (the field
    holds the error object, here its text), [code] otherwise. *)
Record UglifyResult : Type := {
  error : option string;
  code : string
}.

(** The optional fields of the options object of [minify]; [None] is an
    absent field, which takes the default of the destructuring. *)
Record MinifyOptions : Type := {
  mangle : option bool;
  babelTranspile : option bool;
  stripAssertions : option bool;
  stripLogging : option bool
}.

(** What the build does to the outside world, in order.  Calls of the two
    packaging steps are recorded with their arguments. *)
Inductive event : Type :=
| ConsoleLog (text : string)
| GruntLogOk (text : string)
| GruntLogDebug (text : string)
| ReportUnusedMedia (requirejsNamespace : string)
| ReportUnusedStrings (repo requirejsNamespace : string)
| Mkdir (path : string)
| Write (path content : string)
| PackageRunnable (options : PackageOptions)
| PackageXHTML (dir : string) (options : XHTMLOptions)
| CopySupplementalPhetioFiles (repo version : string).

(** The events that create something on disk. *)
Definition writes_files (e : event) : bool :=
  match e with
  | Mkdir _ | Write _ _ | PackageXHTML _ _ | CopySupplementalPhetioFiles _ _ => true
  | _ => false
  end.

(** The events that only report or log. *)
Definition is_log (e : event) : bool :=
  match e with
  | ConsoleLog _ | GruntLogOk _ | GruntLogDebug _
  | ReportUnusedMedia _ | ReportUnusedStrings _ _ => true
  | _ => false
  end.

(** ** The environment: constants and collaborators outside these files *)

Record Env : Type := {
  (* ../common/ChipperConstants *)
  BRANDS : list string;
  FALLBACK_LOCALE : string;
  A11Y_VIEW_HTML_SUFFIX : string;
  (* grunt.file, grunt.template *)
  file_exists : string -> bool;
  file_read : string -> string;
  file_readJSON : string -> PackageObject;
  template_today : string -> string;
  (* new Date().toISOString() *)
  Date_toISOString : string;
  (* babel-core, uglify-es *)
  babel_transform : string -> exn + string;
  uglify_minify : string -> UglifyConfig -> UglifyResult;
  (* the other modules of js/grunt and js/common *)
  requireBuild : string -> string -> RequireBuildOptions -> string;
  getPreloads : string -> string -> list string;
  getPhetLibs : string -> string -> list string;
  getLocalesFromRepository : string -> list string;
  getDependencies : string -> value;
  getAllThirdPartyEntries : string -> string -> value;
  getStringMap : list string -> list string -> StringMap;
  buildMipmaps : string;
  getTitleStringKey : string -> string;
  loadFileAsDataURI : string -> string;
  getInitializationScript : InitializationOptions -> string;
  packageRunnable : PackageOptions -> string;
  JSON_stringify : value -> string;
  htmlEncode : string -> string;
  replaceFirst : string -> string -> string -> string;
  replaceAll : string -> string -> string -> string;
  getA11yViewHTMLFromTemplate : string -> string;
  generateThumbnails : string -> Z -> Z -> string;
  generateTwitterCard : string -> string
}.

(** ** The monad: an exception or a result, and the events so far *)

Definition M (A : Type) : Type := list event -> (exn + A) * list event.

Definition ret {A} (a : A) : M A := fun t => (inr a, t).

Definition bind {A B} (m : M A) (k : A -> M B) : M B :=
  fun t => match m t with
           | (inr a, t') => k a t'
           | (inl e, t') => (inl e, t')
           end.

Definition throw {A} (e : exn) : M A := fun t => (inl e, t).

Definition emit (e : event) : M unit := fun t => (inr tt, t ++ [e]).

Declare Scope js_scope.
Delimit Scope js_scope with js.
Notation "'let!' x ':=' m 'in' k" := (bind m (fun x => k))
  (at level 10, x name, m at level 100, k at level 200) : js_scope.
Notation "m ';;;' k" := (bind m (fun _ => k))
  (at level 100, k at level 200, right associativity) : js_scope.
Local Open Scope js_scope.

(** [assert( cond, message )] *)
Definition assert (cond : bool) (message : string) : M unit :=
  if cond then ret tt else throw (AssertionError message).

(** [for ( let x of l ) { body }] *)
Fixpoint for_of {A} (l : list A) (body : A -> M unit) : M unit :=
  match l with
  | [] => ret tt
  | x :: r => body x ;;; for_of r body
  end.

(** [l.map( f )] with a callback that may throw. *)
Fixpoint map_M {A B} (f : A -> M B) (l : list A) : M (list B) :=
  match l with
  | [] => ret []
  | x :: r => let! y := f x in let! ys := map_M f r in ret (y :: ys)
  end.

(** ** js/grunt/transpile.js *)

(** [babel.transform( jsInput, ... ).code]; babel throws on input it cannot
    parse. *)
Definition transpile (env : Env) (jsInput : string) : M string :=
  match babel_transform env jsInput with
  | inr out => ret out
  | inl e => throw e
  end.

(** ** js/grunt/minify.js *)

(** The [config] object [minify] builds from its options. *)
Definition minify_config (options : MinifyOptions) : UglifyConfig :=
  let mangle := default true (mangle options) in
  let stripAssertions := default true (stripAssertions options) in
  let stripLogging := default true (stripLogging options) in
  let defs0 : gmap string bool := ∅ in
  let defs1 :=
    if stripAssertions
    then <["assertSlow" := false]> (<["assert" := false]> defs0)
    else defs0 in
  let defs2 :=
    if stripLogging
    then <["sceneryAccessibilityLog" := false]> (<["sceneryLog" := false]> defs1)
    else defs1 in
  {| cfg_mangle := if mangle then Some {| safari10 := true |} else None;
     dead_code := true;
     global_defs := defs2;
     inline_script := true;
     beautify := negb mangle |}.

Definition minify (env : Env) (js : string) (options : MinifyOptions) : M string :=
  let babelTranspile := default false (babelTranspile options) in
  let! js := (if babelTranspile then transpile env js else ret js) in
  let config := minify_config options in
  let result := uglify_minify env js config in
  match error result with
  | Some err =>
      emit (ConsoleLog err) ;;;
      throw (Error err)
  | None =>
      ret (replace VT_string VT_escaped (code result))
  end.

(** ** js/grunt/buildRunnable.js *)

Definition nl : string := String (ascii_of_nat 10) EmptyString.

(** [v === s] for a string literal [s]. *)
Definition strict_eq_string (v : value) (s : string) : bool :=
  match v with
  | VStr x => String.eqb x s
  | _ => false
  end.

(** [_.includes( strings, v )] on an array of strings. *)
Definition includes (strings : list string) (v : value) : bool :=
  match v with
  | VStr x => existsb (String.eqb x) strings
  | _ => false
  end.

(** A value put into an optional field of an options object that is read by
    truthiness: [undefined] leaves the field to its default. *)
Definition option_field (v : value) : option bool :=
  match v with
  | VUndefined => None
  | _ => Some (truthy v)
  end.

(** [_.sum( preloads.map( preload => preload.length ) )] *)
Definition sum_lengths (l : list string) : N :=
  fold_right N.add 0%N (map js_length l).

(** The build timestamp: the ISO time with a space for the [T], cut before
    the fraction, and marked UTC. *)
Definition timestamp (env : Env) : string :=
  let timestamp := join " " (split "T" (Date_toISOString env)) in
  substring0 (indexOf "." timestamp) timestamp +:+ " UTC".

(** [productionJS]: the bundle, minified when [uglify] is set. *)
Definition productionJS (env : Env) (uglify mangle : value) (requireJS : string) : M string :=
  if truthy uglify
  then minify env requireJS
         {| mangle := option_field mangle; babelTranspile := Some true;
            stripAssertions := None; stripLogging := None |}
  else ret requireJS.

(** [debugJS]: minified without stripping for phet-io, the bundle otherwise. *)
Definition debugJS (env : Env) (brand : string) (requireJS : string) : M string :=
  if String.eqb brand "phet-io"
  then minify env requireJS
         {| mangle := Some true; babelTranspile := Some true;
            stripAssertions := Some false; stripLogging := Some false |}
  else ret requireJS.

Definition rawPreloads (env : Env) (repo brand : string) : list string :=
  map (file_read env) (getPreloads env repo brand).

Definition productionPreloads (env : Env) (uglify mangle : value) (rawPreloads : list string)
  : M (list string) :=
  map_M (fun js =>
           if truthy uglify
           then minify env js
                  {| mangle := option_field mangle; babelTranspile := None;
                     stripAssertions := None; stripLogging := None |}
           else ret js) rawPreloads.

Definition debugPreloads (env : Env) (brand : string) (rawPreloads : list string)
  : M (list string) :=
  map_M (fun js =>
           if String.eqb brand "phet-io"
           then minify env js
                  {| mangle := Some true; babelTranspile := None;
                     stripAssertions := None; stripLogging := None |}
           else ret js) rawPreloads.

(** [stringMap[ FALLBACK_LOCALE ][ key ]]: a missing locale makes the second
    lookup throw, a missing key gives [undefined]. *)
Definition lookup_title (env : Env) (stringMap : StringMap) (key : string) : M value :=
  match stringMap !! FALLBACK_LOCALE env with
  | None => throw (TypeError "Cannot read property of undefined")
  | Some strings =>
      match strings !! key with
      | Some text => ret (VStr text)
      | None => ret VUndefined
      end
  end.

(** The HTML comment header, chosen by the brand. *)
Definition htmlHeader (env : Env) (brand : string) (englishTitle : value) (version : string)
  : string :=
  if String.eqb brand "phet-io" then
    to_string englishTitle +:+ " " +:+ version +:+ nl +:+
    "Copyright 2002-" +:+ template_today env "yyyy" +:+ ", Regents of the University of Colorado" +:+ nl +:+
    "PhET Interactive Simulations, University of Colorado Boulder" +:+ nl +:+
    nl +:+
    "This Interoperable PhET Simulation file requires a license." +:+ nl +:+
    "USE WITHOUT A LICENSE AGREEMENT IS STRICTLY PROHIBITED." +:+ nl +:+
    "Contact phethelp@colorado.edu regarding licensing." +:+ nl +:+
    "https://phet.colorado.edu/en/licensing"
  else
    to_string englishTitle +:+ " " +:+ version +:+ nl +:+
    "Copyright 2002-" +:+ template_today env "yyyy" +:+ ", Regents of the University of Colorado" +:+ nl +:+
    "PhET Interactive Simulations, University of Colorado Boulder" +:+ nl +:+
    nl +:+
    "This file is licensed under Creative Commons Attribution 4.0" +:+ nl +:+
    "For alternate source code licensing, see https://github.com/phetsims" +:+ nl +:+
    "For licenses for third-party software used by this simulation, see below" +:+ nl +:+
    "For more information, see https://phet.colorado.edu/en/licensing/html" +:+ nl +:+
    nl +:+
    "The PhET name and PhET logo are registered trademarks of The Regents of the" +:+ nl +:+
    "University of Colorado. Permission is granted to use the PhET name and PhET logo" +:+ nl +:+
    "only for attribution purposes. Use of the PhET name and/or PhET logo for promotional," +:+ nl +:+
    "marketing, or advertising purposes requires a separate license agreement from the" +:+ nl +:+
    "University of Colorado. Contact phethelp@colorado.edu regarding licensing.".

(** [packageRunnable( options )], the call recorded. *)
Definition invoke_packageRunnable (env : Env) (options : PackageOptions) : M string :=
  emit (PackageRunnable options) ;;;
  ret (packageRunnable env options).

(** The script list every artifact is packaged from. *)
Definition scripts (initializationScript splashScript mipmapsJavaScript : string)
  (preloads : list string) (chipperStringsScript js : string) : list string :=
  [initializationScript; splashScript; mipmapsJavaScript] ++ preloads ++ [chipperStringsScript; js].

Definition dquote : string := String (ascii_of_nat 34) EmptyString.

(** Everything the build has resolved when it starts to write (lines 63-157
    of the file): the values of the local constants of that name. *)
Record Resolved : Type := {
  r_repo : string;
  r_brand : string;
  r_allHTML : value;
  r_packageObject : PackageObject;
  r_timestamp : string;
  r_productionJS : string;
  r_debugJS : string;
  r_productionPreloads : list string;
  r_debugPreloads : list string;
  r_locales : list string;
  r_dependencies : value;
  r_version : string;
  r_thirdPartyEntries : value;
  r_stringMap : StringMap;
  r_mipmapsJavaScript : string;
  r_simTitleStringKey : string;
  r_htmlHeader : string;
  r_chipperStringsScript : string;
  r_splashScript : string
}.

(** Lines 63-157: read the inputs, build and minify the code and the preloads,
    resolve locales and strings, check the title, choose the header. *)
Definition resolveInputs (env : Env) (repo brand : string)
  (uglify mangle instrument allHTML localesOption : value) : M Resolved :=
  let packageObject := file_readJSON env ("../" +:+ repo +:+ "/package.json") in
  let timestamp := timestamp env in
  let requireJS :=
    requireBuild env repo ("../" +:+ repo +:+ "/js/" +:+ repo +:+ "-config.js")
      {| insertRequire := repo +:+ "-main"; rb_instrument := instrument; rb_brand := brand |} in
  let! productionJS := productionJS env uglify mangle requireJS in
  let! debugJS := debugJS env brand requireJS in
  emit (ReportUnusedMedia (phet_requirejsNamespace packageObject)) ;;;
  emit (ReportUnusedStrings repo (phet_requirejsNamespace packageObject)) ;;;
  let rawPreloads := rawPreloads env repo brand in
  let! productionPreloads := productionPreloads env uglify mangle rawPreloads in
  let! debugPreloads := debugPreloads env brand rawPreloads in
  let phetLibs := getPhetLibs env repo brand in
  let allLocales := FALLBACK_LOCALE env :: getLocalesFromRepository env repo in
  let! locales :=
    match localesOption with
    | VStr s => ret (if String.eqb s "*" then allLocales else split "," s)
    | _ => throw (TypeError "localesOption.split is not a function")
    end in
  let dependencies := getDependencies env repo in
  let version := version packageObject in
  let thirdPartyEntries := getAllThirdPartyEntries env repo brand in
  let stringMap := getStringMap env allLocales phetLibs in
  let mipmapsJavaScript := buildMipmaps env in
  let simTitleStringKey := getTitleStringKey env repo in
  let! englishTitle := lookup_title env stringMap simTitleStringKey in
  assert (truthy englishTitle) ("missing entry for sim title, key = " +:+ simTitleStringKey) ;;;
  let htmlHeader := htmlHeader env brand englishTitle version in
  let chipperStringsScript := file_read env "../chipper/templates/chipper-strings.js" in
  let splashScript :=
    "window.PHET_SPLASH_DATA_URI=" +:+ dquote +:+
    loadFileAsDataURI env ("../brand/" +:+ brand +:+ "/images/splash.svg") +:+ dquote +:+ ";" in
  emit (GruntLogOk ("Minification for " +:+ brand +:+ " complete")) ;;;
  emit (GruntLogOk ("Require.js: " +:+ pretty (js_length productionJS) +:+ " bytes")) ;;;
  emit (GruntLogOk ("Preloads: " +:+ pretty (sum_lengths productionPreloads) +:+ " bytes")) ;;;
  emit (GruntLogOk ("Mipmaps: " +:+ pretty (js_length mipmapsJavaScript) +:+ " bytes")) ;;;
  ret {| r_repo := repo; r_brand := brand; r_allHTML := allHTML;
         r_packageObject := packageObject; r_timestamp := timestamp;
         r_productionJS := productionJS; r_debugJS := debugJS;
         r_productionPreloads := productionPreloads; r_debugPreloads := debugPreloads;
         r_locales := locales; r_dependencies := dependencies; r_version := version;
         r_thirdPartyEntries := thirdPartyEntries; r_stringMap := stringMap;
         r_mipmapsJavaScript := mipmapsJavaScript;
         r_simTitleStringKey := simTitleStringKey; r_htmlHeader := htmlHeader;
         r_chipperStringsScript := chipperStringsScript; r_splashScript := splashScript |}.

(** [_.extend( { locale, includeAllLocales, isDebugBuild }, commonInitializationOptions )] *)
Definition initializationOptions (r : Resolved) (locale : string)
  (includeAllLocales isDebugBuild : bool) : InitializationOptions :=
  {| init_locale := locale;
     includeAllLocales := includeAllLocales;
     isDebugBuild := isDebugBuild;
     init_brand := r_brand r;
     init_repo := r_repo r;
     init_stringMap := r_stringMap r;
     init_dependencies := r_dependencies r;
     init_timestamp := r_timestamp r;
     init_version := r_version r;
     init_thirdPartyEntries := r_thirdPartyEntries r |}.

Definition buildDir (r : Resolved) : string :=
  "../" +:+ r_repo r +:+ "/build/" +:+ r_brand r.

(** The options of the three [packageRunnable] calls and of [packageXHTML]. *)
Definition localeOptions (env : Env) (r : Resolved) (locale : string) : PackageOptions :=
  {| pkg_repo := r_repo r; pkg_stringMap := r_stringMap r; pkg_htmlHeader := r_htmlHeader r;
     pkg_locale := locale;
     pkg_scripts :=
       scripts (getInitializationScript env (initializationOptions r locale false false))
         (r_splashScript r) (r_mipmapsJavaScript r) (r_productionPreloads r)
         (r_chipperStringsScript r) (r_productionJS r) |}.

Definition allOptions (env : Env) (r : Resolved) : PackageOptions :=
  {| pkg_repo := r_repo r; pkg_stringMap := r_stringMap r; pkg_htmlHeader := r_htmlHeader r;
     pkg_locale := FALLBACK_LOCALE env;
     pkg_scripts :=
       scripts (getInitializationScript env
                  (initializationOptions r (FALLBACK_LOCALE env) true false))
         (r_splashScript r) (r_mipmapsJavaScript r) (r_productionPreloads r)
         (r_chipperStringsScript r) (r_productionJS r) |}.

Definition debugOptions (env : Env) (r : Resolved) : PackageOptions :=
  {| pkg_repo := r_repo r; pkg_stringMap := r_stringMap r; pkg_htmlHeader := r_htmlHeader r;
     pkg_locale := FALLBACK_LOCALE env;
     pkg_scripts :=
       scripts (getInitializationScript env
                  (initializationOptions r (FALLBACK_LOCALE env) true true))
         (r_splashScript r) (r_mipmapsJavaScript r) (r_debugPreloads r)
         (r_chipperStringsScript r) (r_debugJS r) |}.

Definition xhtmlOptions (env : Env) (r : Resolved) : XHTMLOptions :=
  {| xhtml_repo := r_repo r; xhtml_brand := r_brand r; xhtml_stringMap := r_stringMap r;
     xhtml_htmlHeader := r_htmlHeader r;
     xhtml_scripts :=
       scripts (getInitializationScript env
                  (initializationOptions r (FALLBACK_LOCALE env) true false))
         (r_splashScript r) (r_mipmapsJavaScript r) (r_productionPreloads r)
         (r_chipperStringsScript r) (r_productionJS r) |}.

(** The paths of the three kinds of HTML artifact. *)
Definition localePath (r : Resolved) (locale : string) : string :=
  buildDir r +:+ "/" +:+ r_repo r +:+ "_" +:+ locale +:+ "_" +:+ r_brand r +:+ ".html".

Definition allPath (r : Resolved) : string :=
  buildDir r +:+ "/" +:+ r_repo r +:+ "_all_" +:+ r_brand r +:+ ".html".

Definition debugPath (r : Resolved) : string :=
  buildDir r +:+ "/" +:+ r_repo r +:+ "_all_" +:+ r_brand r +:+ "_debug.html".

Record Size : Type := { width : Z; height : Z }.

Definition thumbnailSizes : list Size :=
  [ {| width := 128; height := 84 |}; {| width := 600; height := 394 |} ].

(** Lines 159-274: create the build directory and write the artifacts. *)
Definition writeArtifacts (env : Env) (r : Resolved) : M unit :=
  let repo := r_repo r in
  let brand := r_brand r in
  let buildDir := buildDir r in
  emit (Mkdir buildDir) ;;;
  (* {{locale}}.html *)
  (if negb (String.eqb brand "phet-io")
   then for_of (r_locales r) (fun locale =>
          let! html := invoke_packageRunnable env (localeOptions env r locale) in
          emit (Write (localePath r locale) html))
   else ret tt) ;;;
  (* _all.html (forced for phet-io) *)
  (if truthy (r_allHTML r) || String.eqb brand "phet-io"
   then let! html := invoke_packageRunnable env (allOptions env r) in
        emit (Write (allPath r) html)
   else ret tt) ;;;
  (* Debug build (always included) *)
  (let! html := invoke_packageRunnable env (debugOptions env r) in
   emit (Write (debugPath r) html)) ;;;
  (* XHTML build *)
  let xhtmlDir := buildDir +:+ "/xhtml" in
  emit (Mkdir xhtmlDir) ;;;
  emit (PackageXHTML xhtmlDir (xhtmlOptions env r)) ;;;
  (* dependencies.json *)
  emit (Write (buildDir +:+ "/dependencies.json") (JSON_stringify env (r_dependencies r))) ;;;
  (* -iframe.html *)
  (if existsb (String.eqb (FALLBACK_LOCALE env)) (r_locales r) && String.eqb brand "phet"
   then let! englishTitle := lookup_title env (r_stringMap r) (getTitleStringKey env repo) in
        emit (GruntLogDebug "Constructing HTML for iframe testing from template") ;;;
        let iframeTestHtml := file_read env "../chipper/templates/sim-iframe.html" in
        let iframeTestHtml :=
          replaceFirst env iframeTestHtml "{{PHET_SIM_TITLE}}"
            (htmlEncode env (to_string englishTitle +:+ " iframe test")) in
        let iframeTestHtml := replaceFirst env iframeTestHtml "{{PHET_REPOSITORY}}" repo in
        let iframeLocales := ["en"] ++ (if truthy (r_allHTML r) then ["all"] else []) in
        for_of iframeLocales (fun locale =>
          let iframeHtml := replaceFirst env iframeTestHtml "{{PHET_LOCALE}}" locale in
          emit (Write (buildDir +:+ "/" +:+ repo +:+ "_" +:+ locale +:+ "_iframe_phet.html")
                  iframeHtml))
   else ret tt) ;;;
  (* a11y view *)
  (if truthy (phet_accessible (r_packageObject r)) && String.eqb brand "phet"
   then let a11yHTML := getA11yViewHTMLFromTemplate env repo in
        let a11yHTML := replaceAll env a11yHTML "{{IS_BUILT}}" "true" in
        emit (Write (buildDir +:+ "/" +:+ repo +:+ A11Y_VIEW_HTML_SUFFIX env) a11yHTML)
   else ret tt) ;;;
  (if String.eqb brand "phet-io"
   then emit (CopySupplementalPhetioFiles repo (r_version r))
   else ret tt) ;;;
  (* Thumbnails and twitter card *)
  (if file_exists env ("../" +:+ repo +:+ "/assets/" +:+ repo +:+ "-screenshot.png")
   then for_of thumbnailSizes (fun size =>
          emit (Write (buildDir +:+ "/" +:+ repo +:+ "-" +:+ pretty (width size) +:+ ".png")
                  (generateThumbnails env repo (width size) (height size)))) ;;;
        (if String.eqb brand "phet"
         then emit (Write (buildDir +:+ "/" +:+ repo +:+ "-twitter-card.png")
                      (generateTwitterCard env repo))
         else ret tt)
   else ret tt).

(** The exported function.  The arguments are the values the caller passes;
    past the assertions [repo] and [brand] are strings.  The first three
    assertions have no message of their own: the asserted expression stands
    for the text Node generates. *)
Definition buildRunnable (env : Env)
  (repo uglify mangle instrument allHTML brand localesOption : value) : M unit :=
  assert (String.eqb (typeof repo) "string") "assert( typeof repo === 'string' )" ;;;
  assert (String.eqb (typeof uglify) "boolean") "assert( typeof uglify === 'boolean' )" ;;;
  assert (String.eqb (typeof mangle) "boolean") "assert( typeof mangle === 'boolean' )" ;;;
  assert (includes (BRANDS env) brand) ("Unknown brand in buildRunnable: " +:+ to_string brand) ;;;
  (if strict_eq_string brand "phet-io"
   then assert (file_exists env "../phet-io")
          ("Aborting the build of phet-io brand since proprietary repositories are not checked out."
           +:+ nl +:+ "Please use --brands=={{BRAND}} in the future to avoid this.")
   else ret tt) ;;;
  let repo := to_string repo in
  let brand := to_string brand in
  let! r := resolveInputs env repo brand uglify mangle instrument allHTML localesOption in
  writeArtifacts env r.

(** ** A build request, and when it is valid *)

(** The seven arguments of [buildRunnable]. *)
Record BuildRequest : Type := {
  req_repo : value;
  req_uglify : value;
  req_mangle : value;
  req_instrument : value;
  req_allHTML : value;
  req_brand : value;
  req_localesOption : value
}.

Definition run (env : Env) (req : BuildRequest) : M unit :=
  buildRunnable env (req_repo req) (req_uglify req) (req_mangle req) (req_instrument req)
    (req_allHTML req) (req_brand req) (req_localesOption req).

(** The assertions at the head of [buildRunnable] all hold. *)
Definition preconditions (env : Env) (req : BuildRequest) : bool :=
  String.eqb (typeof (req_repo req)) "string"
  && String.eqb (typeof (req_uglify req)) "boolean"
  && String.eqb (typeof (req_mangle req)) "boolean"
  && includes (BRANDS env) (req_brand req)
  && (if strict_eq_string (req_brand req) "phet-io" then file_exists env "../phet-io" else true).

(** The string table the build resolves for the request. *)
Definition resolved_stringMap (env : Env) (req : BuildRequest) : StringMap :=
  let repo := to_string (req_repo req) in
  let brand := to_string (req_brand req) in
  getStringMap env (FALLBACK_LOCALE env :: getLocalesFromRepository env repo)
    (getPhetLibs env repo brand).

(** The fallback locale of the string table has a non-empty text under the
    title key of the target. *)
Definition title_present (env : Env) (req : BuildRequest) : bool :=
  match resolved_stringMap env req !! FALLBACK_LOCALE env with
  | Some strings =>
      match strings !! getTitleStringKey env (to_string (req_repo req)) with
      | Some text => negb (String.eqb text "")
      | None => false
      end
  | None => false
  end.

(** The request is one the build accepts: the assertions hold, the locale
    option is a string, the title is there. *)
Definition valid (env : Env) (req : BuildRequest) : bool :=
  preconditions env req
  && String.eqb (typeof (req_localesOption req)) "string"
  && title_present env req.

(** ** The artifacts, enumerated *)

(** The events of one [packageRunnable] call whose result is written. *)
Definition packaged (env : Env) (path : string) (options : PackageOptions) : list event :=
  [PackageRunnable options; Write path (packageRunnable env options)].

Definition is_phet_io (r : Resolved) : bool := String.eqb (r_brand r) "phet-io".
Definition is_phet (r : Resolved) : bool := String.eqb (r_brand r) "phet".

Definition localeEvents (env : Env) (r : Resolved) : list event :=
  if is_phet_io r then []
  else flat_map (fun locale => packaged env (localePath r locale) (localeOptions env r locale))
         (r_locales r).

Definition allEvents (env : Env) (r : Resolved) : list event :=
  if truthy (r_allHTML r) || is_phet_io r
  then packaged env (allPath r) (allOptions env r)
  else [].

Definition debugEvents (env : Env) (r : Resolved) : list event :=
  packaged env (debugPath r) (debugOptions env r).

Definition xhtmlEvents (env : Env) (r : Resolved) : list event :=
  [Mkdir (buildDir r +:+ "/xhtml"); PackageXHTML (buildDir r +:+ "/xhtml") (xhtmlOptions env r)].

Definition dependenciesEvents (env : Env) (r : Resolved) : list event :=
  [Write (buildDir r +:+ "/dependencies.json") (JSON_stringify env (r_dependencies r))].

Definition iframeEvents (env : Env) (r : Resolved) (englishTitle : value) : list event :=
  if existsb (String.eqb (FALLBACK_LOCALE env)) (r_locales r) && is_phet r
  then
    let template :=
      replaceFirst env
        (replaceFirst env (file_read env "../chipper/templates/sim-iframe.html")
           "{{PHET_SIM_TITLE}}" (htmlEncode env (to_string englishTitle +:+ " iframe test")))
        "{{PHET_REPOSITORY}}" (r_repo r) in
    GruntLogDebug "Constructing HTML for iframe testing from template" ::
    map (fun locale =>
           Write (buildDir r +:+ "/" +:+ r_repo r +:+ "_" +:+ locale +:+ "_iframe_phet.html")
             (replaceFirst env template "{{PHET_LOCALE}}" locale))
      ("en" :: (if truthy (r_allHTML r) then ["all"] else []))
  else [].

Definition a11yEvents (env : Env) (r : Resolved) : list event :=
  if truthy (phet_accessible (r_packageObject r)) && is_phet r
  then [Write (buildDir r +:+ "/" +:+ r_repo r +:+ A11Y_VIEW_HTML_SUFFIX env)
          (replaceAll env (getA11yViewHTMLFromTemplate env (r_repo r)) "{{IS_BUILT}}" "true")]
  else [].

Definition supplementalEvents (r : Resolved) : list event :=
  if is_phet_io r then [CopySupplementalPhetioFiles (r_repo r) (r_version r)] else [].

Definition thumbnailEvents (env : Env) (r : Resolved) : list event :=
  if file_exists env ("../" +:+ r_repo r +:+ "/assets/" +:+ r_repo r +:+ "-screenshot.png")
  then
    map (fun size =>
           Write (buildDir r +:+ "/" +:+ r_repo r +:+ "-" +:+ pretty (width size) +:+ ".png")
             (generateThumbnails env (r_repo r) (width size) (height size)))
      thumbnailSizes
    ++ (if is_phet r
        then [Write (buildDir r +:+ "/" +:+ r_repo r +:+ "-twitter-card.png")
                (generateTwitterCard env (r_repo r))]
        else [])
  else [].

(** Everything after the debug artifact. *)
Definition auxiliaryEvents (env : Env) (r : Resolved) (englishTitle : value) : list event :=
  xhtmlEvents env r ++ dependenciesEvents env r ++ iframeEvents env r englishTitle
  ++ a11yEvents env r ++ supplementalEvents r ++ thumbnailEvents env r.

(** The whole of what [writeArtifacts] does, in order. *)
Definition artifactEvents (env : Env) (r : Resolved) (englishTitle : value) : list event :=
  Mkdir (buildDir r) ::
  localeEvents env r ++ allEvents env r ++ debugEvents env r
  ++ auxiliaryEvents env r englishTitle.

(** ** What the build resolves, as values *)

(** A computation that returns [a] and leaves the trace as it is. *)
Definition returns {A} (m : M A) (a : A) : Prop := forall t, m t = (inr a, t).

(** A computation that, whatever its outcome, has only reported and logged. *)
Definition quiet {A} (m : M A) : Prop :=
  forall t res t', m t = (res, t') ->
    exists l, t' = t ++ l /\ Forall (fun ev => is_log ev = true) l.

(** What [minify] hands to [uglify.minify]: the source, transpiled first when
    [babelTranspile] is set. *)
Definition compressor_input (env : Env) (options : MinifyOptions) (js : string)
  : exn + string :=
  if default false (babelTranspile options) then babel_transform env js else inr js.

(** Neither babel nor uglify fails on the source [js], whatever the options. *)
Definition transform_succeeds (env : Env) (js : string) : Prop :=
  forall options, exists js',
    compressor_input env options js = inr js' /\
    error (uglify_minify env js' (minify_config options)) = None.

(** The module bundle [requireJS]. *)
Definition moduleBundle (env : Env) (repo brand : string) (instrument : value) : string :=
  requireBuild env repo ("../" +:+ repo +:+ "/js/" +:+ repo +:+ "-config.js")
    {| insertRequire := repo +:+ "-main"; rb_instrument := instrument; rb_brand := brand |}.

(** The resolved locales: all of them for [*], the listed ones otherwise;
    nothing when the option is not a string. *)
Definition resolved_locales (env : Env) (repo : string) (localesOption : value)
  : option (list string) :=
  match localesOption with
  | VStr s =>
      Some (if String.eqb s "*"
            then FALLBACK_LOCALE env :: getLocalesFromRepository env repo
            else split "," s)
  | _ => None
  end.

(** Default options of [minify], and the options of the four uses the build
    makes of it. *)
Definition productionJS_options (mangle : value) : MinifyOptions :=
  {| mangle := option_field mangle; babelTranspile := Some true;
     stripAssertions := None; stripLogging := None |}.

Definition debugJS_options : MinifyOptions :=
  {| mangle := Some true; babelTranspile := Some true;
     stripAssertions := Some false; stripLogging := Some false |}.

Definition productionPreloads_options (mangle : value) : MinifyOptions :=
  {| mangle := option_field mangle; babelTranspile := None;
     stripAssertions := None; stripLogging := None |}.

Definition debugPreloads_options : MinifyOptions :=
  {| mangle := Some true; babelTranspile := None;
     stripAssertions := None; stripLogging := None |}.

(** The script list an event hands to a packaging step, if it is one. *)
Definition packaged_scripts (ev : event) : option (list string) :=
  match ev with
  | PackageRunnable options => Some (pkg_scripts options)
  | PackageXHTML _ options => Some (xhtml_scripts options)
  | _ => None
  end.

(** The record [resolveInputs] returns, from the results of its steps. *)
Definition resolved (env : Env) (repo brand : string) (allHTML : value)
  (productionJS debugJS : string) (productionPreloads debugPreloads locales : list string)
  (englishTitle : value) : Resolved :=
  let packageObject := file_readJSON env ("../" +:+ repo +:+ "/package.json") in
  {| r_repo := repo; r_brand := brand; r_allHTML := allHTML;
     r_packageObject := packageObject; r_timestamp := timestamp env;
     r_productionJS := productionJS; r_debugJS := debugJS;
     r_productionPreloads := productionPreloads; r_debugPreloads := debugPreloads;
     r_locales := locales; r_dependencies := getDependencies env repo;
     r_version := version packageObject;
     r_thirdPartyEntries := getAllThirdPartyEntries env repo brand;
     r_stringMap :=
       getStringMap env (FALLBACK_LOCALE env :: getLocalesFromRepository env repo)
         (getPhetLibs env repo brand);
     r_mipmapsJavaScript := buildMipmaps env;
     r_simTitleStringKey := getTitleStringKey env repo;
     r_htmlHeader := htmlHeader env brand englishTitle (version packageObject);
     r_chipperStringsScript := file_read env "../chipper/templates/chipper-strings.js";
     r_splashScript :=
       "window.PHET_SPLASH_DATA_URI=" +:+ dquote +:+
       loadFileAsDataURI env ("../brand/" +:+ brand +:+ "/images/splash.svg") +:+ dquote +:+ ";" |}.

(** [resolveInputs] for a request, and the sources it runs the compressor on. *)
Definition resolve (env : Env) (req : BuildRequest) : M Resolved :=
  resolveInputs env (to_string (req_repo req)) (to_string (req_brand req))
    (req_uglify req) (req_mangle req) (req_instrument req) (req_allHTML req)
    (req_localesOption req).

Definition bundle (env : Env) (req : BuildRequest) : string :=
  moduleBundle env (to_string (req_repo req)) (to_string (req_brand req)) (req_instrument req).

Definition preloads (env : Env) (req : BuildRequest) : list string :=
  rawPreloads env (to_string (req_repo req)) (to_string (req_brand req)).

Definition transforms_succeed (env : Env) (req : BuildRequest) : Prop :=
  forall js, In js (bundle env req :: preloads env req) -> transform_succeeds env js.

(** The use of the compressor on [js] with [options] goes well: babel, if
    asked for, accepts the source and uglify reports no error. *)
Definition compresses (env : Env) (options : MinifyOptions) (js : string) : Prop :=
  exists js',
    compressor_input env options js = inr js' /\
    error (uglify_minify env js' (minify_config options)) = None.

(** Every use of the compressor that the build makes for the request goes
    well: on the bundle and the preloads with the production options when
    [uglify] is set, on the bundle and the preloads with the debug options
    when the brand is phet-io.  Where the build does not compress, nothing is
    asked. *)
Definition compressions_succeed (env : Env) (req : BuildRequest) : Prop :=
  (truthy (req_uglify req) = true ->
   compresses env (productionJS_options (req_mangle req)) (bundle env req) /\
   forall js, In js (preloads env req) ->
              compresses env (productionPreloads_options (req_mangle req)) js) /\
  (String.eqb (to_string (req_brand req)) "phet-io" = true ->
   compresses env debugJS_options (bundle env req) /\
   forall js, In js (preloads env req) -> compresses env debugPreloads_options js).

(** The values of the constants [splashScript], [chipperStringsScript],
    [englishTitle] and [version] of the build, from the request. *)
Definition splashScript (env : Env) (brand : string) : string :=
  "window.PHET_SPLASH_DATA_URI=" +:+ dquote +:+
  loadFileAsDataURI env ("../brand/" +:+ brand +:+ "/images/splash.svg") +:+ dquote +:+ ";".

Definition chipperStringsScript (env : Env) : string :=
  file_read env "../chipper/templates/chipper-strings.js".

Definition resolved_title (env : Env) (req : BuildRequest) : value :=
  match resolved_stringMap env req !! FALLBACK_LOCALE env with
  | Some strings =>
      match strings !! getTitleStringKey env (to_string (req_repo req)) with
      | Some text => VStr text
      | None => VUndefined
      end
  | None => VUndefined
  end.

Definition resolved_version (env : Env) (req : BuildRequest) : string :=
  version (file_readJSON env ("../" +:+ to_string (req_repo req) +:+ "/package.json")).

(** The record the build has resolved for the request, given the code and
    the preloads of the two flavours and the locales. *)
Definition resolved_for (env : Env) (req : BuildRequest)
  (productionJS debugJS : string) (productionPreloads debugPreloads locales : list string)
  : Resolved :=
  resolved env (to_string (req_repo req)) (to_string (req_brand req)) (req_allHTML req)
    productionJS debugJS productionPreloads debugPreloads locales (resolved_title env req).

(** What [resolveInputs] reports and logs on its way. *)
Definition resolveEvents (env : Env) (repo brand : string)
  (productionJS : string) (productionPreloads : list string) : list event :=
  let packageObject := file_readJSON env ("../" +:+ repo +:+ "/package.json") in
  [ ReportUnusedMedia (phet_requirejsNamespace packageObject);
    ReportUnusedStrings repo (phet_requirejsNamespace packageObject);
    GruntLogOk ("Minification for " +:+ brand +:+ " complete");
    GruntLogOk ("Require.js: " +:+ pretty (js_length productionJS) +:+ " bytes");
    GruntLogOk ("Preloads: " +:+ pretty (sum_lengths productionPreloads) +:+ " bytes");
    GruntLogOk ("Mipmaps: " +:+ pretty (js_length (buildMipmaps env)) +:+ " bytes") ].

(** The content of the file at [path] after the events: the last write wins. *)
Fixpoint written (path : string) (t : list event) : option string :=
  match t with
  | [] => None
  | Write p content :: rest =>
      match written path rest with
      | Some later => Some later
      | None => if String.eqb p path then Some content else None
      end
  | _ :: rest => written path rest
  end.

(** ** Measures on strings and traces *)

(** How often the string holds the character. *)
Fixpoint count_char (c : ascii) (s : string) : nat :=
  match s with
  | EmptyString => 0
  | String x r => (if Ascii.eqb x c then 1 else 0) + count_char c r
  end.

(** The string with every [a] turned into [b]. *)
Fixpoint subst_char (a b : ascii) (s : string) : string :=
  match s with
  | EmptyString => EmptyString
  | String x r => String (if Ascii.eqb x a then b else x) (subst_char a b r)
  end.

(** How many events of the trace pass the test. *)
Fixpoint count_events (f : event -> bool) (t : list event) : nat :=
  match t with
  | [] => 0
  | ev :: rest => (if f ev then 1 else 0) + count_events f rest
  end.

Definition is_packageRunnable (ev : event) : bool :=
  match ev with PackageRunnable _ => true | _ => false end.

Definition is_copySupplemental (ev : event) : bool :=
  match ev with CopySupplementalPhetioFiles _ _ => true | _ => false end.

Definition is_gruntLogDebug (ev : event) : bool :=
  match ev with GruntLogDebug _ => true | _ => false end.


(** ** Two runs compared *)

(** The collaborators of two environments answer alike: every field but the
    two that read the clock, [Date_toISOString] and [template_today]. *)
Record same_collaborators (e1 e2 : Env) : Prop := {
  same_BRANDS : BRANDS e1 = BRANDS e2;
  same_FALLBACK_LOCALE : FALLBACK_LOCALE e1 = FALLBACK_LOCALE e2;
  same_A11Y_VIEW_HTML_SUFFIX : A11Y_VIEW_HTML_SUFFIX e1 = A11Y_VIEW_HTML_SUFFIX e2;
  same_file_exists : forall p, file_exists e1 p = file_exists e2 p;
  same_file_read : forall p, file_read e1 p = file_read e2 p;
  same_file_readJSON : forall p, file_readJSON e1 p = file_readJSON e2 p;
  same_babel_transform : forall js, babel_transform e1 js = babel_transform e2 js;
  same_uglify_minify : forall js c, uglify_minify e1 js c = uglify_minify e2 js c;
  same_requireBuild : forall a b c, requireBuild e1 a b c = requireBuild e2 a b c;
  same_getPreloads : forall a b, getPreloads e1 a b = getPreloads e2 a b;
  same_getPhetLibs : forall a b, getPhetLibs e1 a b = getPhetLibs e2 a b;
  same_getLocalesFromRepository :
    forall a, getLocalesFromRepository e1 a = getLocalesFromRepository e2 a;
  same_getDependencies : forall a, getDependencies e1 a = getDependencies e2 a;
  same_getAllThirdPartyEntries :
    forall a b, getAllThirdPartyEntries e1 a b = getAllThirdPartyEntries e2 a b;
  same_getStringMap : forall a b, getStringMap e1 a b = getStringMap e2 a b;
  same_buildMipmaps : buildMipmaps e1 = buildMipmaps e2;
  same_getTitleStringKey : forall a, getTitleStringKey e1 a = getTitleStringKey e2 a;
  same_loadFileAsDataURI : forall a, loadFileAsDataURI e1 a = loadFileAsDataURI e2 a;
  same_getInitializationScript :
    forall o, getInitializationScript e1 o = getInitializationScript e2 o;
  same_packageRunnable : forall o, packageRunnable e1 o = packageRunnable e2 o;
  same_JSON_stringify : forall v, JSON_stringify e1 v = JSON_stringify e2 v;
  same_htmlEncode : forall s, htmlEncode e1 s = htmlEncode e2 s;
  same_replaceFirst : forall a b c, replaceFirst e1 a b c = replaceFirst e2 a b c;
  same_replaceAll : forall a b c, replaceAll e1 a b c = replaceAll e2 a b c;
  same_getA11yViewHTMLFromTemplate :
    forall a, getA11yViewHTMLFromTemplate e1 a = getA11yViewHTMLFromTemplate e2 a;
  same_generateThumbnails :
    forall a w h, generateThumbnails e1 a w h = generateThumbnails e2 a w h;
  same_generateTwitterCard : forall a, generateTwitterCard e1 a = generateTwitterCard e2 a
}.

(** The environment with the ISO time of the clock replaced. *)
Definition with_Date (iso : string) (e : Env) : Env :=
  {| BRANDS := BRANDS e;
     FALLBACK_LOCALE := FALLBACK_LOCALE e;
     A11Y_VIEW_HTML_SUFFIX := A11Y_VIEW_HTML_SUFFIX e;
     file_exists := file_exists e;
     file_read := file_read e;
     file_readJSON := file_readJSON e;
     template_today := template_today e;
     Date_toISOString := iso;
     babel_transform := babel_transform e;
     uglify_minify := uglify_minify e;
     requireBuild := requireBuild e;
     getPreloads := getPreloads e;
     getPhetLibs := getPhetLibs e;
     getLocalesFromRepository := getLocalesFromRepository e;
     getDependencies := getDependencies e;
     getAllThirdPartyEntries := getAllThirdPartyEntries e;
     getStringMap := getStringMap e;
     buildMipmaps := buildMipmaps e;
     getTitleStringKey := getTitleStringKey e;
     loadFileAsDataURI := loadFileAsDataURI e;
     getInitializationScript := getInitializationScript e;
     packageRunnable := packageRunnable e;
     JSON_stringify := JSON_stringify e;
     htmlEncode := htmlEncode e;
     replaceFirst := replaceFirst e;
     replaceAll := replaceAll e;
     getA11yViewHTMLFromTemplate := getA11yViewHTMLFromTemplate e;
     generateThumbnails := generateThumbnails e;
     generateTwitterCard := generateTwitterCard e |}.

(** The environment with another babel. *)
Definition with_babel_transform (babel : string -> exn + string) (e : Env) : Env :=
  {| BRANDS := BRANDS e;
     FALLBACK_LOCALE := FALLBACK_LOCALE e;
     A11Y_VIEW_HTML_SUFFIX := A11Y_VIEW_HTML_SUFFIX e;
     file_exists := file_exists e;
     file_read := file_read e;
     file_readJSON := file_readJSON e;
     template_today := template_today e;
     Date_toISOString := Date_toISOString e;
     babel_transform := babel;
     uglify_minify := uglify_minify e;
     requireBuild := requireBuild e;
     getPreloads := getPreloads e;
     getPhetLibs := getPhetLibs e;
     getLocalesFromRepository := getLocalesFromRepository e;
     getDependencies := getDependencies e;
     getAllThirdPartyEntries := getAllThirdPartyEntries e;
     getStringMap := getStringMap e;
     buildMipmaps := buildMipmaps e;
     getTitleStringKey := getTitleStringKey e;
     loadFileAsDataURI := loadFileAsDataURI e;
     getInitializationScript := getInitializationScript e;
     packageRunnable := packageRunnable e;
     JSON_stringify := JSON_stringify e;
     htmlEncode := htmlEncode e;
     replaceFirst := replaceFirst e;
     replaceAll := replaceAll e;
     getA11yViewHTMLFromTemplate := getA11yViewHTMLFromTemplate e;
     generateThumbnails := generateThumbnails e;
     generateTwitterCard := generateTwitterCard e |}.

(** The environment with other answers about the files on disk. *)
Definition with_files (exists_ : string -> bool) (readJSON : string -> PackageObject)
  (e : Env) : Env :=
  {| BRANDS := BRANDS e;
     FALLBACK_LOCALE := FALLBACK_LOCALE e;
     A11Y_VIEW_HTML_SUFFIX := A11Y_VIEW_HTML_SUFFIX e;
     file_exists := exists_;
     file_read := file_read e;
     file_readJSON := readJSON;
     template_today := template_today e;
     Date_toISOString := Date_toISOString e;
     babel_transform := babel_transform e;
     uglify_minify := uglify_minify e;
     requireBuild := requireBuild e;
     getPreloads := getPreloads e;
     getPhetLibs := getPhetLibs e;
     getLocalesFromRepository := getLocalesFromRepository e;
     getDependencies := getDependencies e;
     getAllThirdPartyEntries := getAllThirdPartyEntries e;
     getStringMap := getStringMap e;
     buildMipmaps := buildMipmaps e;
     getTitleStringKey := getTitleStringKey e;
     loadFileAsDataURI := loadFileAsDataURI e;
     getInitializationScript := getInitializationScript e;
     packageRunnable := packageRunnable e;
     JSON_stringify := JSON_stringify e;
     htmlEncode := htmlEncode e;
     replaceFirst := replaceFirst e;
     replaceAll := replaceAll e;
     getA11yViewHTMLFromTemplate := getA11yViewHTMLFromTemplate e;
     generateThumbnails := generateThumbnails e;
     generateTwitterCard := generateTwitterCard e |}.

(** ** A small concrete environment

    Stand-ins for the collaborators, simple enough to evaluate: the
    "compressor" refuses input holding a hash sign, drops the statement
    [assert&&check();] when [assert] is bound to false, and marks beautified
    output; packaging joins the header and the scripts. *)
Module Demo.

Definition uglify (js : string) (config : UglifyConfig) : UglifyResult :=
  if contains_char "#" js
  then {| error := Some "SyntaxError: Unexpected character"; code := "" |}
  else {| error := None;
          code :=
            (if beautify config then "/*beautify*/" else "") +:+
            (match global_defs config !! "assert" with
             | Some false => replace "assert&&check();" "" js
             | _ => js
             end) |}.

Definition initializationScript (o : InitializationOptions) : string :=
  "init(" +:+ init_locale o +:+ "," +:+
  (if includeAllLocales o then "all" else "one") +:+ "," +:+
  (if isDebugBuild o then "debug" else "production") +:+ "," +:+
  init_timestamp o +:+ ");".

Definition package (o : PackageOptions) : string :=
  "<!--" +:+ pkg_htmlHeader o +:+ "-->" +:+ join ";" (pkg_scripts o).

Definition table : StringMap :=
  {[ "en" := {[ "demo.title" := "Demo" ]} ]}.

(** [iso] and [year] are the clock, [strings] the string table,
    [checked_out] whether [../phet-io] is there. *)
Definition env (iso year : string) (strings : StringMap) (checked_out : bool) : Env :=
  {| BRANDS := ["phet"; "phet-io"; "adapted-from-phet"];
     FALLBACK_LOCALE := "en";
     A11Y_VIEW_HTML_SUFFIX := "_a11y_view.html";
     file_exists := fun p => if String.eqb p "../phet-io" then checked_out else false;
     file_read := fun p =>
       if String.eqb p "../assert/js/assert.js" then "assert&&check();start();"
       else "/*" +:+ p +:+ "*/";
     file_readJSON := fun _ =>
       {| version := "1.0.0"; phet_requirejsNamespace := "DEMO";
          phet_accessible := VUndefined |};
     template_today := fun _ => year;
     Date_toISOString := iso;
     babel_transform := fun js => inr js;
     uglify_minify := uglify;
     requireBuild := fun repo _ _ => "assert&&check();main(" +:+ repo +:+ ");";
     getPreloads := fun _ _ => ["../assert/js/assert.js"];
     getPhetLibs := fun repo _ => [repo];
     getLocalesFromRepository := fun _ => ["es"];
     getDependencies := fun _ => VObject [("chipper", "abc123")];
     getAllThirdPartyEntries := fun _ _ => VObject [];
     getStringMap := fun _ _ => strings;
     buildMipmaps := "mipmaps();";
     getTitleStringKey := fun repo => repo +:+ ".title";
     loadFileAsDataURI := fun p => "data:" +:+ p;
     getInitializationScript := initializationScript;
     packageRunnable := package;
     JSON_stringify := fun _ => "{}";
     htmlEncode := fun s => s;
     replaceFirst := fun s _ _ => s;
     replaceAll := fun s _ _ => s;
     getA11yViewHTMLFromTemplate := fun _ => "<html></html>";
     generateThumbnails := fun _ _ _ => "png";
     generateTwitterCard := fun _ => "png" |}.

Definition env0 : Env := env "2017-12-31T23:59:59.123Z" "2017" table true.
Definition env_same_second : Env := env "2017-12-31T23:59:59.987Z" "2017" table true.
Definition env_next_year : Env := env "2018-01-01T00:00:01.456Z" "2018" table true.

Definition request (uglify allHTML : bool) (brand locales : string) : BuildRequest :=
  {| req_repo := VStr "demo"; req_uglify := VBool uglify; req_mangle := VBool true;
     req_instrument := VBool false; req_allHTML := VBool allHTML;
     req_brand := VStr brand; req_localesOption := VStr locales |}.

(** The demo environment of a simulation with a screenshot and support for
    accessibility. *)
Definition env_full : Env :=
  with_files (fun _ => true)
    (fun _ => {| version := "1.0.0"; phet_requirejsNamespace := "DEMO";
                 phet_accessible := VBool true |})
    env0.

End Demo.

(** * Properties *)

(** ** Strings *)

Lemma append_assoc (a b c : string) : (a +:+ b) +:+ c = a +:+ b +:+ c.
Proof.
  induction a as [| x a IH]; [reflexivity |].
  change (String x ((a +:+ b) +:+ c) = String x (a +:+ b +:+ c)). now rewrite IH.
Qed.

(** ** Running the monad *)

Lemma bind_run {A B} (m : M A) (k : A -> M B) t a t1 res :
  m t = (inr a, t1) -> k a t1 = res -> bind m k t = res.
Proof. intros Hm Hk. unfold bind. now rewrite Hm. Qed.

Lemma returns_unique {A} (m : M A) (a b : A) : returns m a -> returns m b -> a = b.
Proof. intros Ha Hb. specialize (Ha []). rewrite (Hb []) in Ha. now inversion Ha. Qed.

Lemma bind_throw {A B} (m : M A) (k : A -> M B) t e t1 :
  m t = (inl e, t1) -> bind m k t = (inl e, t1).
Proof. intros Hm. unfold bind. now rewrite Hm. Qed.

Lemma bind_inr_inv {A B} (m : M A) (k : A -> M B) t b t2 :
  bind m k t = (inr b, t2) ->
  exists a t1, m t = (inr a, t1) /\ k a t1 = (inr b, t2).
Proof.
  unfold bind. destruct (m t) as [[e | a] t1]; intros H; [discriminate | eauto].
Qed.

Lemma assert_inr_inv cond message t u t' :
  assert cond message t = (inr u, t') -> cond = true /\ t' = t.
Proof.
  unfold assert. destruct cond; cbv [ret throw]; intros H; inversion H; auto.
Qed.

Lemma for_of_events {A} (body : A -> M unit) (f : A -> list event) (l : list A) :
  (forall x t, body x t = (inr tt, t ++ f x)) ->
  forall t, for_of l body t = (inr tt, t ++ flat_map f l).
Proof.
  intros Hbody. induction l as [| x l IH]; intros t; simpl.
  - unfold ret. now rewrite app_nil_r.
  - eapply bind_run; [apply Hbody |]. rewrite IH. now rewrite <- app_assoc.
Qed.

Lemma flat_map_singleton {A B} (f : A -> B) (l : list A) :
  flat_map (fun x => [f x]) l = map f l.
Proof. induction l as [| x l IH]; simpl; [reflexivity | now rewrite IH]. Qed.

Lemma invoke_packageRunnable_run env options path t :
  bind (invoke_packageRunnable env options) (fun html => emit (Write path html)) t
  = (inr tt, t ++ packaged env path options).
Proof.
  unfold invoke_packageRunnable, packaged, bind, emit, ret. cbn.
  now rewrite <- app_assoc.
Qed.

(** The title lookup reads no state: it gives the same answer on every trace. *)
Lemma lookup_title_pure env stringMap key t v t' :
  lookup_title env stringMap key t = (inr v, t') ->
  forall t2, lookup_title env stringMap key t2 = (inr v, t2).
Proof.
  unfold lookup_title.
  destruct (stringMap !! FALLBACK_LOCALE env) as [strings |]; [| discriminate].
  destruct (strings !! key); cbv [ret]; intros H t2; inversion H; reflexivity.
Qed.

(** ** The artifacts written *)

(** [writeArtifacts] never throws once the title lookup has succeeded, and
    does exactly the enumerated events, in order. *)
Lemma writeArtifacts_run env r englishTitle :
  (forall t, lookup_title env (r_stringMap r) (getTitleStringKey env (r_repo r)) t
             = (inr englishTitle, t)) ->
  forall t, writeArtifacts env r t = (inr tt, t ++ artifactEvents env r englishTitle).
Proof.
  intros Htitle t. unfold writeArtifacts, artifactEvents, auxiliaryEvents.
  eapply bind_run; [reflexivity |].
  eapply bind_run with (t1 := (t ++ [Mkdir (buildDir r)]) ++ localeEvents env r).
  { unfold localeEvents, is_phet_io. destruct (String.eqb (r_brand r) "phet-io"); simpl.
    - unfold ret. now rewrite app_nil_r.
    - apply for_of_events. intros x t0. apply invoke_packageRunnable_run. }
  eapply bind_run with (t1 := ((t ++ [Mkdir (buildDir r)]) ++ localeEvents env r) ++ allEvents env r).
  { unfold allEvents, is_phet_io.
    destruct (truthy (r_allHTML r) || String.eqb (r_brand r) "phet-io").
    - apply invoke_packageRunnable_run.
    - unfold ret. now rewrite app_nil_r. }
  eapply bind_run; [apply invoke_packageRunnable_run |].
  eapply bind_run; [reflexivity |].
  eapply bind_run; [reflexivity |].
  eapply bind_run; [reflexivity |].
  match goal with |- bind _ _ ?t0 = _ =>
    eapply bind_run with (t1 := t0 ++ iframeEvents env r englishTitle) end.
  { unfold iframeEvents, is_phet.
    destruct (existsb (String.eqb (FALLBACK_LOCALE env)) (r_locales r)
              && String.eqb (r_brand r) "phet").
    - eapply bind_run; [apply Htitle |].
      eapply bind_run; [reflexivity |].
      rewrite for_of_events
        with (f := fun locale =>
                     [Write (buildDir r +:+ "/" +:+ r_repo r +:+ "_" +:+ locale +:+ "_iframe_phet.html")
                        (replaceFirst env
                           (replaceFirst env
                              (replaceFirst env (file_read env "../chipper/templates/sim-iframe.html")
                                 "{{PHET_SIM_TITLE}}"
                                 (htmlEncode env (to_string englishTitle +:+ " iframe test")))
                              "{{PHET_REPOSITORY}}" (r_repo r))
                           "{{PHET_LOCALE}}" locale)])
        by reflexivity.
      rewrite flat_map_singleton. now rewrite <- app_assoc.
    - unfold ret. now rewrite app_nil_r. }
  match goal with |- bind _ _ ?t0 = _ =>
    eapply bind_run with (t1 := t0 ++ a11yEvents env r) end.
  { unfold a11yEvents, is_phet.
    destruct (truthy (phet_accessible (r_packageObject r)) && String.eqb (r_brand r) "phet").
    - reflexivity.
    - unfold ret. now rewrite app_nil_r. }
  match goal with |- bind _ _ ?t0 = _ =>
    eapply bind_run with (t1 := t0 ++ supplementalEvents r) end.
  { unfold supplementalEvents, is_phet_io. destruct (String.eqb (r_brand r) "phet-io").
    - reflexivity.
    - unfold ret. now rewrite app_nil_r. }
  match goal with |- _ ?t0 = _ =>
    assert (Hlast : forall t1,
      (if file_exists env ("../" +:+ r_repo r +:+ "/assets/" +:+ r_repo r +:+ "-screenshot.png")
       then for_of thumbnailSizes (fun size =>
              emit (Write (buildDir r +:+ "/" +:+ r_repo r +:+ "-" +:+ pretty (width size) +:+ ".png")
                      (generateThumbnails env (r_repo r) (width size) (height size)))) ;;;
            (if String.eqb (r_brand r) "phet"
             then emit (Write (buildDir r +:+ "/" +:+ r_repo r +:+ "-twitter-card.png")
                          (generateTwitterCard env (r_repo r)))
             else ret tt)
       else ret tt) t1 = (inr tt, t1 ++ thumbnailEvents env r)) end.
  { intros t1. unfold thumbnailEvents, is_phet.
    destruct (file_exists env _).
    - destruct (String.eqb (r_brand r) "phet"); cbn; unfold bind, emit, ret; cbn;
        repeat rewrite <- app_assoc; cbn; try rewrite app_nil_r; reflexivity.
    - unfold ret. now rewrite app_nil_r. }
  rewrite Hlast. f_equal.
  unfold debugEvents, xhtmlEvents, dependenciesEvents.
  repeat rewrite <- app_assoc. reflexivity.
Qed.

(** ** The compressor *)

Lemma minify_ok env js options js' t :
  compressor_input env options js = inr js' ->
  error (uglify_minify env js' (minify_config options)) = None ->
  minify env js options t
  = (inr (replace VT_string VT_escaped (code (uglify_minify env js' (minify_config options)))), t).
Proof.
  unfold compressor_input, minify, transpile. intros Hin Herr.
  destruct (default false (babelTranspile options)).
  - rewrite Hin. unfold bind, ret. now rewrite Herr.
  - inversion Hin; subst. unfold bind, ret. now rewrite Herr.
Qed.

Lemma minify_inr_inv env js options t c t' :
  minify env js options t = (inr c, t') ->
  t' = t /\
  exists js', compressor_input env options js = inr js' /\
    error (uglify_minify env js' (minify_config options)) = None /\
    c = replace VT_string VT_escaped (code (uglify_minify env js' (minify_config options))).
Proof.
  unfold compressor_input, minify, transpile.
  destruct (default false (babelTranspile options)).
  - destruct (babel_transform env js) as [e | js']; unfold bind, throw, ret; [discriminate |].
    destruct (error (uglify_minify env js' _)) eqn:Herr; cbn; intros H; inversion H; subst.
    split; [reflexivity |]. exists js'. auto.
  - unfold bind, ret.
    destruct (error (uglify_minify env js _)) eqn:Herr; cbn; intros H; inversion H; subst.
    split; [reflexivity |]. exists js. auto.
Qed.

Lemma minify_returns env js options t c t' :
  minify env js options t = (inr c, t') -> t' = t /\ returns (minify env js options) c.
Proof.
  intros H. apply minify_inr_inv in H as (-> & js' & Hin & Herr & ->).
  split; [reflexivity |]. intros t2. now apply minify_ok.
Qed.

Lemma ret_returns {A} (a b : A) t t' :
  ret a t = (inr b, t') -> t' = t /\ returns (ret a) b.
Proof. unfold ret. intros H; inversion H; subst. split; [reflexivity | now intros t2]. Qed.

Lemma map_M_returns {A B} (f : A -> M B) (l : list A) :
  (forall x t y t', f x t = (inr y, t') -> t' = t /\ returns (f x) y) ->
  forall t ys t', map_M f l t = (inr ys, t') -> t' = t /\ returns (map_M f l) ys.
Proof.
  intros Hf. induction l as [| x l IH]; intros t ys t' H; simpl in *.
  - now apply ret_returns in H.
  - apply bind_inr_inv in H as (y & t1 & Hy & H).
    apply bind_inr_inv in H as (ys' & t2 & Hys & H).
    apply Hf in Hy as [-> Hy]. apply IH in Hys as [-> Hys].
    unfold ret in H. inversion H; subst. split; [reflexivity |].
    intros t3. eapply bind_run; [apply Hy |]. eapply bind_run; [apply Hys |]. reflexivity.
Qed.

Lemma productionJS_returns env uglify mangle requireJS t c t' :
  productionJS env uglify mangle requireJS t = (inr c, t') ->
  t' = t /\ returns (productionJS env uglify mangle requireJS) c.
Proof.
  unfold productionJS. destruct (truthy uglify); [apply minify_returns | apply ret_returns].
Qed.

Lemma debugJS_returns env brand requireJS t c t' :
  debugJS env brand requireJS t = (inr c, t') ->
  t' = t /\ returns (debugJS env brand requireJS) c.
Proof.
  unfold debugJS. destruct (String.eqb brand "phet-io"); [apply minify_returns | apply ret_returns].
Qed.

Lemma productionPreloads_returns env uglify mangle raw t c t' :
  productionPreloads env uglify mangle raw t = (inr c, t') ->
  t' = t /\ returns (productionPreloads env uglify mangle raw) c.
Proof.
  unfold productionPreloads. apply map_M_returns. intros x t0 y t0'.
  destruct (truthy uglify); [apply minify_returns | apply ret_returns].
Qed.

Lemma debugPreloads_returns env brand raw t c t' :
  debugPreloads env brand raw t = (inr c, t') ->
  t' = t /\ returns (debugPreloads env brand raw) c.
Proof.
  unfold debugPreloads. apply map_M_returns. intros x t0 y t0'.
  destruct (String.eqb brand "phet-io"); [apply minify_returns | apply ret_returns].
Qed.

(** ** What a completed [resolveInputs] has computed *)

Lemma resolveInputs_inv env repo brand uglify mangle instrument allHTML localesOption t r t' :
  resolveInputs env repo brand uglify mangle instrument allHTML localesOption t = (inr r, t') ->
  exists locales englishTitle,
    returns (productionJS env uglify mangle (moduleBundle env repo brand instrument))
      (r_productionJS r) /\
    returns (debugJS env brand (moduleBundle env repo brand instrument)) (r_debugJS r) /\
    returns (productionPreloads env uglify mangle (rawPreloads env repo brand))
      (r_productionPreloads r) /\
    returns (debugPreloads env brand (rawPreloads env repo brand)) (r_debugPreloads r) /\
    resolved_locales env repo localesOption = Some locales /\
    returns (lookup_title env (r_stringMap r) (getTitleStringKey env repo)) englishTitle /\
    truthy englishTitle = true /\
    r = resolved env repo brand allHTML (r_productionJS r) (r_debugJS r)
          (r_productionPreloads r) (r_debugPreloads r) locales englishTitle /\
    t' = t ++ resolveEvents env repo brand (r_productionJS r) (r_productionPreloads r).
Proof.
  unfold resolveInputs. fold (moduleBundle env repo brand instrument). intros H.
  apply bind_inr_inv in H as (pJS & t1 & HpJS & H).
  apply bind_inr_inv in H as (dJS & t2 & HdJS & H).
  apply bind_inr_inv in H as ([] & t3 & E1 & H).
  apply bind_inr_inv in H as ([] & t4 & E2 & H).
  apply bind_inr_inv in H as (pP & t5 & HpP & H).
  apply bind_inr_inv in H as (dP & t6 & HdP & H).
  apply bind_inr_inv in H as (locales & t7 & Hloc & H).
  apply bind_inr_inv in H as (title & t8 & Htitle & H).
  apply bind_inr_inv in H as ([] & t9 & Hassert & H).
  apply bind_inr_inv in H as ([] & t10 & E3 & H).
  apply bind_inr_inv in H as ([] & t11 & E4 & H).
  apply bind_inr_inv in H as ([] & t12 & E5 & H).
  apply bind_inr_inv in H as ([] & t13 & E6 & H).
  apply productionJS_returns in HpJS as [-> HpJS].
  apply debugJS_returns in HdJS as [-> HdJS].
  apply productionPreloads_returns in HpP as [-> HpP].
  apply debugPreloads_returns in HdP as [-> HdP].
  apply assert_inr_inv in Hassert as [Htruthy ->].
  pose proof (lookup_title_pure _ _ _ _ _ _ Htitle) as Htitle'.
  rewrite Htitle' in Htitle. inversion Htitle; subst t8.
  unfold emit in E1, E2, E3, E4, E5, E6.
  inversion E1; subst t3. inversion E2; subst t4.
  inversion E3; subst t10. inversion E4; subst t11.
  inversion E5; subst t12. inversion E6; subst t13.
  unfold ret in H. inversion H; subst r t'. clear H. cbn.
  exists locales, title.
  assert (Hl : resolved_locales env repo localesOption = Some locales /\ t7 = t ++ [ReportUnusedMedia (phet_requirejsNamespace (file_readJSON env ("../" +:+ repo +:+ "/package.json"))); ReportUnusedStrings repo (phet_requirejsNamespace (file_readJSON env ("../" +:+ repo +:+ "/package.json")))]).
  { unfold resolved_locales. destruct localesOption; cbv [throw ret] in Hloc;
      try discriminate. inversion Hloc; subst. rewrite <- app_assoc. auto. }
  destruct Hl as [Hl ->].
  repeat split; try assumption.
  unfold resolveEvents. repeat rewrite <- app_assoc. reflexivity.
Qed.

Lemma resolveInputs_run env repo brand uglify mangle instrument allHTML localesOption
  pJS dJS pP dP locales englishTitle :
  returns (productionJS env uglify mangle (moduleBundle env repo brand instrument)) pJS ->
  returns (debugJS env brand (moduleBundle env repo brand instrument)) dJS ->
  returns (productionPreloads env uglify mangle (rawPreloads env repo brand)) pP ->
  returns (debugPreloads env brand (rawPreloads env repo brand)) dP ->
  resolved_locales env repo localesOption = Some locales ->
  returns (lookup_title env
             (getStringMap env (FALLBACK_LOCALE env :: getLocalesFromRepository env repo)
                (getPhetLibs env repo brand))
             (getTitleStringKey env repo)) englishTitle ->
  truthy englishTitle = true ->
  forall t,
    resolveInputs env repo brand uglify mangle instrument allHTML localesOption t
    = (inr (resolved env repo brand allHTML pJS dJS pP dP locales englishTitle),
       t ++ resolveEvents env repo brand pJS pP).
Proof.
  intros HpJS HdJS HpP HdP Hloc Htitle Htruthy t.
  unfold resolveInputs. fold (moduleBundle env repo brand instrument).
  eapply bind_run; [apply HpJS |].
  eapply bind_run; [apply HdJS |].
  eapply bind_run; [reflexivity |].
  eapply bind_run; [reflexivity |].
  eapply bind_run; [apply HpP |].
  eapply bind_run; [apply HdP |].
  unfold resolved_locales in Hloc.
  destruct localesOption as [| | | | s |]; try discriminate.
  inversion Hloc; subst locales. clear Hloc.
  eapply bind_run; [reflexivity |].
  eapply bind_run; [apply Htitle |].
  unfold assert. rewrite Htruthy.
  eapply bind_run; [reflexivity |].
  unfold bind, emit, ret, resolved, resolveEvents. cbn.
  repeat rewrite <- app_assoc. reflexivity.
Qed.

(** Where the transforms do not fail, the compressor returns. *)
Lemma minify_total env js options :
  transform_succeeds env js -> exists c, returns (minify env js options) c.
Proof.
  intros H. destruct (H options) as (js' & Hin & Herr).
  eexists. intros t. apply minify_ok; eassumption.
Qed.

Lemma map_M_total {A B} (f : A -> M B) (l : list A) :
  (forall x, In x l -> exists y, returns (f x) y) -> exists ys, returns (map_M f l) ys.
Proof.
  induction l as [| x l IH]; intros Hf; simpl.
  - exists []. now intros t.
  - destruct (Hf x) as [y Hy]; [now left |].
    destruct IH as [ys IH]; [intros z Hz; apply Hf; now right |].
    exists (y :: ys). intros t.
    eapply bind_run; [apply Hy |]. eapply bind_run; [apply IH |]. reflexivity.
Qed.

Lemma productionJS_total env uglify mangle requireJS :
  transform_succeeds env requireJS ->
  exists c, returns (productionJS env uglify mangle requireJS) c.
Proof.
  intros H. unfold productionJS. destruct (truthy uglify).
  - now apply minify_total.
  - eexists. now intros t.
Qed.

Lemma debugJS_total env brand requireJS :
  transform_succeeds env requireJS -> exists c, returns (debugJS env brand requireJS) c.
Proof.
  intros H. unfold debugJS. destruct (String.eqb brand "phet-io").
  - now apply minify_total.
  - eexists. now intros t.
Qed.

Lemma productionPreloads_total env uglify mangle raw :
  (forall js, In js raw -> transform_succeeds env js) ->
  exists c, returns (productionPreloads env uglify mangle raw) c.
Proof.
  intros H. unfold productionPreloads. apply map_M_total. intros x Hx.
  destruct (truthy uglify).
  - apply minify_total. now apply H.
  - eexists. now intros t.
Qed.

Lemma debugPreloads_total env brand raw :
  (forall js, In js raw -> transform_succeeds env js) ->
  exists c, returns (debugPreloads env brand raw) c.
Proof.
  intros H. unfold debugPreloads. apply map_M_total. intros x Hx.
  destruct (String.eqb brand "phet-io").
  - apply minify_total. now apply H.
  - eexists. now intros t.
Qed.

(** The title check, as a value. *)
Lemma title_present_lookup env req :
  title_present env req = true ->
  exists englishTitle,
    returns (lookup_title env (resolved_stringMap env req)
               (getTitleStringKey env (to_string (req_repo req)))) englishTitle /\
    truthy englishTitle = true.
Proof.
  unfold title_present, lookup_title.
  destruct (resolved_stringMap env req !! FALLBACK_LOCALE env) as [strings |]; [| discriminate].
  destruct (strings !! getTitleStringKey env (to_string (req_repo req))) as [text |];
    [| discriminate].
  intros H. exists (VStr text). split; [now intros t | exact H].
Qed.

Lemma lookup_title_absent env req t :
  title_present env req = false ->
  match lookup_title env (resolved_stringMap env req)
          (getTitleStringKey env (to_string (req_repo req))) t with
  | (inr englishTitle, _) => truthy englishTitle = false
  | (inl _, _) => True
  end.
Proof.
  unfold title_present, lookup_title.
  destruct (resolved_stringMap env req !! FALLBACK_LOCALE env) as [strings |]; [| now cbn].
  destruct (strings !! getTitleStringKey env (to_string (req_repo req))) as [text |]; cbn.
  - intros H. now apply negb_false_iff in H as ->.
  - reflexivity.
Qed.

(** ** The head of [buildRunnable] *)

Lemma run_preconditions env req t :
  preconditions env req = true ->
  run env req t = bind (resolve env req) (writeArtifacts env) t.
Proof.
  unfold preconditions, run, buildRunnable. intros H.
  apply andb_prop in H as [H H5]. apply andb_prop in H as [H H4].
  apply andb_prop in H as [H H3]. apply andb_prop in H as [H1 H2].
  rewrite H1, H2, H3, H4. unfold assert at 1 2 3 4.
  eapply bind_run; [reflexivity |]. eapply bind_run; [reflexivity |].
  eapply bind_run; [reflexivity |]. eapply bind_run; [reflexivity |].
  destruct (strict_eq_string (req_brand req) "phet-io").
  - rewrite H5. reflexivity.
  - reflexivity.
Qed.

Lemma run_preconditions_fail env req t :
  preconditions env req = false ->
  exists message, run env req t = (inl (AssertionError message), t).
Proof.
  unfold preconditions, run, buildRunnable. intros H.
  destruct (String.eqb (typeof (req_repo req)) "string"); [| eexists; reflexivity].
  destruct (String.eqb (typeof (req_uglify req)) "boolean"); [| eexists; reflexivity].
  destruct (String.eqb (typeof (req_mangle req)) "boolean"); [| eexists; reflexivity].
  destruct (includes (BRANDS env) (req_brand req)); [| eexists; reflexivity].
  destruct (strict_eq_string (req_brand req) "phet-io"); [| discriminate].
  cbn in H. rewrite H. eexists; reflexivity.
Qed.

(** A value whose [typeof] is [string] is a string. *)
Lemma typeof_string v : String.eqb (typeof v) "string" = true -> v = VStr (to_string v).
Proof. destruct v; cbn; try discriminate. reflexivity. Qed.

(** ** Whole runs *)

(** A resolved request: the facts about [r] the claims need. *)
Record resolution (env : Env) (req : BuildRequest) (r : Resolved) (englishTitle : value)
  : Prop := {
  res_repo : r_repo r = to_string (req_repo req);
  res_brand : r_brand r = to_string (req_brand req);
  res_allHTML : r_allHTML r = req_allHTML req;
  res_locales :
    resolved_locales env (to_string (req_repo req)) (req_localesOption req)
    = Some (r_locales r);
  res_stringMap : r_stringMap r = resolved_stringMap env req;
  res_timestamp : r_timestamp r = timestamp env;
  res_productionJS :
    returns (productionJS env (req_uglify req) (req_mangle req) (bundle env req))
      (r_productionJS r);
  res_debugJS :
    returns (debugJS env (to_string (req_brand req)) (bundle env req)) (r_debugJS r);
  res_productionPreloads :
    returns (productionPreloads env (req_uglify req) (req_mangle req) (preloads env req))
      (r_productionPreloads r);
  res_debugPreloads :
    returns (debugPreloads env (to_string (req_brand req)) (preloads env req))
      (r_debugPreloads r);
  res_title :
    returns (lookup_title env (r_stringMap r) (getTitleStringKey env (r_repo r))) englishTitle;
  res_title_truthy : truthy englishTitle = true
}.

Lemma resolve_inv env req t r t1 :
  resolve env req t = (inr r, t1) ->
  exists englishTitle,
    resolution env req r englishTitle /\
    t1 = t ++ resolveEvents env (r_repo r) (r_brand r) (r_productionJS r) (r_productionPreloads r).
Proof.
  unfold resolve. intros H.
  apply resolveInputs_inv in H
    as (locales & title & HpJS & HdJS & HpP & HdP & Hloc & Htitle & Htruthy & Hr & ->).
  exists title. split.
  - rewrite Hr. split; cbn; try reflexivity; try assumption.
    rewrite Hr in Htitle. exact Htitle.
  - rewrite Hr. reflexivity.
Qed.

Lemma run_inv env req t t' :
  run env req t = (inr tt, t') ->
  preconditions env req = true /\
  exists r englishTitle,
    resolution env req r englishTitle /\
    resolve env req t
    = (inr r, t ++ resolveEvents env (r_repo r) (r_brand r) (r_productionJS r)
                     (r_productionPreloads r)) /\
    t' = (t ++ resolveEvents env (r_repo r) (r_brand r) (r_productionJS r)
                 (r_productionPreloads r))
         ++ artifactEvents env r englishTitle.
Proof.
  intros H. destruct (preconditions env req) eqn:Hpre.
  - split; [reflexivity |]. rewrite run_preconditions in H by assumption.
    apply bind_inr_inv in H as (r & t1 & Hres & Hwrite).
    pose proof Hres as Hres'.
    apply resolve_inv in Hres' as (title & Hr & ->).
    exists r, title. split; [exact Hr |]. split; [exact Hres |].
    rewrite (writeArtifacts_run env r title (res_title _ _ _ _ Hr)) in Hwrite.
    now inversion Hwrite.
  - destruct (run_preconditions_fail env req t Hpre) as [message Hfail].
    rewrite Hfail in H. discriminate.
Qed.

(** A valid request whose sources the transforms accept is built to the end. *)
Lemma run_complete env req t :
  valid env req = true ->
  transforms_succeed env req ->
  exists r englishTitle,
    resolution env req r englishTitle /\
    run env req t
    = (inr tt,
       (t ++ resolveEvents env (r_repo r) (r_brand r) (r_productionJS r)
               (r_productionPreloads r))
       ++ artifactEvents env r englishTitle).
Proof.
  unfold valid. intros Hvalid Htransforms.
  apply andb_prop in Hvalid as [Hvalid Htitle]. apply andb_prop in Hvalid as [Hpre Hlocales].
  destruct (productionJS_total env (req_uglify req) (req_mangle req) (bundle env req))
    as [pJS HpJS]; [apply Htransforms; now left |].
  destruct (debugJS_total env (to_string (req_brand req)) (bundle env req))
    as [dJS HdJS]; [apply Htransforms; now left |].
  destruct (productionPreloads_total env (req_uglify req) (req_mangle req) (preloads env req))
    as [pP HpP]; [intros js Hjs; apply Htransforms; now right |].
  destruct (debugPreloads_total env (to_string (req_brand req)) (preloads env req))
    as [dP HdP]; [intros js Hjs; apply Htransforms; now right |].
  destruct (title_present_lookup env req Htitle) as (title & Hlookup & Htruthy).
  apply typeof_string in Hlocales.
  assert (Hloc : exists locales,
             resolved_locales env (to_string (req_repo req)) (req_localesOption req)
             = Some locales).
  { rewrite Hlocales. cbn. eauto. }
  destruct Hloc as [locales Hloc].
  pose proof (resolveInputs_run env (to_string (req_repo req)) (to_string (req_brand req))
                (req_uglify req) (req_mangle req) (req_instrument req) (req_allHTML req)
                (req_localesOption req) pJS dJS pP dP locales title
                HpJS HdJS HpP HdP Hloc Hlookup Htruthy t) as Hres.
  fold (resolve env req) in Hres.
  pose proof Hres as Hres'. apply resolve_inv in Hres' as (title' & Hr & _).
  exists (resolved env (to_string (req_repo req)) (to_string (req_brand req)) (req_allHTML req)
            pJS dJS pP dP locales title), title.
  assert (Hr' : resolution env req
                  (resolved env (to_string (req_repo req)) (to_string (req_brand req))
                     (req_allHTML req) pJS dJS pP dP locales title) title).
  { destruct Hr. split; assumption. }
  split; [exact Hr' |].
  rewrite run_preconditions by assumption.
  eapply bind_run; [exact Hres |].
  apply writeArtifacts_run. exact (res_title _ _ _ _ Hr').
Qed.

(** ** Nothing is written before the build directory is made *)

Lemma quiet_ret {A} (a : A) : quiet (ret a).
Proof. intros t res t' H. inversion H. exists []. now rewrite app_nil_r. Qed.

Lemma quiet_throw {A} (e : exn) : quiet (@throw A e).
Proof. intros t res t' H. inversion H. exists []. now rewrite app_nil_r. Qed.

Lemma quiet_emit ev : is_log ev = true -> quiet (emit ev).
Proof. intros Hev t res t' H. inversion H. exists [ev]. auto. Qed.

Lemma quiet_assert cond message : quiet (assert cond message).
Proof. unfold assert. destruct cond; [apply quiet_ret | apply quiet_throw]. Qed.

Lemma quiet_bind {A B} (m : M A) (k : A -> M B) :
  quiet m -> (forall a, quiet (k a)) -> quiet (bind m k).
Proof.
  intros Hm Hk t res t' H. unfold bind in H.
  destruct (m t) as [[e | a] t1] eqn:E.
  - inversion H; subst. eapply Hm. exact E.
  - apply Hm in E as (l1 & -> & Hl1). apply Hk in H as (l2 & -> & Hl2).
    exists (l1 ++ l2). rewrite app_assoc. split; [reflexivity | now apply Forall_app].
Qed.

Lemma quiet_map_M {A B} (f : A -> M B) (l : list A) :
  (forall x, quiet (f x)) -> quiet (map_M f l).
Proof.
  intros Hf. induction l as [| x l IH]; simpl.
  - apply quiet_ret.
  - apply quiet_bind; [apply Hf |]. intros y.
    apply quiet_bind; [apply IH |]. intros ys. apply quiet_ret.
Qed.

Lemma quiet_minify env js options : quiet (minify env js options).
Proof.
  unfold minify. apply quiet_bind.
  - destruct (default false (babelTranspile options)); [| apply quiet_ret].
    unfold transpile. destruct (babel_transform env js); [apply quiet_throw | apply quiet_ret].
  - intros js'. destruct (error (uglify_minify env js' (minify_config options))).
    + apply quiet_bind; [now apply quiet_emit |]. intros _. apply quiet_throw.
    + apply quiet_ret.
Qed.

Create HintDb quiet.
#[local] Hint Resolve quiet_ret quiet_throw quiet_assert quiet_minify : quiet.

Lemma quiet_resolveInputs env repo brand uglify mangle instrument allHTML localesOption :
  quiet (resolveInputs env repo brand uglify mangle instrument allHTML localesOption).
Proof.
  unfold resolveInputs, productionJS, debugJS, productionPreloads, debugPreloads, lookup_title.
  repeat first
    [ solve [auto with quiet]
    | apply quiet_emit; reflexivity
    | match goal with
      | |- quiet (if ?c then _ else _) => destruct c
      | |- quiet (match ?x with _ => _ end) => destruct x
      | |- quiet (map_M _ _) => apply quiet_map_M; intros ?
      | |- quiet (bind _ _) => apply quiet_bind; [| intros ?]
      end ].
Qed.

Lemma is_log_no_write ev : is_log ev = true -> writes_files ev = false.
Proof. destruct ev; cbn; congruence. Qed.

(** A run that throws has only reported and logged. *)
Lemma run_throws_quiet env req t e t' :
  run env req t = (inl e, t') ->
  exists l, t' = t ++ l /\ Forall (fun ev => is_log ev = true) l.
Proof.
  intros H. destruct (preconditions env req) eqn:Hpre.
  - rewrite run_preconditions in H by assumption. unfold bind in H.
    destruct (resolve env req t) as [[e' | r] t1] eqn:Hres.
    + inversion H; subst. eapply quiet_resolveInputs. exact Hres.
    + pose proof Hres as Hres'. apply resolve_inv in Hres' as (title & Hr & _).
      rewrite (writeArtifacts_run env r title (res_title _ _ _ _ Hr)) in H. discriminate.
  - destruct (run_preconditions_fail env req t Hpre) as [message Hfail].
    rewrite Hfail in H. inversion H; subst. exists []. now rewrite app_nil_r.
Qed.

(** ** The demo environment *)

Lemma demo_transform_succeeds iso year strings checked_out js :
  contains_char "#" js = false ->
  transform_succeeds (Demo.env iso year strings checked_out) js.
Proof.
  intros Hclean options. exists js. split.
  - unfold compressor_input. now destruct (default false (babelTranspile options)).
  - cbn. unfold Demo.uglify. now rewrite Hclean.
Qed.

Lemma demo_transforms_succeed iso year strings checked_out req :
  forallb (fun js => negb (contains_char "#" js))
    (bundle (Demo.env iso year strings checked_out) req
       :: preloads (Demo.env iso year strings checked_out) req) = true ->
  transforms_succeed (Demo.env iso year strings checked_out) req.
Proof.
  intros H js Hjs. apply demo_transform_succeeds.
  rewrite forallb_forall in H. apply H in Hjs. now apply negb_true_iff in Hjs.
Qed.

(** ** Completed runs, from the request *)

Lemma compresses_returns env options js :
  compresses env options js -> exists c, returns (minify env js options) c.
Proof.
  intros (js' & Hin & Herr). eexists. intros t. apply minify_ok; eassumption.
Qed.

Lemma returns_compresses env options js c :
  returns (minify env js options) c -> compresses env options js.
Proof.
  intros H. specialize (H []). apply minify_inr_inv in H as (_ & js' & Hin & Herr & _).
  exists js'. auto.
Qed.

Lemma resolved_title_lookup env req :
  title_present env req = true ->
  returns (lookup_title env (resolved_stringMap env req)
             (getTitleStringKey env (to_string (req_repo req))))
    (resolved_title env req) /\
  truthy (resolved_title env req) = true.
Proof.
  unfold title_present, lookup_title, resolved_title.
  destruct (resolved_stringMap env req !! FALLBACK_LOCALE env) as [strings |]; [| discriminate].
  destruct (strings !! getTitleStringKey env (to_string (req_repo req))) as [text |];
    [| discriminate].
  intros H. split; [now intros t | exact H].
Qed.

(** A valid request whose compressions succeed is built to the end; the
    resolved record is the one of the request. *)
Lemma run_complete_exact env req :
  valid env req = true ->
  compressions_succeed env req ->
  exists pJS dJS pP dP locales,
    returns (productionJS env (req_uglify req) (req_mangle req) (bundle env req)) pJS /\
    returns (debugJS env (to_string (req_brand req)) (bundle env req)) dJS /\
    returns (productionPreloads env (req_uglify req) (req_mangle req) (preloads env req)) pP /\
    returns (debugPreloads env (to_string (req_brand req)) (preloads env req)) dP /\
    resolved_locales env (to_string (req_repo req)) (req_localesOption req) = Some locales /\
    run env req []
    = (inr tt,
       resolveEvents env (to_string (req_repo req)) (to_string (req_brand req)) pJS pP
       ++ artifactEvents env (resolved_for env req pJS dJS pP dP locales)
            (resolved_title env req)).
Proof.
  unfold valid. intros Hvalid [Hproduction Hdebug].
  apply andb_prop in Hvalid as [Hvalid Htitle]. apply andb_prop in Hvalid as [Hpre Hlocales].
  assert (HpJS : exists pJS,
             returns (productionJS env (req_uglify req) (req_mangle req) (bundle env req)) pJS).
  { unfold productionJS. destruct (truthy (req_uglify req)).
    - apply compresses_returns. now apply Hproduction.
    - eexists. now intros t. }
  assert (HdJS : exists dJS,
             returns (debugJS env (to_string (req_brand req)) (bundle env req)) dJS).
  { unfold debugJS. destruct (String.eqb (to_string (req_brand req)) "phet-io").
    - apply compresses_returns. now apply Hdebug.
    - eexists. now intros t. }
  assert (HpP : exists pP,
             returns (productionPreloads env (req_uglify req) (req_mangle req)
                        (preloads env req)) pP).
  { unfold productionPreloads. apply map_M_total. intros js Hjs.
    destruct (truthy (req_uglify req)).
    - apply compresses_returns. now apply Hproduction.
    - eexists. now intros t. }
  assert (HdP : exists dP,
             returns (debugPreloads env (to_string (req_brand req)) (preloads env req)) dP).
  { unfold debugPreloads. apply map_M_total. intros js Hjs.
    destruct (String.eqb (to_string (req_brand req)) "phet-io").
    - apply compresses_returns. now apply Hdebug.
    - eexists. now intros t. }
  destruct HpJS as [pJS HpJS], HdJS as [dJS HdJS], HpP as [pP HpP], HdP as [dP HdP].
  destruct (resolved_title_lookup env req Htitle) as [Hlookup Htruthy].
  apply typeof_string in Hlocales.
  assert (Hloc : exists locales,
             resolved_locales env (to_string (req_repo req)) (req_localesOption req)
             = Some locales).
  { rewrite Hlocales. cbn. eauto. }
  destruct Hloc as [locales Hloc].
  exists pJS, dJS, pP, dP, locales. repeat (split; [assumption |]).
  rewrite run_preconditions by assumption.
  eapply bind_run.
  - apply (resolveInputs_run env (to_string (req_repo req)) (to_string (req_brand req))
             (req_uglify req) (req_mangle req) (req_instrument req) (req_allHTML req)
             (req_localesOption req) pJS dJS pP dP locales (resolved_title env req)
             HpJS HdJS HpP HdP Hloc Hlookup Htruthy []).
  - cbn [app]. apply writeArtifacts_run. exact Hlookup.
Qed.

Lemma map_M_inr_In {A B} (f : A -> M B) (l : list A) t ys t' x :
  map_M f l t = (inr ys, t') -> In x l -> exists t0 y t1, f x t0 = (inr y, t1).
Proof.
  revert t ys t'. induction l as [| a l IH]; intros t ys t' H Hin; [destruct Hin |].
  simpl in H. apply bind_inr_inv in H as (y & t1 & Hy & H).
  apply bind_inr_inv in H as (ys' & t2 & Hys & _).
  destruct Hin as [<- | Hin]; [eauto | eapply IH; eassumption].
Qed.

(** And only such a request is: a completed build was valid and every one of
    its compressions went well. *)
Lemma run_complete_only_if env req t :
  run env req [] = (inr tt, t) ->
  valid env req = true /\ compressions_succeed env req.
Proof.
  intros H. apply run_inv in H as (Hpre & r & title & Hr & _ & _).
  split.
  - unfold valid. rewrite Hpre. cbn [andb].
    assert (Hlocales : String.eqb (typeof (req_localesOption req)) "string" = true).
    { pose proof (res_locales _ _ _ _ Hr) as Hloc. unfold resolved_locales in Hloc.
      now destruct (req_localesOption req). }
    rewrite Hlocales. cbn [andb].
    destruct (title_present env req) eqn:Htitle; [reflexivity |].
    pose proof (lookup_title_absent env req [] Htitle) as Habsent.
    pose proof (res_title _ _ _ _ Hr []) as Hlookup.
    rewrite (res_stringMap _ _ _ _ Hr), (res_repo _ _ _ _ Hr) in Hlookup.
    rewrite Hlookup in Habsent. pose proof (res_title_truthy _ _ _ _ Hr). congruence.
  - pose proof (res_productionJS _ _ _ _ Hr) as HpJS.
    pose proof (res_debugJS _ _ _ _ Hr) as HdJS.
    pose proof (res_productionPreloads _ _ _ _ Hr []) as HpP.
    pose proof (res_debugPreloads _ _ _ _ Hr []) as HdP.
    unfold productionJS in HpJS. unfold debugJS in HdJS.
    unfold productionPreloads in HpP. unfold debugPreloads in HdP.
    split; intros Hcond; rewrite Hcond in *.
    + split; [eapply returns_compresses; exact HpJS |].
      intros js Hjs.
      destruct (map_M_inr_In _ _ _ _ _ js HpP Hjs) as (t0 & y & t1 & Hy).
      apply minify_returns in Hy as [_ Hy]. eapply returns_compresses; exact Hy.
    + split; [eapply returns_compresses; exact HdJS |].
      intros js Hjs.
      destruct (map_M_inr_In _ _ _ _ _ js HdP Hjs) as (t0 & y & t1 & Hy).
      apply minify_returns in Hy as [_ Hy]. eapply returns_compresses; exact Hy.
Qed.

Lemma resolveEvents_log env repo brand pJS pP :
  Forall (fun ev => is_log ev = true) (resolveEvents env repo brand pJS pP).
Proof. unfold resolveEvents. repeat constructor. Qed.

(** The script lists [writeArtifacts] hands to the packaging steps. *)
Lemma artifactEvents_packaging env r englishTitle ev l :
  In ev (artifactEvents env r englishTitle) ->
  packaged_scripts ev = Some l ->
  (exists locale, l = pkg_scripts (localeOptions env r locale)) \/
  l = pkg_scripts (allOptions env r) \/
  l = pkg_scripts (debugOptions env r) \/
  l = xhtml_scripts (xhtmlOptions env r).
Proof.
  assert (Hpackaged : forall path options,
             In ev (packaged env path options) ->
             packaged_scripts ev = Some l -> l = pkg_scripts options).
  { intros path options [<- | [<- | []]] Hev; cbn in Hev; [| discriminate].
    now inversion Hev. }
  unfold artifactEvents, auxiliaryEvents. intros Hin Hev.
  destruct Hin as [<- | Hin]; [discriminate |].
  apply in_app_or in Hin as [Hin | Hin].
  { unfold localeEvents in Hin. destruct (is_phet_io r); [destruct Hin |].
    apply in_flat_map in Hin as (locale & _ & Hin).
    left. exists locale. eapply Hpackaged; eassumption. }
  apply in_app_or in Hin as [Hin | Hin].
  { unfold allEvents in Hin.
    destruct (truthy (r_allHTML r) || is_phet_io r); [| destruct Hin].
    right. left. eapply Hpackaged; eassumption. }
  apply in_app_or in Hin as [Hin | Hin].
  { right. right. left. eapply Hpackaged; eassumption. }
  apply in_app_or in Hin as [Hin | Hin].
  { destruct Hin as [<- | [<- | []]]; [discriminate |].
    cbn in Hev. inversion Hev. right. right. right. reflexivity. }
  exfalso.
  assert (Hnone : forall evs,
             Forall (fun e => packaged_scripts e = None) evs -> In ev evs -> False).
  { intros evs Hall Hin'. rewrite List.Forall_forall in Hall.
    apply Hall in Hin'. congruence. }
  apply in_app_or in Hin as [Hin | Hin].
  { eapply Hnone; [| exact Hin]. now repeat constructor. }
  apply in_app_or in Hin as [Hin | Hin].
  { eapply Hnone; [| exact Hin]. unfold iframeEvents.
    destruct (_ && _); [| constructor]. constructor; [reflexivity |].
    apply List.Forall_forall. intros e He. apply in_map_iff in He as (x & <- & _). reflexivity. }
  apply in_app_or in Hin as [Hin | Hin].
  { eapply Hnone; [| exact Hin]. unfold a11yEvents.
    destruct (_ && _); now repeat constructor. }
  apply in_app_or in Hin as [Hin | Hin].
  { eapply Hnone; [| exact Hin]. unfold supplementalEvents.
    destruct (is_phet_io r); now repeat constructor. }
  eapply Hnone; [| exact Hin]. unfold thumbnailEvents.
  destruct (file_exists env _); [| constructor].
  apply List.Forall_app. split.
  - now repeat constructor.
  - destruct (is_phet r); now repeat constructor.
Qed.

Lemma demo_compresses iso year strings checked_out options js :
  contains_char "#" js = false ->
  compresses (Demo.env iso year strings checked_out) options js.
Proof.
  intros Hclean. exists js. split.
  - unfold compressor_input. now destruct (default false (babelTranspile options)).
  - cbn. unfold Demo.uglify. now rewrite Hclean.
Qed.

Lemma demo_compressions_succeed iso year strings checked_out req :
  forallb (fun js => negb (contains_char "#" js))
    (bundle (Demo.env iso year strings checked_out) req
       :: preloads (Demo.env iso year strings checked_out) req) = true ->
  compressions_succeed (Demo.env iso year strings checked_out) req.
Proof.
  intros H. rewrite forallb_forall in H.
  assert (Hall : forall options js,
             In js (bundle (Demo.env iso year strings checked_out) req
                      :: preloads (Demo.env iso year strings checked_out) req) ->
             compresses (Demo.env iso year strings checked_out) options js).
  { intros options js Hjs. apply demo_compresses. apply H in Hjs.
    now apply negb_true_iff in Hjs. }
  split; intros _; (split; [apply Hall; now left | intros js Hjs; apply Hall; now right]).
Qed.

(** * The claims *)

(** ** The compressor (C3, C5) *)

(** The replacement touches the first U+000B only: with [a] free of the
    character, the text [a], U+000B, [b] becomes [a], the escape, [b]. *)
Lemma replace_first_VT a b :
  contains_char VT a = false ->
  replace VT_string VT_escaped (a +:+ VT_string +:+ b) = a +:+ VT_escaped +:+ b.
Proof.
  induction a as [| x a IH]; intros Ha.
  - reflexivity.
  - cbn in Ha. apply orb_false_iff in Ha as [Hx Ha].
    rewrite Ascii.eqb_sym in Hx.
    change (String x a +:+ VT_string +:+ b) with (String x (a +:+ VT_string +:+ b)).
    change (String x a +:+ VT_escaped +:+ b) with (String x (a +:+ VT_escaped +:+ b)).
    rewrite <- IH by assumption.
    generalize (a +:+ VT_string +:+ b). intros rest.
    change (replace VT_string VT_escaped (String x rest))
      with (if Ascii.eqb VT x && true
            then VT_escaped +:+ drop_string 1 (String x rest)
            else String x (replace VT_string VT_escaped rest)).
    now rewrite Hx.
Qed.

(** C3 (the code falls short of the claim): the compressor's output holds
    U+000B twice; [minify] escapes the first and returns the second raw. *)
Theorem minify_leaves_second_VT :
  let js := String VT (String VT EmptyString) in
  let options := {| mangle := None; babelTranspile := None;
                    stripAssertions := None; stripLogging := None |} in
  code (uglify_minify Demo.env0 js (minify_config options)) = js /\
  minify Demo.env0 js options [] = (inr (VT_escaped +:+ VT_string), []) /\
  contains_char VT (VT_escaped +:+ VT_string) = true.
Proof. repeat split; vm_compute; reflexivity. Qed.

(** C5: when [uglify.minify] reports an error, [minify] logs it and throws
    an [Error] that carries it; no code is returned. *)
Theorem minify_error_is_fatal env js options js' err t :
  compressor_input env options js = inr js' ->
  error (uglify_minify env js' (minify_config options)) = Some err ->
  minify env js options t = (inl (Error err), t ++ [ConsoleLog err]).
Proof.
  unfold compressor_input, minify, transpile. intros Hin Herr.
  destruct (default false (babelTranspile options)).
  - rewrite Hin. unfold bind, ret, emit, throw. now rewrite Herr.
  - inversion Hin; subst. unfold bind, ret, emit, throw. now rewrite Herr.
Qed.

Lemma minify_error_is_fatal_witness :
  minify Demo.env0 "var x = #;" debugJS_options []
  = (inl (Error "SyntaxError: Unexpected character"),
     [ConsoleLog "SyntaxError: Unexpected character"]).
Proof.
  apply (minify_error_is_fatal Demo.env0 "var x = #;" debugJS_options "var x = #;"
           "SyntaxError: Unexpected character" []); reflexivity.
Defined.

(** ** Code and preload artifacts (C1, C6) *)

(** C1 (the code falls short of the claim): for phet-io every debug preload
    goes through [minify] with the options [{ mangle: true }] alone, so the
    assertion and logging globals ARE bound to false; here the statement
    guarded by [assert] is gone from the debug preload, while the options of
    the debug code keep it. *)
Theorem debugPreloads_strip_assertions :
  (forall env raw,
     debugPreloads env "phet-io" raw
     = map_M (fun js => minify env js debugPreloads_options) raw) /\
  global_defs (minify_config debugPreloads_options)
  = <["sceneryAccessibilityLog" := false]>
      (<["sceneryLog" := false]> (<["assertSlow" := false]> (<["assert" := false]> ∅))) /\
  global_defs (minify_config debugJS_options) = ∅ /\
  debugPreloads Demo.env0 "phet-io" ["assert&&check();start();"] [] = (inr ["start();"], []) /\
  minify Demo.env0 "assert&&check();start();" debugJS_options []
  = (inr "assert&&check();start();", []).
Proof.
  split; [reflexivity |]. split; [reflexivity |]. split; [reflexivity |].
  split; vm_compute; reflexivity.
Qed.

(** For every other brand the debug preloads are the raw preloads, whatever
    the other flags are. *)
Lemma debugPreloads_raw_elsewhere env brand raw :
  String.eqb brand "phet-io" = false -> returns (debugPreloads env brand raw) raw.
Proof.
  intros Hbrand t. unfold debugPreloads. rewrite Hbrand.
  induction raw as [| js raw IH]; simpl; [reflexivity |].
  eapply bind_run; [reflexivity |]. eapply bind_run; [exact IH |]. reflexivity.
Qed.

(** C6: the production code is [minify] of the bundle (transpiled first, with
    the caller's mangle flag) when [uglify] is set and the bundle itself
    otherwise; the debug code is [minify] of the bundle with stripping off
    (no global bound to false) for phet-io and the bundle itself otherwise. *)
Theorem code_artifacts env req t r t1 :
  resolve env req t = (inr r, t1) ->
  (if truthy (req_uglify req)
   then returns (minify env (bundle env req) (productionJS_options (req_mangle req)))
          (r_productionJS r)
   else r_productionJS r = bundle env req) /\
  (if String.eqb (to_string (req_brand req)) "phet-io"
   then returns (minify env (bundle env req) debugJS_options) (r_debugJS r)
        /\ stripAssertions debugJS_options = Some false
        /\ stripLogging debugJS_options = Some false
        /\ global_defs (minify_config debugJS_options) = ∅
   else r_debugJS r = bundle env req).
Proof.
  intros H. apply resolve_inv in H as (title & Hr & _).
  pose proof (res_productionJS _ _ _ _ Hr) as HpJS.
  pose proof (res_debugJS _ _ _ _ Hr) as HdJS.
  unfold productionJS in HpJS. unfold debugJS in HdJS. split.
  - destruct (truthy (req_uglify req)); [exact HpJS |].
    specialize (HpJS []). unfold ret in HpJS. now inversion HpJS.
  - destruct (String.eqb (to_string (req_brand req)) "phet-io").
    + repeat split; try reflexivity. exact HdJS.
    + specialize (HdJS []). unfold ret in HdJS. now inversion HdJS.
Qed.

Lemma code_artifacts_witness :
  exists r t1,
    resolve Demo.env0 (Demo.request true true "phet-io" "*") [] = (inr r, t1) /\
    (returns (minify Demo.env0 (bundle Demo.env0 (Demo.request true true "phet-io" "*"))
                (productionJS_options (VBool true)))
       (r_productionJS r) /\
     (returns (minify Demo.env0 (bundle Demo.env0 (Demo.request true true "phet-io" "*"))
                 debugJS_options)
        (r_debugJS r)
      /\ stripAssertions debugJS_options = Some false
      /\ stripLogging debugJS_options = Some false
      /\ global_defs (minify_config debugJS_options) = ∅)) /\
    r_productionJS r = "main(demo);" /\
    r_debugJS r = "assert&&check();main(demo);".
Proof.
  eexists _, _. split; [vm_compute; reflexivity |]. split.
  - refine (code_artifacts Demo.env0 (Demo.request true true "phet-io" "*") [] _ _ _).
    vm_compute. reflexivity.
  - split; reflexivity.
Defined.

(** ** What is written (C2, C4, C7, C8, C9) *)

(** C2: a valid request whose compressions succeed (none is asked for when
    [uglify] is off and the brand is not phet-io) is built to the end,
    whatever the flags and the brand, and the run packages and at once
    writes the debug artifact [{repo}_all_{brand}_debug.html]: made from the
    debug preloads and the debug code, with an initialization script for the
    fallback locale with all locales included, in debug mode. *)
Theorem debug_artifact_always_written env req :
  valid env req = true ->
  compressions_succeed env req ->
  exists dJS dP before after,
    returns (debugJS env (to_string (req_brand req)) (bundle env req)) dJS /\
    returns (debugPreloads env (to_string (req_brand req)) (preloads env req)) dP /\
    let options :=
      {| pkg_repo := to_string (req_repo req);
         pkg_stringMap := resolved_stringMap env req;
         pkg_htmlHeader :=
           htmlHeader env (to_string (req_brand req)) (resolved_title env req)
             (resolved_version env req);
         pkg_locale := FALLBACK_LOCALE env;
         pkg_scripts :=
           getInitializationScript env
             {| init_locale := FALLBACK_LOCALE env; includeAllLocales := true;
                isDebugBuild := true;
                init_brand := to_string (req_brand req);
                init_repo := to_string (req_repo req);
                init_stringMap := resolved_stringMap env req;
                init_dependencies := getDependencies env (to_string (req_repo req));
                init_timestamp := timestamp env;
                init_version := resolved_version env req;
                init_thirdPartyEntries :=
                  getAllThirdPartyEntries env (to_string (req_repo req))
                    (to_string (req_brand req)) |}
           :: splashScript env (to_string (req_brand req))
           :: buildMipmaps env
           :: dP ++ [chipperStringsScript env; dJS] |} in
    run env req []
    = (inr tt,
       before
       ++ [PackageRunnable options;
           Write ("../" +:+ to_string (req_repo req) +:+ "/build/" +:+ to_string (req_brand req)
         +:+ "/" +:+ to_string (req_repo req) +:+ "_all_" +:+ to_string (req_brand req)
         +:+ "_debug.html")
             (packageRunnable env options)]
       ++ after).
Proof.
  intros Hvalid Hcompress.
  destruct (run_complete_exact env req Hvalid Hcompress)
    as (pJS & dJS & pP & dP & locales & HpJS & HdJS & HpP & HdP & Hloc & Hrun).
  set (r := resolved_for env req pJS dJS pP dP locales) in *.
  exists dJS, dP,
    (resolveEvents env (to_string (req_repo req)) (to_string (req_brand req)) pJS pP
     ++ Mkdir (buildDir r) :: localeEvents env r ++ allEvents env r),
    (auxiliaryEvents env r (resolved_title env req)).
  split; [exact HdJS |]. split; [exact HdP |]. cbv zeta.
  rewrite Hrun. f_equal. unfold artifactEvents.
  assert (Hdebug : debugEvents env r
                   = [PackageRunnable (debugOptions env r);
                      Write ("../" +:+ to_string (req_repo req) +:+ "/build/"
                             +:+ to_string (req_brand req) +:+ "/" +:+ to_string (req_repo req)
                             +:+ "_all_" +:+ to_string (req_brand req) +:+ "_debug.html")
                        (packageRunnable env (debugOptions env r))]).
  { unfold debugEvents, packaged, debugPath, buildDir. cbn [r_repo r_brand r resolved_for resolved].
    now rewrite !append_assoc. }
  rewrite Hdebug. rewrite <- !app_assoc. cbn [app]. rewrite <- !app_assoc. reflexivity.
Qed.

Lemma debug_artifact_always_written_witness :
  let env := Demo.env0 in
  let req := Demo.request false false "phet" "en" in
  exists dJS dP before after,
    returns (debugJS env (to_string (req_brand req)) (bundle env req)) dJS /\
    returns (debugPreloads env (to_string (req_brand req)) (preloads env req)) dP /\
    let options :=
      {| pkg_repo := to_string (req_repo req);
         pkg_stringMap := resolved_stringMap env req;
         pkg_htmlHeader :=
           htmlHeader env (to_string (req_brand req)) (resolved_title env req)
             (resolved_version env req);
         pkg_locale := FALLBACK_LOCALE env;
         pkg_scripts :=
           getInitializationScript env
             {| init_locale := FALLBACK_LOCALE env; includeAllLocales := true;
                isDebugBuild := true;
                init_brand := to_string (req_brand req);
                init_repo := to_string (req_repo req);
                init_stringMap := resolved_stringMap env req;
                init_dependencies := getDependencies env (to_string (req_repo req));
                init_timestamp := timestamp env;
                init_version := resolved_version env req;
                init_thirdPartyEntries :=
                  getAllThirdPartyEntries env (to_string (req_repo req))
                    (to_string (req_brand req)) |}
           :: splashScript env (to_string (req_brand req))
           :: buildMipmaps env
           :: dP ++ [chipperStringsScript env; dJS] |} in
    run env req []
    = (inr tt,
       before
       ++ [PackageRunnable options;
           Write ("../" +:+ to_string (req_repo req) +:+ "/build/" +:+ to_string (req_brand req)
         +:+ "/" +:+ to_string (req_repo req) +:+ "_all_" +:+ to_string (req_brand req)
         +:+ "_debug.html")
             (packageRunnable env options)]
       ++ after).
Proof.
  intros env req. apply (debug_artifact_always_written env req).
  - reflexivity.
  - apply demo_compressions_succeed. reflexivity.
Defined.

(** C4: when an assertion at the head of the build fails (the target is not a
    string, the uglify or mangle flag is not a boolean, the brand is not one
    of [BRANDS], or the brand is phet-io and [../phet-io] is missing), or the
    fallback locale has no text under the title key, the build throws and has
    made no directory and written no file: it has at most reported and
    logged. *)
Theorem abort_before_any_write env req :
  preconditions env req = false \/ title_present env req = false ->
  exists e t,
    run env req [] = (inl e, t) /\
    Forall (fun ev => writes_files ev = false) t.
Proof.
  intros Hbad. destruct (run env req []) as [[e | []] t] eqn:Hrun.
  - exists e, t. split; [reflexivity |].
    apply run_throws_quiet in Hrun as (l & -> & Hl). cbn.
    eapply List.Forall_impl; [| exact Hl]. apply is_log_no_write.
  - exfalso. apply run_inv in Hrun as (Hpre & r & title & Hr & _ & _).
    destruct Hbad as [Hbad | Hbad]; [congruence |].
    pose proof (lookup_title_absent env req [] Hbad) as Habsent.
    pose proof (res_title _ _ _ _ Hr []) as Hlookup.
    rewrite (res_stringMap _ _ _ _ Hr), (res_repo _ _ _ _ Hr) in Hlookup.
    rewrite Hlookup in Habsent.
    pose proof (res_title_truthy _ _ _ _ Hr). congruence.
Qed.

Lemma abort_before_any_write_witness :
  (exists e t,
     run (Demo.env "2017-12-31T23:59:59.123Z" "2017" Demo.table false)
       (Demo.request true true "phet-io" "*") [] = (inl e, t) /\
     Forall (fun ev => writes_files ev = false) t) /\
  (exists e t,
     run (Demo.env "2017-12-31T23:59:59.123Z" "2017" ∅ true)
       (Demo.request true true "phet" "*") [] = (inl e, t) /\
     Forall (fun ev => writes_files ev = false) t) /\
  (exists e t,
     run Demo.env0
       {| req_repo := VStr "demo"; req_uglify := VStr "true"; req_mangle := VBool true;
          req_instrument := VBool false; req_allHTML := VBool true;
          req_brand := VStr "phet"; req_localesOption := VStr "*" |} [] = (inl e, t) /\
     Forall (fun ev => writes_files ev = false) t) /\
  (exists e t,
     run Demo.env0 (Demo.request true true "acme" "*") [] = (inl e, t) /\
     Forall (fun ev => writes_files ev = false) t).
Proof.
  split; [| split; [| split]].
  - apply (abort_before_any_write
             (Demo.env "2017-12-31T23:59:59.123Z" "2017" Demo.table false)
             (Demo.request true true "phet-io" "*")).
    left. reflexivity.
  - apply (abort_before_any_write
             (Demo.env "2017-12-31T23:59:59.123Z" "2017" ∅ true)
             (Demo.request true true "phet" "*")).
    right. reflexivity.
  - apply (abort_before_any_write Demo.env0
             {| req_repo := VStr "demo"; req_uglify := VStr "true"; req_mangle := VBool true;
                req_instrument := VBool false; req_allHTML := VBool true;
                req_brand := VStr "phet"; req_localesOption := VStr "*" |}).
    left. reflexivity.
  - apply (abort_before_any_write Demo.env0 (Demo.request true true "acme" "*")).
    left. reflexivity.
Defined.

(** C7: for phet-io no per-locale artifact is packaged or written: the build
    directory is followed at once by the combined and the debug artifact.
    For every other brand each resolved locale, in order, gets one
    [packageRunnable] call and one write of [{repo}_{locale}_{brand}.html]:
    made from the production preloads and the production code, with an
    initialization script for that locale alone, not in debug mode. *)
Theorem per_locale_artifacts env req :
  valid env req = true ->
  compressions_succeed env req ->
  exists pJS dJS pP dP locales logs,
    returns (productionJS env (req_uglify req) (req_mangle req) (bundle env req)) pJS /\
    returns (debugJS env (to_string (req_brand req)) (bundle env req)) dJS /\
    returns (productionPreloads env (req_uglify req) (req_mangle req) (preloads env req)) pP /\
    returns (debugPreloads env (to_string (req_brand req)) (preloads env req)) dP /\
    resolved_locales env (to_string (req_repo req)) (req_localesOption req) = Some locales /\
    Forall (fun ev => is_log ev = true) logs /\
    let r := resolved_for env req pJS dJS pP dP locales in
    let options := fun locale =>
      {| pkg_repo := to_string (req_repo req);
         pkg_stringMap := resolved_stringMap env req;
         pkg_htmlHeader :=
           htmlHeader env (to_string (req_brand req)) (resolved_title env req)
             (resolved_version env req);
         pkg_locale := locale;
         pkg_scripts :=
           getInitializationScript env
             {| init_locale := locale; includeAllLocales := false;
                isDebugBuild := false;
                init_brand := to_string (req_brand req);
                init_repo := to_string (req_repo req);
                init_stringMap := resolved_stringMap env req;
                init_dependencies := getDependencies env (to_string (req_repo req));
                init_timestamp := timestamp env;
                init_version := resolved_version env req;
                init_thirdPartyEntries :=
                  getAllThirdPartyEntries env (to_string (req_repo req))
                    (to_string (req_brand req)) |}
           :: splashScript env (to_string (req_brand req))
           :: buildMipmaps env
           :: pP ++ [chipperStringsScript env; pJS] |} in
    let perLocale :=
      if String.eqb (to_string (req_brand req)) "phet-io" then []
      else flat_map (fun locale =>
                       [PackageRunnable (options locale);
                        Write ("../" +:+ to_string (req_repo req) +:+ "/build/"
                               +:+ to_string (req_brand req) +:+ "/"
                               +:+ to_string (req_repo req) +:+ "_" +:+ locale +:+ "_"
                               +:+ to_string (req_brand req) +:+ ".html")
                          (packageRunnable env (options locale))])
             locales in
    run env req []
    = (inr tt,
       logs
       ++ Mkdir ("../" +:+ to_string (req_repo req) +:+ "/build/" +:+ to_string (req_brand req))
          :: perLocale ++ allEvents env r ++ debugEvents env r
          ++ auxiliaryEvents env r (resolved_title env req)) /\
    (String.eqb (to_string (req_brand req)) "phet-io" = true ->
     allEvents env r
     = [PackageRunnable (allOptions env r);
        Write (allPath r) (packageRunnable env (allOptions env r))]).
Proof.
  intros Hvalid Hcompress.
  destruct (run_complete_exact env req Hvalid Hcompress)
    as (pJS & dJS & pP & dP & locales & HpJS & HdJS & HpP & HdP & Hloc & Hrun).
  exists pJS, dJS, pP, dP, locales,
    (resolveEvents env (to_string (req_repo req)) (to_string (req_brand req)) pJS pP).
  repeat (split; [assumption |]). split; [apply resolveEvents_log |]. cbv zeta. split.
  - rewrite Hrun. f_equal. f_equal. unfold artifactEvents. f_equal. f_equal.
    unfold localeEvents.
    change (is_phet_io (resolved_for env req pJS dJS pP dP locales))
      with (String.eqb (to_string (req_brand req)) "phet-io").
    destruct (String.eqb (to_string (req_brand req)) "phet-io"); [reflexivity |].
    change (r_locales (resolved_for env req pJS dJS pP dP locales)) with locales.
    apply flat_map_ext. intros locale.
    unfold packaged, localePath, buildDir.
    cbn [r_repo r_brand resolved_for resolved]. now rewrite !append_assoc.
  - intros Hbrand. unfold allEvents.
    change (is_phet_io (resolved_for env req pJS dJS pP dP locales))
      with (String.eqb (to_string (req_brand req)) "phet-io").
    now rewrite Hbrand, orb_true_r.
Qed.

Lemma per_locale_artifacts_witness :
  let env := Demo.env0 in
  let req := Demo.request true false "adapted-from-phet" "en,es" in
  exists pJS dJS pP dP locales logs,
    returns (productionJS env (req_uglify req) (req_mangle req) (bundle env req)) pJS /\
    returns (debugJS env (to_string (req_brand req)) (bundle env req)) dJS /\
    returns (productionPreloads env (req_uglify req) (req_mangle req) (preloads env req)) pP /\
    returns (debugPreloads env (to_string (req_brand req)) (preloads env req)) dP /\
    resolved_locales env (to_string (req_repo req)) (req_localesOption req) = Some locales /\
    Forall (fun ev => is_log ev = true) logs /\
    let r := resolved_for env req pJS dJS pP dP locales in
    let options := fun locale =>
      {| pkg_repo := to_string (req_repo req);
         pkg_stringMap := resolved_stringMap env req;
         pkg_htmlHeader :=
           htmlHeader env (to_string (req_brand req)) (resolved_title env req)
             (resolved_version env req);
         pkg_locale := locale;
         pkg_scripts :=
           getInitializationScript env
             {| init_locale := locale; includeAllLocales := false;
                isDebugBuild := false;
                init_brand := to_string (req_brand req);
                init_repo := to_string (req_repo req);
                init_stringMap := resolved_stringMap env req;
                init_dependencies := getDependencies env (to_string (req_repo req));
                init_timestamp := timestamp env;
                init_version := resolved_version env req;
                init_thirdPartyEntries :=
                  getAllThirdPartyEntries env (to_string (req_repo req))
                    (to_string (req_brand req)) |}
           :: splashScript env (to_string (req_brand req))
           :: buildMipmaps env
           :: pP ++ [chipperStringsScript env; pJS] |} in
    let perLocale :=
      if String.eqb (to_string (req_brand req)) "phet-io" then []
      else flat_map (fun locale =>
                       [PackageRunnable (options locale);
                        Write ("../" +:+ to_string (req_repo req) +:+ "/build/"
                               +:+ to_string (req_brand req) +:+ "/"
                               +:+ to_string (req_repo req) +:+ "_" +:+ locale +:+ "_"
                               +:+ to_string (req_brand req) +:+ ".html")
                          (packageRunnable env (options locale))])
             locales in
    run env req []
    = (inr tt,
       logs
       ++ Mkdir ("../" +:+ to_string (req_repo req) +:+ "/build/" +:+ to_string (req_brand req))
          :: perLocale ++ allEvents env r ++ debugEvents env r
          ++ auxiliaryEvents env r (resolved_title env req)) /\
    (String.eqb (to_string (req_brand req)) "phet-io" = true ->
     allEvents env r
     = [PackageRunnable (allOptions env r);
        Write (allPath r) (packageRunnable env (allOptions env r))]).
Proof.
  intros env req. apply (per_locale_artifacts env req).
  - reflexivity.
  - apply demo_compressions_succeed. reflexivity.
Defined.

(** C8: the combined artifact [{repo}_all_{brand}.html] is packaged and
    written, between the per-locale artifacts and the debug artifact, exactly
    when [allHTML] is set or the brand is phet-io: made from the production
    preloads and the production code, with an initialization script for the
    fallback locale with all locales included, not in debug mode. *)
Theorem combined_artifact env req :
  valid env req = true ->
  compressions_succeed env req ->
  exists pJS dJS pP dP locales logs,
    returns (productionJS env (req_uglify req) (req_mangle req) (bundle env req)) pJS /\
    returns (debugJS env (to_string (req_brand req)) (bundle env req)) dJS /\
    returns (productionPreloads env (req_uglify req) (req_mangle req) (preloads env req)) pP /\
    returns (debugPreloads env (to_string (req_brand req)) (preloads env req)) dP /\
    resolved_locales env (to_string (req_repo req)) (req_localesOption req) = Some locales /\
    Forall (fun ev => is_log ev = true) logs /\
    let r := resolved_for env req pJS dJS pP dP locales in
    let options :=
      {| pkg_repo := to_string (req_repo req);
         pkg_stringMap := resolved_stringMap env req;
         pkg_htmlHeader :=
           htmlHeader env (to_string (req_brand req)) (resolved_title env req)
             (resolved_version env req);
         pkg_locale := FALLBACK_LOCALE env;
         pkg_scripts :=
           getInitializationScript env
             {| init_locale := FALLBACK_LOCALE env; includeAllLocales := true;
                isDebugBuild := false;
                init_brand := to_string (req_brand req);
                init_repo := to_string (req_repo req);
                init_stringMap := resolved_stringMap env req;
                init_dependencies := getDependencies env (to_string (req_repo req));
                init_timestamp := timestamp env;
                init_version := resolved_version env req;
                init_thirdPartyEntries :=
                  getAllThirdPartyEntries env (to_string (req_repo req))
                    (to_string (req_brand req)) |}
           :: splashScript env (to_string (req_brand req))
           :: buildMipmaps env
           :: pP ++ [chipperStringsScript env; pJS] |} in
    let combined :=
      if truthy (req_allHTML req) || String.eqb (to_string (req_brand req)) "phet-io"
      then [PackageRunnable options;
            Write ("../" +:+ to_string (req_repo req) +:+ "/build/" +:+ to_string (req_brand req)
         +:+ "/" +:+ to_string (req_repo req) +:+ "_all_" +:+ to_string (req_brand req)
         +:+ ".html")
              (packageRunnable env options)]
      else [] in
    run env req []
    = (inr tt,
       logs
       ++ Mkdir ("../" +:+ to_string (req_repo req) +:+ "/build/" +:+ to_string (req_brand req))
          :: localeEvents env r ++ combined ++ debugEvents env r
          ++ auxiliaryEvents env r (resolved_title env req)).
Proof.
  intros Hvalid Hcompress.
  destruct (run_complete_exact env req Hvalid Hcompress)
    as (pJS & dJS & pP & dP & locales & HpJS & HdJS & HpP & HdP & Hloc & Hrun).
  exists pJS, dJS, pP, dP, locales,
    (resolveEvents env (to_string (req_repo req)) (to_string (req_brand req)) pJS pP).
  repeat (split; [assumption |]). split; [apply resolveEvents_log |]. cbv zeta.
  rewrite Hrun. f_equal. f_equal. unfold artifactEvents. f_equal. f_equal. f_equal.
  unfold allEvents.
  change (is_phet_io (resolved_for env req pJS dJS pP dP locales))
    with (String.eqb (to_string (req_brand req)) "phet-io").
  change (r_allHTML (resolved_for env req pJS dJS pP dP locales)) with (req_allHTML req).
  destruct (truthy (req_allHTML req) || String.eqb (to_string (req_brand req)) "phet-io");
    [| reflexivity].
  unfold packaged, allPath, buildDir.
  cbn [r_repo r_brand resolved_for resolved]. now rewrite !append_assoc.
Qed.

Lemma combined_artifact_witness :
  let env := Demo.env0 in
  let req := Demo.request false false "phet" "*" in
  exists pJS dJS pP dP locales logs,
    returns (productionJS env (req_uglify req) (req_mangle req) (bundle env req)) pJS /\
    returns (debugJS env (to_string (req_brand req)) (bundle env req)) dJS /\
    returns (productionPreloads env (req_uglify req) (req_mangle req) (preloads env req)) pP /\
    returns (debugPreloads env (to_string (req_brand req)) (preloads env req)) dP /\
    resolved_locales env (to_string (req_repo req)) (req_localesOption req) = Some locales /\
    Forall (fun ev => is_log ev = true) logs /\
    let r := resolved_for env req pJS dJS pP dP locales in
    let options :=
      {| pkg_repo := to_string (req_repo req);
         pkg_stringMap := resolved_stringMap env req;
         pkg_htmlHeader :=
           htmlHeader env (to_string (req_brand req)) (resolved_title env req)
             (resolved_version env req);
         pkg_locale := FALLBACK_LOCALE env;
         pkg_scripts :=
           getInitializationScript env
             {| init_locale := FALLBACK_LOCALE env; includeAllLocales := true;
                isDebugBuild := false;
                init_brand := to_string (req_brand req);
                init_repo := to_string (req_repo req);
                init_stringMap := resolved_stringMap env req;
                init_dependencies := getDependencies env (to_string (req_repo req));
                init_timestamp := timestamp env;
                init_version := resolved_version env req;
                init_thirdPartyEntries :=
                  getAllThirdPartyEntries env (to_string (req_repo req))
                    (to_string (req_brand req)) |}
           :: splashScript env (to_string (req_brand req))
           :: buildMipmaps env
           :: pP ++ [chipperStringsScript env; pJS] |} in
    let combined :=
      if truthy (req_allHTML req) || String.eqb (to_string (req_brand req)) "phet-io"
      then [PackageRunnable options;
            Write ("../" +:+ to_string (req_repo req) +:+ "/build/" +:+ to_string (req_brand req)
         +:+ "/" +:+ to_string (req_repo req) +:+ "_all_" +:+ to_string (req_brand req)
         +:+ ".html")
              (packageRunnable env options)]
      else [] in
    run env req []
    = (inr tt,
       logs
       ++ Mkdir ("../" +:+ to_string (req_repo req) +:+ "/build/" +:+ to_string (req_brand req))
          :: localeEvents env r ++ combined ++ debugEvents env r
          ++ auxiliaryEvents env r (resolved_title env req)).
Proof.
  intros env req. apply (combined_artifact env req).
  - reflexivity.
  - apply demo_compressions_succeed. reflexivity.
Defined.

(** C9: every script list the build hands to [packageRunnable] or to
    [packageXHTML] (per-locale, combined, debug, XHTML) is: an initialization
    script, the splash script, the mipmaps, the preloads, the string-accessor
    script (the text of [chipper-strings.js]) and, last, the main code, the
    preloads and the code of one flavour.  So the string accessor, the
    initialization script and the splash script all stand before the main
    code. *)
Theorem scripts_in_order env req :
  Forall (fun ev =>
            match packaged_scripts ev with
            | Some l =>
                exists locale all debug fragments main,
                  l = getInitializationScript env
                        {| init_locale := locale; includeAllLocales := all;
                           isDebugBuild := debug;
                           init_brand := to_string (req_brand req);
                           init_repo := to_string (req_repo req);
                           init_stringMap := resolved_stringMap env req;
                           init_dependencies :=
                             getDependencies env (to_string (req_repo req));
                           init_timestamp := timestamp env;
                           init_version := resolved_version env req;
                           init_thirdPartyEntries :=
                             getAllThirdPartyEntries env (to_string (req_repo req))
                               (to_string (req_brand req)) |}
                      :: splashScript env (to_string (req_brand req))
                      :: buildMipmaps env
                      :: fragments ++ [chipperStringsScript env; main] /\
                  ((debug = false /\
                    returns (productionPreloads env (req_uglify req) (req_mangle req)
                               (preloads env req)) fragments /\
                    returns (productionJS env (req_uglify req) (req_mangle req)
                               (bundle env req)) main) \/
                   (debug = true /\
                    returns (debugPreloads env (to_string (req_brand req))
                               (preloads env req)) fragments /\
                    returns (debugJS env (to_string (req_brand req)) (bundle env req)) main))
            | None => True
            end)
    (snd (run env req [])).
Proof.
  apply List.Forall_forall. intros ev Hin.
  destruct (packaged_scripts ev) as [l |] eqn:Hev; [| exact I].
  destruct (run env req []) as [[e | []] t] eqn:Hrun; cbn in Hin.
  - apply run_throws_quiet in Hrun as (logs & -> & Hlogs). cbn in Hin.
    rewrite List.Forall_forall in Hlogs. apply Hlogs in Hin.
    destruct ev; cbn in Hin, Hev; congruence.
  - apply run_inv in Hrun as (_ & r & title & Hr & Hres & ->).
    apply in_app_or in Hin as [Hin | Hin].
    { cbn in Hin. unfold resolveEvents in Hin. exfalso.
      repeat (destruct Hin as [<- | Hin]; [discriminate |]). destruct Hin. }
    unfold resolve in Hres. apply resolveInputs_inv in Hres
      as (locales & title' & _ & _ & _ & _ & _ & _ & _ & Er & _).
    pose proof (res_productionJS _ _ _ _ Hr) as HpJS.
    pose proof (res_debugJS _ _ _ _ Hr) as HdJS.
    pose proof (res_productionPreloads _ _ _ _ Hr) as HpP.
    pose proof (res_debugPreloads _ _ _ _ Hr) as HdP.
    apply (artifactEvents_packaging env r title ev l Hin) in Hev.
    destruct Hev as [[locale El] | [El | [El | El]]]; rewrite Er in El;
      cbn [pkg_scripts xhtml_scripts localeOptions allOptions debugOptions xhtmlOptions
             scripts app] in El.
    + exists locale, false, false, (r_productionPreloads r), (r_productionJS r).
      split; [exact El | left; auto].
    + exists (FALLBACK_LOCALE env), true, false, (r_productionPreloads r), (r_productionJS r).
      split; [exact El | left; auto].
    + exists (FALLBACK_LOCALE env), true, true, (r_debugPreloads r), (r_debugJS r).
      split; [exact El | right; auto].
    + exists (FALLBACK_LOCALE env), true, false, (r_productionPreloads r), (r_productionJS r).
      split; [exact El | left; auto].
Qed.

(** ** Two runs (C10) *)

Lemma bind_ext {A B} (m1 m2 : M A) (k1 k2 : A -> M B) t :
  m1 t = m2 t -> (forall a t', k1 a t' = k2 a t') -> bind m1 k1 t = bind m2 k2 t.
Proof.
  intros Hm Hk. unfold bind. rewrite Hm. destruct (m2 t) as [[e | a] t']; auto.
Qed.

Lemma for_of_ext {A} (body1 body2 : A -> M unit) (l : list A) :
  (forall x t, body1 x t = body2 x t) ->
  forall t, for_of l body1 t = for_of l body2 t.
Proof.
  intros Hbody. induction l as [| x l IH]; intros t; simpl; [reflexivity |].
  apply bind_ext; [apply Hbody | intros _ t'; apply IH].
Qed.

Lemma map_M_ext {A B} (f g : A -> M B) (l : list A) :
  (forall x t, f x t = g x t) -> forall t, map_M f l t = map_M g l t.
Proof.
  intros Hfg. induction l as [| x l IH]; intros t; simpl; [reflexivity |].
  apply bind_ext; [apply Hfg |]. intros y t'.
  apply bind_ext; [apply IH | reflexivity].
Qed.

Section TwoRuns.

Variables e1 e2 : Env.
Hypothesis Hsame : same_collaborators e1 e2.

(** Move every collaborator of the first run to the second. *)
Ltac same :=
  repeat first
    [ rewrite (same_BRANDS _ _ Hsame)
    | rewrite (same_FALLBACK_LOCALE _ _ Hsame)
    | rewrite (same_A11Y_VIEW_HTML_SUFFIX _ _ Hsame)
    | rewrite (same_file_exists _ _ Hsame)
    | rewrite (same_file_read _ _ Hsame)
    | rewrite (same_file_readJSON _ _ Hsame)
    | rewrite (same_babel_transform _ _ Hsame)
    | rewrite (same_uglify_minify _ _ Hsame)
    | rewrite (same_requireBuild _ _ Hsame)
    | rewrite (same_getPreloads _ _ Hsame)
    | rewrite (same_getPhetLibs _ _ Hsame)
    | rewrite (same_getLocalesFromRepository _ _ Hsame)
    | rewrite (same_getDependencies _ _ Hsame)
    | rewrite (same_getAllThirdPartyEntries _ _ Hsame)
    | rewrite (same_getStringMap _ _ Hsame)
    | rewrite (same_buildMipmaps _ _ Hsame)
    | rewrite (same_getTitleStringKey _ _ Hsame)
    | rewrite (same_loadFileAsDataURI _ _ Hsame)
    | rewrite (same_getInitializationScript _ _ Hsame)
    | rewrite (same_packageRunnable _ _ Hsame)
    | rewrite (same_JSON_stringify _ _ Hsame)
    | rewrite (same_htmlEncode _ _ Hsame)
    | rewrite (same_replaceFirst _ _ Hsame)
    | rewrite (same_replaceAll _ _ Hsame)
    | rewrite (same_getA11yViewHTMLFromTemplate _ _ Hsame)
    | rewrite (same_generateThumbnails _ _ Hsame)
    | rewrite (same_generateTwitterCard _ _ Hsame) ].

Lemma minify_same js options t : minify e1 js options t = minify e2 js options t.
Proof.
  unfold minify, transpile. apply bind_ext.
  - now same.
  - intros js' t'. now same.
Qed.

Lemma productionJS_same uglify mangle requireJS t :
  productionJS e1 uglify mangle requireJS t = productionJS e2 uglify mangle requireJS t.
Proof. unfold productionJS. destruct (truthy uglify); [apply minify_same | reflexivity]. Qed.

Lemma debugJS_same brand requireJS t :
  debugJS e1 brand requireJS t = debugJS e2 brand requireJS t.
Proof.
  unfold debugJS. destruct (String.eqb brand "phet-io"); [apply minify_same | reflexivity].
Qed.

Lemma productionPreloads_same uglify mangle raw t :
  productionPreloads e1 uglify mangle raw t = productionPreloads e2 uglify mangle raw t.
Proof.
  unfold productionPreloads. apply map_M_ext. intros js t'.
  destruct (truthy uglify); [apply minify_same | reflexivity].
Qed.

Lemma debugPreloads_same brand raw t :
  debugPreloads e1 brand raw t = debugPreloads e2 brand raw t.
Proof.
  unfold debugPreloads. apply map_M_ext. intros js t'.
  destruct (String.eqb brand "phet-io"); [apply minify_same | reflexivity].
Qed.

Lemma lookup_title_same stringMap key t :
  lookup_title e1 stringMap key t = lookup_title e2 stringMap key t.
Proof. unfold lookup_title. now same. Qed.

Lemma writeArtifacts_same r t : writeArtifacts e1 r t = writeArtifacts e2 r t.
Proof.
  unfold writeArtifacts, invoke_packageRunnable, localeOptions, allOptions, debugOptions,
    xhtmlOptions.
  same.
  apply bind_ext; [reflexivity | intros _ t1].
  apply bind_ext.
  { destruct (negb (String.eqb (r_brand r) "phet-io")); [| reflexivity].
    apply for_of_ext. intros locale t2. now same. }
  intros _ t2. apply bind_ext; [reflexivity | intros _ t3].
  apply bind_ext; [reflexivity | intros _ t4].
  apply bind_ext; [reflexivity | intros _ t5].
  apply bind_ext; [reflexivity | intros _ t6].
  apply bind_ext; [reflexivity | intros _ t7].
  apply bind_ext.
  { destruct (_ && _); [| reflexivity].
    apply bind_ext; [apply lookup_title_same |]. intros title t8.
    apply bind_ext; [reflexivity | intros _ t9].
    apply for_of_ext. intros locale t10. now same. }
  intros _ t8. apply bind_ext; [reflexivity | intros _ t9].
  apply bind_ext; [reflexivity | intros _ t10].
  destruct (file_exists e2 _); [| reflexivity].
  apply bind_ext; [| reflexivity].
  apply for_of_ext. intros size t11. now same.
Qed.

Hypothesis Htimestamp : timestamp e1 = timestamp e2.
Hypothesis Hyear : template_today e1 "yyyy" = template_today e2 "yyyy".

Lemma resolveInputs_same repo brand uglify mangle instrument allHTML localesOption t :
  resolveInputs e1 repo brand uglify mangle instrument allHTML localesOption t
  = resolveInputs e2 repo brand uglify mangle instrument allHTML localesOption t.
Proof.
  unfold resolveInputs, htmlHeader, rawPreloads. rewrite Htimestamp, Hyear.
  rewrite (map_ext _ _ (same_file_read _ _ Hsame)). same.
  apply bind_ext; [apply productionJS_same | intros pJS t1].
  apply bind_ext; [apply debugJS_same | intros dJS t2].
  apply bind_ext; [reflexivity | intros _ t3].
  apply bind_ext; [reflexivity | intros _ t4].
  apply bind_ext; [apply productionPreloads_same | intros pP t5].
  apply bind_ext; [apply debugPreloads_same | intros dP t6].
  apply bind_ext; [reflexivity | intros locales t7].
  apply bind_ext; [apply lookup_title_same | intros title t8].
  reflexivity.
Qed.

Lemma run_same req t : run e1 req t = run e2 req t.
Proof.
  unfold run, buildRunnable. same.
  repeat (apply bind_ext; [reflexivity | intros _ ?]).
  apply bind_ext; [apply resolveInputs_same |].
  intros r tr. apply writeArtifacts_same.
Qed.

End TwoRuns.

Lemma demo_same_collaborators iso1 year1 iso2 year2 strings checked_out :
  same_collaborators (Demo.env iso1 year1 strings checked_out)
    (Demo.env iso2 year2 strings checked_out).
Proof. constructor; intros; reflexivity. Qed.

(** A frozen clock gives the same timestamp. *)
Lemma timestamp_frozen e1 e2 :
  Date_toISOString e1 = Date_toISOString e2 -> timestamp e1 = timestamp e2.
Proof. unfold timestamp. now intros ->. Qed.

(** C10, as the code has it: two runs of one request whose collaborators
    answer alike, whose build timestamps agree (as they do under a frozen
    clock) and whose current year agrees do the same events with the same
    contents; the runs depend on the clock through the timestamp and through
    the year of the header, and through nothing else. *)
Theorem runs_agree_up_to_clock e1 e2 req t :
  same_collaborators e1 e2 ->
  timestamp e1 = timestamp e2 ->
  template_today e1 "yyyy" = template_today e2 "yyyy" ->
  run e1 req t = run e2 req t.
Proof. intros Hsame Htimestamp Hyear. now apply run_same. Qed.

Lemma runs_agree_up_to_clock_witness :
  Date_toISOString Demo.env0 <> Date_toISOString Demo.env_same_second /\
  run Demo.env0 (Demo.request true true "phet" "*") []
  = run Demo.env_same_second (Demo.request true true "phet" "*") [].
Proof.
  split; [discriminate |].
  apply (runs_agree_up_to_clock Demo.env0 Demo.env_same_second
           (Demo.request true true "phet" "*") []).
  - apply demo_same_collaborators.
  - reflexivity.
  - reflexivity.
Defined.

(** C10, as the claim has it, fails: the year of the header is a second
    reading of the clock.  Give the first run the clock time of the second,
    so that both embed the same timestamp; the collaborators answer alike,
    and still the debug artifacts differ, by the year of the header. *)
Lemma timestamp_is_not_the_only_difference :
  let first := with_Date (Date_toISOString Demo.env_next_year) Demo.env0 in
  let second := Demo.env_next_year in
  let req := Demo.request false false "phet" "en" in
  same_collaborators first second /\
  timestamp first = timestamp second /\
  written "../demo/build/phet/demo_all_phet_debug.html" (snd (run first req []))
  <> written "../demo/build/phet/demo_all_phet_debug.html" (snd (run second req [])).
Proof.
  cbv zeta. split; [| split].
  - constructor; intros; reflexivity.
  - reflexivity.
  - intros H. vm_compute in H. discriminate H.
Qed.

(** * Further properties of the code *)

(** ** Strings: [split], [join], [indexOf], [substring], [replace] *)

Lemma split_nonempty c s : split c s <> [].
Proof.
  destruct s as [| x r]; simpl; [discriminate |].
  destruct (Ascii.eqb x c); [discriminate |]. destruct (split c r); discriminate.
Qed.

(** Splitting at [c] and joining with [d] turns every [c] into [d]. *)
Lemma join_split c d s : join (String d EmptyString) (split c s) = subst_char c d s.
Proof.
  induction s as [| x r IH]; simpl; [reflexivity |].
  destruct (Ascii.eqb x c).
  - destruct (split c r) as [| h t] eqn:E; [now apply split_nonempty in E |].
    rewrite <- IH. reflexivity.
  - destruct (split c r) as [| h t] eqn:E; [now apply split_nonempty in E |].
    rewrite <- IH. destruct t; reflexivity.
Qed.

Lemma subst_char_app a b s1 s2 :
  subst_char a b (s1 +:+ s2) = subst_char a b s1 +:+ subst_char a b s2.
Proof.
  induction s1 as [| x r IH]; [reflexivity |].
  change (String x r +:+ s2) with (String x (r +:+ s2)). simpl. now rewrite IH.
Qed.

Lemma subst_char_absent a b s : contains_char a s = false -> subst_char a b s = s.
Proof.
  induction s as [| x r IH]; simpl; [reflexivity |]. intros H.
  apply orb_false_iff in H as [Hx Hr]. now rewrite Hx, IH.
Qed.

Lemma subst_char_keeps_absent a b c s :
  Ascii.eqb b c = false -> contains_char c s = false ->
  contains_char c (subst_char a b s) = false.
Proof.
  intros Hbc. induction s as [| x r IH]; simpl; [reflexivity |]. intros H.
  apply orb_false_iff in H as [Hx Hr]. rewrite (IH Hr).
  destruct (Ascii.eqb x a); [now rewrite Hbc | now rewrite Hx].
Qed.

Lemma indexOf_first c a b :
  contains_char c a = false ->
  indexOf c (a +:+ String c b) = Z.of_nat (String.length a).
Proof.
  induction a as [| x r IH]; intros H.
  - change (EmptyString +:+ String c b) with (String c b). simpl.
    now rewrite Ascii.eqb_refl.
  - change (String x r +:+ String c b) with (String x (r +:+ String c b)).
    simpl in H. apply orb_false_iff in H as [Hx Hr].
    simpl indexOf. rewrite Hx, (IH Hr). simpl String.length.
    destruct (Z.of_nat (String.length r)) eqn:E; lia.
Qed.

Lemma indexOf_absent c s : contains_char c s = false -> indexOf c s = (-1)%Z.
Proof.
  induction s as [| x r IH]; simpl; [reflexivity |]. intros H.
  apply orb_false_iff in H as [Hx Hr]. now rewrite Hx, (IH Hr).
Qed.

Lemma take_string_app a b : take_string (String.length a) (a +:+ b) = a.
Proof.
  induction a as [| x r IH]; [now destruct b |].
  change (String x r +:+ b) with (String x (r +:+ b)). simpl. now rewrite IH.
Qed.

Lemma contains_char_app c a b :
  contains_char c (a +:+ b) = contains_char c a || contains_char c b.
Proof.
  induction a as [| x r IH]; [reflexivity |].
  change (String x r +:+ b) with (String x (r +:+ b)). simpl.
  now rewrite IH, orb_assoc.
Qed.


Lemma count_char_zero c s : count_char c s = 0 <-> contains_char c s = false.
Proof.
  induction s as [| x r IH]; simpl; [tauto |].
  destruct (Ascii.eqb x c); simpl; [split; [lia | discriminate] | exact IH].
Qed.

(** [replace] of the one-character pattern removes one occurrence of U+000B,
    if there is one. *)
Lemma replace_VT_count s :
  count_char VT (replace VT_string VT_escaped s) = Nat.pred (count_char VT s).
Proof.
  induction s as [| x r IH]; [reflexivity |].
  change (replace VT_string VT_escaped (String x r))
    with (if Ascii.eqb VT x && true
          then VT_escaped +:+ drop_string 1 (String x r)
          else String x (replace VT_string VT_escaped r)).
  rewrite andb_true_r, (Ascii.eqb_sym VT x). simpl count_char.
  destruct (Ascii.eqb x VT) eqn:Hx.
  - reflexivity.
  - simpl. rewrite Hx, IH. simpl.
    destruct (count_char VT r) eqn:E; [| reflexivity].
    simpl. reflexivity.
Qed.

(** ** The build timestamp (buildRunnable.js, lines 67-69) *)

(** X1: for a clock reading of the ISO shape, a date, the letter T, a time, a
    dot and a fraction, the timestamp is the date, a space, the time and
    [ UTC]: the fraction and everything after it are dropped. *)
Theorem timestamp_of_iso env date time fraction :
  Date_toISOString env = date +:+ "T" +:+ time +:+ "." +:+ fraction ->
  contains_char "T" date = false -> contains_char "." date = false ->
  contains_char "T" time = false -> contains_char "." time = false ->
  timestamp env = date +:+ " " +:+ time +:+ " UTC".
Proof.
  intros Hiso HdT Hdd HtT Htd. unfold timestamp. rewrite join_split, Hiso.
  rewrite !subst_char_app.
  rewrite (subst_char_absent _ _ date HdT), (subst_char_absent _ _ time HtT).
  change (subst_char "T" " " "T") with " ". change (subst_char "T" " " ".") with ".".
  assert (Hsplit : date +:+ " " +:+ time +:+ "." +:+ subst_char "T" " " fraction
                   = (date +:+ " " +:+ time)
                     +:+ String "." (subst_char "T" " " fraction)).
  { now rewrite !append_assoc. }
  rewrite Hsplit. unfold substring0. rewrite indexOf_first.
  - rewrite Nat2Z.id, take_string_app. now rewrite !append_assoc.
  - rewrite !contains_char_app, Hdd, Htd. reflexivity.
Qed.

Lemma timestamp_of_iso_witness : timestamp Demo.env0 = "2017-12-31" +:+ " " +:+ "23:59:59" +:+ " UTC".
Proof.
  apply (timestamp_of_iso Demo.env0 "2017-12-31" "23:59:59" "123Z"); reflexivity.
Defined.

(** ** The compressor (minify.js, transpile.js) *)

(** X3: when transpiling is asked for and babel throws, [minify] throws
    babel's exception as it is: nothing is logged and uglify's answer plays
    no part. *)
Theorem minify_babel_failure env js options e t :
  babelTranspile options = Some true ->
  babel_transform env js = inl e ->
  minify env js options t = (inl e, t).
Proof.
  intros Hopt Hbabel. unfold minify, transpile. rewrite Hopt. cbn [default].
  unfold bind. rewrite Hbabel. reflexivity.
Qed.

Lemma minify_babel_failure_witness :
  minify (with_babel_transform (fun _ => inl (SyntaxError "unknown: Unexpected token"))
            Demo.env0)
    "let x = ;" debugJS_options []
  = (inl (SyntaxError "unknown: Unexpected token"), []).
Proof.
  apply (minify_babel_failure
           (with_babel_transform (fun _ => inl (SyntaxError "unknown: Unexpected token"))
              Demo.env0)
           "let x = ;" debugJS_options (SyntaxError "unknown: Unexpected token") []);
    reflexivity.
Defined.

(** X4: unless [babelTranspile] is set, babel has no say: two environments
    with the same uglify give the same [minify], whatever their babel. *)
Theorem minify_without_babel e1 e2 js options t :
  babelTranspile options <> Some true ->
  (forall source config, uglify_minify e1 source config = uglify_minify e2 source config) ->
  minify e1 js options t = minify e2 js options t.
Proof.
  intros Hopt Huglify. unfold minify.
  assert (Hoff : default false (babelTranspile options) = false).
  { destruct (babelTranspile options) as [[|] |]; [congruence | reflexivity | reflexivity]. }
  rewrite Hoff. unfold bind, ret. now rewrite Huglify.
Qed.

Lemma minify_without_babel_witness :
  minify Demo.env0 "assert&&check();start();" debugPreloads_options []
  = minify (with_babel_transform (fun _ => inl (SyntaxError "unknown: Unexpected token"))
              Demo.env0)
      "assert&&check();start();" debugPreloads_options [].
Proof.
  apply (minify_without_babel Demo.env0
           (with_babel_transform (fun _ => inl (SyntaxError "unknown: Unexpected token"))
              Demo.env0)
           "assert&&check();start();" debugPreloads_options []).
  - discriminate.
  - reflexivity.
Defined.

(** X5: in the code [minify] returns, the raw U+000B occurs once less than in
    the code uglify gave (and not at all when uglify gave none): one
    occurrence is escaped, however many there are. *)
Theorem minify_escapes_one_VT env js options t c t' :
  minify env js options t = (inr c, t') ->
  exists js',
    compressor_input env options js = inr js' /\
    count_char VT c
    = Nat.pred (count_char VT (code (uglify_minify env js' (minify_config options)))).
Proof.
  intros H. apply minify_inr_inv in H as (_ & js' & Hin & _ & ->).
  exists js'. split; [exact Hin | apply replace_VT_count].
Qed.

Lemma minify_escapes_one_VT_witness :
  exists js',
    compressor_input Demo.env0 debugPreloads_options
      ("a" +:+ VT_string +:+ "b" +:+ VT_string +:+ VT_string) = inr js' /\
    count_char VT ("a" +:+ VT_escaped +:+ "b" +:+ VT_string +:+ VT_string)
    = Nat.pred (count_char VT
                  (code (uglify_minify Demo.env0 js' (minify_config debugPreloads_options)))).
Proof.
  apply (minify_escapes_one_VT Demo.env0
           ("a" +:+ VT_string +:+ "b" +:+ VT_string +:+ VT_string)
           debugPreloads_options []
           ("a" +:+ VT_escaped +:+ "b" +:+ VT_string +:+ VT_string) []).
  vm_compute. reflexivity.
Defined.

(** X6: what [minify] binds for uglify: [assert] and [assertSlow] to false
    exactly when [stripAssertions] is on (as it is when absent),
    [sceneryLog] and [sceneryAccessibilityLog] to false exactly when
    [stripLogging] is on; no other name is bound and none to true, and
    [mangle] and [babelTranspile] have no part in it. *)
Theorem global_defs_of_options options name :
  global_defs (minify_config options) !! name
  = if (default true (stripAssertions options)
        && existsb (String.eqb name) ["assert"; "assertSlow"])
       || (default true (stripLogging options)
           && existsb (String.eqb name) ["sceneryLog"; "sceneryAccessibilityLog"])
    then Some false
    else None.
Proof.
  unfold minify_config. cbn [global_defs existsb].
  destruct (String.eqb_spec name "assert") as [-> | H1];
    [destruct (default true (stripAssertions options)),
       (default true (stripLogging options)); reflexivity |].
  destruct (String.eqb_spec name "assertSlow") as [-> | H2];
    [destruct (default true (stripAssertions options)),
       (default true (stripLogging options)); reflexivity |].
  destruct (String.eqb_spec name "sceneryLog") as [-> | H3];
    [destruct (default true (stripAssertions options)),
       (default true (stripLogging options)); reflexivity |].
  destruct (String.eqb_spec name "sceneryAccessibilityLog") as [-> | H4];
    [destruct (default true (stripAssertions options)),
       (default true (stripLogging options)); reflexivity |].
  rewrite !andb_false_r. cbn [orb].
  destruct (default true (stripAssertions options)),
    (default true (stripLogging options));
    repeat (rewrite lookup_insert_ne by congruence); apply lookup_empty.
Qed.

(** ** How the build fails (buildRunnable.js, lines 54-108) *)

Lemma minify_throws env js options js' err t :
  compressor_input env options js = inr js' ->
  error (uglify_minify env js' (minify_config options)) = Some err ->
  minify env js options t = (inl (Error err), t ++ [ConsoleLog err]).
Proof.
  unfold compressor_input, minify, transpile. intros Hin Herr.
  destruct (default false (babelTranspile options)).
  - rewrite Hin. unfold bind, ret, emit, throw. now rewrite Herr.
  - inversion Hin; subst. unfold bind, ret, emit, throw. now rewrite Herr.
Qed.

(** X7: with [uglify] set, an error of uglify on the module bundle ends the
    whole build: it throws that error, and all it has done is log it; no
    report, no directory, no artifact. *)
Theorem compressor_failure_aborts_build env req js' err :
  preconditions env req = true ->
  truthy (req_uglify req) = true ->
  compressor_input env (productionJS_options (req_mangle req)) (bundle env req) = inr js' ->
  error (uglify_minify env js' (minify_config (productionJS_options (req_mangle req))))
  = Some err ->
  run env req [] = (inl (Error err), [ConsoleLog err]).
Proof.
  intros Hpre Huglify Hin Herr. rewrite run_preconditions by assumption.
  apply bind_throw. unfold resolve, resolveInputs.
  apply bind_throw. unfold productionJS. rewrite Huglify.
  apply (minify_throws env _ _ js' err [] Hin Herr).
Qed.

Lemma compressor_failure_aborts_build_witness :
  run Demo.env0
    {| req_repo := VStr "#1"; req_uglify := VBool true; req_mangle := VBool false;
       req_instrument := VBool false; req_allHTML := VBool true;
       req_brand := VStr "phet"; req_localesOption := VStr "*" |} []
  = (inl (Error "SyntaxError: Unexpected character"),
     [ConsoleLog "SyntaxError: Unexpected character"]).
Proof.
  apply (compressor_failure_aborts_build Demo.env0
           {| req_repo := VStr "#1"; req_uglify := VBool true; req_mangle := VBool false;
              req_instrument := VBool false; req_allHTML := VBool true;
              req_brand := VStr "phet"; req_localesOption := VStr "*" |}
           "assert&&check();main(#1);" "SyntaxError: Unexpected character");
    reflexivity.
Defined.

(** X8: whatever makes [buildRunnable] throw (an assertion, babel or uglify,
    a locale option without [split], a string table without the fallback
    locale), it has made no directory, packaged nothing and written nothing
    by then: every place where the code throws lies before the [mkdir] of
    the build directory. *)
Theorem throws_before_writing env req e t :
  run env req [] = (inl e, t) ->
  Forall (fun ev => is_log ev = true) t /\
  count_events writes_files t = 0 /\
  count_events is_packageRunnable t = 0.
Proof.
  intros H. apply run_throws_quiet in H as (l & -> & Hl). cbn [app].
  split; [exact Hl |].
  induction Hl as [| ev l Hev Hl IH]; [split; reflexivity |].
  destruct IH as [IH1 IH2]. cbn [count_events]. rewrite IH1, IH2.
  destruct ev; cbn in Hev; try discriminate; split; reflexivity.
Qed.

Lemma throws_before_writing_witness :
  Forall (fun ev => is_log ev = true)
    [ReportUnusedMedia "DEMO"; ReportUnusedStrings "demo" "DEMO"] /\
  count_events writes_files
    [ReportUnusedMedia "DEMO"; ReportUnusedStrings "demo" "DEMO"] = 0 /\
  count_events is_packageRunnable
    [ReportUnusedMedia "DEMO"; ReportUnusedStrings "demo" "DEMO"] = 0.
Proof.
  apply (throws_before_writing Demo.env0
           {| req_repo := VStr "demo"; req_uglify := VBool false; req_mangle := VBool true;
              req_instrument := VBool false; req_allHTML := VBool true;
              req_brand := VStr "phet"; req_localesOption := VNum 3 |}
           (TypeError "localesOption.split is not a function")).
  reflexivity.
Defined.

(** X9: a brand that is not one of [BRANDS] is refused by the fourth
    assertion (the three [typeof] assertions come first), with a message
    that names it; nothing has been reported, logged or written by then. *)
Theorem unknown_brand_message env req t :
  String.eqb (typeof (req_repo req)) "string" = true ->
  String.eqb (typeof (req_uglify req)) "boolean" = true ->
  String.eqb (typeof (req_mangle req)) "boolean" = true ->
  includes (BRANDS env) (req_brand req) = false ->
  run env req t
  = (inl (AssertionError ("Unknown brand in buildRunnable: " +:+ to_string (req_brand req))), t).
Proof.
  intros H1 H2 H3 H4. unfold run, buildRunnable. rewrite H1, H2, H3, H4. reflexivity.
Qed.

Lemma unknown_brand_message_witness :
  run Demo.env0 (Demo.request true true "acme" "*") []
  = (inl (AssertionError ("Unknown brand in buildRunnable: " +:+ "acme")), []).
Proof.
  apply (unknown_brand_message Demo.env0 (Demo.request true true "acme" "*") []);
    reflexivity.
Defined.

(** X10: for phet-io without the directory [../phet-io] the build stops at
    the fifth assertion, with the message that tells the caller to choose
    other brands; nothing has been reported, logged or written by then. *)
Theorem phet_io_not_checked_out env req t :
  String.eqb (typeof (req_repo req)) "string" = true ->
  String.eqb (typeof (req_uglify req)) "boolean" = true ->
  String.eqb (typeof (req_mangle req)) "boolean" = true ->
  includes (BRANDS env) (req_brand req) = true ->
  req_brand req = VStr "phet-io" ->
  file_exists env "../phet-io" = false ->
  run env req t
  = (inl (AssertionError
            ("Aborting the build of phet-io brand since proprietary repositories are not checked out."
             +:+ nl +:+ "Please use --brands=={{BRAND}} in the future to avoid this.")), t).
Proof.
  intros H1 H2 H3 H4 H5 H6. unfold run, buildRunnable.
  rewrite H1, H2, H3, H4, H5. cbn [strict_eq_string]. rewrite H6. reflexivity.
Qed.

Lemma phet_io_not_checked_out_witness :
  run (Demo.env "2017-12-31T23:59:59.123Z" "2017" Demo.table false)
    (Demo.request true true "phet-io" "*") []
  = (inl (AssertionError
            ("Aborting the build of phet-io brand since proprietary repositories are not checked out."
             +:+ nl +:+ "Please use --brands=={{BRAND}} in the future to avoid this.")), []).
Proof.
  apply (phet_io_not_checked_out (Demo.env "2017-12-31T23:59:59.123Z" "2017" Demo.table false)
           (Demo.request true true "phet-io" "*") []); reflexivity.
Defined.

(** Run [resolve] up to the resolution of the locales. *)
Ltac through_preloads Htransforms :=
  match goal with
  | |- context [resolve ?env ?req] =>
      let pJS := fresh "pJS" in let HpJS := fresh "HpJS" in
      let dJS := fresh "dJS" in let HdJS := fresh "HdJS" in
      let pP := fresh "pP" in let HpP := fresh "HpP" in
      let dP := fresh "dP" in let HdP := fresh "HdP" in
      destruct (productionJS_total env (req_uglify req) (req_mangle req) (bundle env req))
        as [pJS HpJS]; [apply Htransforms; now left |];
      destruct (debugJS_total env (to_string (req_brand req)) (bundle env req))
        as [dJS HdJS]; [apply Htransforms; now left |];
      destruct (productionPreloads_total env (req_uglify req) (req_mangle req)
                  (preloads env req))
        as [pP HpP]; [intros ? ?; apply Htransforms; now right |];
      destruct (debugPreloads_total env (to_string (req_brand req)) (preloads env req))
        as [dP HdP]; [intros ? ?; apply Htransforms; now right |];
      unfold resolve, resolveInputs;
      eapply bind_run; [apply HpJS |];
      eapply bind_run; [apply HdJS |];
      eapply bind_run; [reflexivity |];
      eapply bind_run; [reflexivity |];
      eapply bind_run; [apply HpP |];
      eapply bind_run; [apply HdP |]
  end.

(** X11: when the fallback locale of the string table has no text, or an
    empty one, under the title key, the build throws the assertion that
    names the key; by then it has reported the unused media and strings and
    nothing else: the minification is over but not yet logged. *)
Theorem missing_title_message env req strings :
  preconditions env req = true ->
  String.eqb (typeof (req_localesOption req)) "string" = true ->
  transforms_succeed env req ->
  resolved_stringMap env req !! FALLBACK_LOCALE env = Some strings ->
  strings !! getTitleStringKey env (to_string (req_repo req)) = None \/
  strings !! getTitleStringKey env (to_string (req_repo req)) = Some "" ->
  run env req []
  = (inl (AssertionError
            ("missing entry for sim title, key = "
             +:+ getTitleStringKey env (to_string (req_repo req)))),
     [ReportUnusedMedia
        (phet_requirejsNamespace
           (file_readJSON env ("../" +:+ to_string (req_repo req) +:+ "/package.json")));
      ReportUnusedStrings (to_string (req_repo req))
        (phet_requirejsNamespace
           (file_readJSON env ("../" +:+ to_string (req_repo req) +:+ "/package.json")))]).
Proof.
  intros Hpre Hlocales Htransforms Hstrings Hkey.
  rewrite run_preconditions by assumption. apply bind_throw.
  through_preloads Htransforms.
  apply typeof_string in Hlocales. rewrite Hlocales.
  eapply bind_run; [reflexivity |].
  unfold lookup_title. unfold resolved_stringMap in Hstrings. rewrite Hstrings.
  destruct Hkey as [Hkey | Hkey]; rewrite Hkey; reflexivity.
Qed.

Lemma missing_title_message_witness :
  run (Demo.env "2017-12-31T23:59:59.123Z" "2017" {[ "en" := {[ "demo.title" := "" ]} ]} true)
    (Demo.request false true "phet" "*") []
  = (inl (AssertionError ("missing entry for sim title, key = " +:+ "demo.title")),
     [ReportUnusedMedia "DEMO"; ReportUnusedStrings "demo" "DEMO"]).
Proof.
  apply (missing_title_message
           (Demo.env "2017-12-31T23:59:59.123Z" "2017"
              {[ "en" := {[ "demo.title" := "" ]} ]} true)
           (Demo.request false true "phet" "*") {[ "demo.title" := "" ]}).
  - reflexivity.
  - reflexivity.
  - apply demo_transforms_succeed. reflexivity.
  - reflexivity.
  - right. reflexivity.
Defined.

(** X12: a string table without the fallback locale does not reach the title
    assertion: the lookup of the title in it throws a [TypeError], after the
    two reports. *)
Theorem missing_fallback_locale env req :
  preconditions env req = true ->
  String.eqb (typeof (req_localesOption req)) "string" = true ->
  transforms_succeed env req ->
  resolved_stringMap env req !! FALLBACK_LOCALE env = None ->
  exists message,
    run env req []
    = (inl (TypeError message),
       [ReportUnusedMedia
          (phet_requirejsNamespace
             (file_readJSON env ("../" +:+ to_string (req_repo req) +:+ "/package.json")));
        ReportUnusedStrings (to_string (req_repo req))
          (phet_requirejsNamespace
             (file_readJSON env ("../" +:+ to_string (req_repo req) +:+ "/package.json")))]).
Proof.
  intros Hpre Hlocales Htransforms Hstrings. eexists.
  rewrite run_preconditions by assumption. apply bind_throw.
  through_preloads Htransforms.
  apply typeof_string in Hlocales. rewrite Hlocales.
  eapply bind_run; [reflexivity |].
  unfold lookup_title. unfold resolved_stringMap in Hstrings. rewrite Hstrings.
  reflexivity.
Qed.

Lemma missing_fallback_locale_witness :
  exists message,
    run (Demo.env "2017-12-31T23:59:59.123Z" "2017" {[ "es" := {[ "demo.title" := "Demo" ]} ]}
           true)
      (Demo.request false true "phet" "es") []
    = (inl (TypeError message),
       [ReportUnusedMedia "DEMO"; ReportUnusedStrings "demo" "DEMO"]).
Proof.
  apply (missing_fallback_locale
           (Demo.env "2017-12-31T23:59:59.123Z" "2017"
              {[ "es" := {[ "demo.title" := "Demo" ]} ]} true)
           (Demo.request false true "phet" "es")).
  - reflexivity.
  - reflexivity.
  - apply demo_transforms_succeed. reflexivity.
  - reflexivity.
Defined.

(** X13: the locale option is not checked at the head of the build; one that
    is not a string (so neither the star nor anything with [split]) makes
    the build throw a [TypeError] once the code and the preloads are
    minified and the two reports are made. *)
Theorem locales_option_not_a_string env req :
  preconditions env req = true ->
  String.eqb (typeof (req_localesOption req)) "string" = false ->
  transforms_succeed env req ->
  exists message,
    run env req []
    = (inl (TypeError message),
       [ReportUnusedMedia
          (phet_requirejsNamespace
             (file_readJSON env ("../" +:+ to_string (req_repo req) +:+ "/package.json")));
        ReportUnusedStrings (to_string (req_repo req))
          (phet_requirejsNamespace
             (file_readJSON env ("../" +:+ to_string (req_repo req) +:+ "/package.json")))]).
Proof.
  intros Hpre Hlocales Htransforms. eexists.
  rewrite run_preconditions by assumption. apply bind_throw.
  through_preloads Htransforms.
  destruct (req_localesOption req); try discriminate; apply bind_throw; reflexivity.
Qed.

Lemma locales_option_not_a_string_witness :
  exists message,
    run Demo.env0
      {| req_repo := VStr "demo"; req_uglify := VBool true; req_mangle := VBool true;
         req_instrument := VBool false; req_allHTML := VBool true;
         req_brand := VStr "phet"; req_localesOption := VUndefined |} []
    = (inl (TypeError message),
       [ReportUnusedMedia "DEMO"; ReportUnusedStrings "demo" "DEMO"]).
Proof.
  apply (locales_option_not_a_string Demo.env0
           {| req_repo := VStr "demo"; req_uglify := VBool true; req_mangle := VBool true;
              req_instrument := VBool false; req_allHTML := VBool true;
              req_brand := VStr "phet"; req_localesOption := VUndefined |}).
  - reflexivity.
  - reflexivity.
  - apply demo_transforms_succeed. reflexivity.
Defined.

(** ** The preloads and the two flavours (buildRunnable.js, lines 78-95) *)

Lemma map_M_Forall2 {A B} (f : A -> M B) (l : list A) :
  (forall x t y t', f x t = (inr y, t') -> t' = t /\ returns (f x) y) ->
  forall t ys t', map_M f l t = (inr ys, t') -> Forall2 (fun x y => returns (f x) y) l ys.
Proof.
  intros Hf. induction l as [| x l IH]; intros t ys t' H; simpl in H.
  - unfold ret in H. inversion H. constructor.
  - apply bind_inr_inv in H as (y & t1 & Hy & H).
    apply bind_inr_inv in H as (ys' & t2 & Hys & H).
    unfold ret in H. inversion H; subst.
    constructor; [eapply Hf; exact Hy | eapply IH; exact Hys].
Qed.

(** X14: the production preloads and the debug preloads run parallel to the
    preload files: as many, in the same order, each production preload made
    from the file at its place ([minify] with the caller's mangle flag and no
    transpiling when [uglify] is set, the text itself otherwise), each debug
    preload likewise from the same file. *)
Theorem preloads_in_parallel env req t r t1 :
  resolve env req t = (inr r, t1) ->
  Forall2 (fun raw out =>
             returns (if truthy (req_uglify req)
                      then minify env raw (productionPreloads_options (req_mangle req))
                      else ret raw) out)
    (preloads env req) (r_productionPreloads r) /\
  Forall2 (fun raw out =>
             returns (if String.eqb (to_string (req_brand req)) "phet-io"
                      then minify env raw debugPreloads_options
                      else ret raw) out)
    (preloads env req) (r_debugPreloads r) /\
  length (r_productionPreloads r) = length (getPreloads env (to_string (req_repo req))
                                              (to_string (req_brand req))) /\
  length (r_debugPreloads r) = length (r_productionPreloads r).
Proof.
  intros H. apply resolve_inv in H as (title & Hr & _).
  pose proof (res_productionPreloads _ _ _ _ Hr []) as HpP.
  pose proof (res_debugPreloads _ _ _ _ Hr []) as HdP.
  unfold productionPreloads in HpP. unfold debugPreloads in HdP.
  apply map_M_Forall2 in HpP;
    [| intros x t0 y t0'; destruct (truthy (req_uglify req));
       [apply minify_returns | apply ret_returns]].
  apply map_M_Forall2 in HdP;
    [| intros x t0 y t0'; destruct (String.eqb (to_string (req_brand req)) "phet-io");
       [apply minify_returns | apply ret_returns]].
  split; [exact HpP |]. split; [exact HdP |].
  apply Forall2_length in HpP. apply Forall2_length in HdP.
  unfold preloads, rawPreloads in HpP, HdP. rewrite length_map in HpP, HdP.
  split; congruence.
Qed.

Lemma preloads_in_parallel_witness :
  exists r t1,
    resolve Demo.env0 (Demo.request true true "phet-io" "*") [] = (inr r, t1) /\
    (Forall2 (fun raw out =>
                returns (minify Demo.env0 raw (productionPreloads_options (VBool true))) out)
       (preloads Demo.env0 (Demo.request true true "phet-io" "*")) (r_productionPreloads r) /\
     Forall2 (fun raw out => returns (minify Demo.env0 raw debugPreloads_options) out)
       (preloads Demo.env0 (Demo.request true true "phet-io" "*")) (r_debugPreloads r) /\
     length (r_productionPreloads r) = 1 /\
     length (r_debugPreloads r) = length (r_productionPreloads r)).
Proof.
  eexists _, _. split; [vm_compute; reflexivity |].
  refine (preloads_in_parallel Demo.env0 (Demo.request true true "phet-io" "*") [] _ _ _).
  vm_compute. reflexivity.
Defined.

Lemma productionPreloads_raw env uglify mangle raw :
  truthy uglify = false -> returns (productionPreloads env uglify mangle raw) raw.
Proof.
  intros Huglify t. unfold productionPreloads. rewrite Huglify.
  induction raw as [| js raw IH]; simpl; [reflexivity |].
  eapply bind_run; [reflexivity |]. eapply bind_run; [exact IH |]. reflexivity.
Qed.

(** X15: for a brand other than phet-io built without [uglify], the debug
    flavour and the production flavour are the same code: the raw bundle and
    the raw preload files.  The script lists of the debug artifact and of the
    combined artifact then differ in their first entry, the initialization
    script, and nowhere else. *)
Theorem debug_is_production_without_uglify env req t r t1 :
  resolve env req t = (inr r, t1) ->
  String.eqb (to_string (req_brand req)) "phet-io" = false ->
  truthy (req_uglify req) = false ->
  r_debugJS r = bundle env req /\
  r_productionJS r = bundle env req /\
  r_debugPreloads r = preloads env req /\
  r_productionPreloads r = preloads env req /\
  tl (pkg_scripts (debugOptions env r)) = tl (pkg_scripts (allOptions env r)).
Proof.
  intros H Hbrand Huglify. apply resolve_inv in H as (title & Hr & _).
  assert (HdJS : r_debugJS r = bundle env req).
  { pose proof (res_debugJS _ _ _ _ Hr []) as E. unfold debugJS in E.
    rewrite Hbrand in E. unfold ret in E. now inversion E. }
  assert (HpJS : r_productionJS r = bundle env req).
  { pose proof (res_productionJS _ _ _ _ Hr []) as E. unfold productionJS in E.
    rewrite Huglify in E. unfold ret in E. now inversion E. }
  assert (HdP : r_debugPreloads r = preloads env req).
  { eapply returns_unique; [apply (res_debugPreloads _ _ _ _ Hr) |].
    now apply debugPreloads_raw_elsewhere. }
  assert (HpP : r_productionPreloads r = preloads env req).
  { eapply returns_unique; [apply (res_productionPreloads _ _ _ _ Hr) |].
    now apply productionPreloads_raw. }
  repeat split; try assumption.
  cbn [pkg_scripts debugOptions allOptions scripts app tl]. now rewrite HdJS, HpJS, HdP, HpP.
Qed.

Lemma debug_is_production_without_uglify_witness :
  exists r t1,
    resolve Demo.env0 (Demo.request false true "adapted-from-phet" "*") [] = (inr r, t1) /\
    (r_debugJS r = bundle Demo.env0 (Demo.request false true "adapted-from-phet" "*") /\
     r_productionJS r = bundle Demo.env0 (Demo.request false true "adapted-from-phet" "*") /\
     r_debugPreloads r = preloads Demo.env0 (Demo.request false true "adapted-from-phet" "*") /\
     r_productionPreloads r
     = preloads Demo.env0 (Demo.request false true "adapted-from-phet" "*") /\
     tl (pkg_scripts (debugOptions Demo.env0 r)) = tl (pkg_scripts (allOptions Demo.env0 r))).
Proof.
  eexists _, _. split; [vm_compute; reflexivity |].
  refine (debug_is_production_without_uglify Demo.env0
            (Demo.request false true "adapted-from-phet" "*") [] _ _ _ _ _).
  - vm_compute. reflexivity.
  - reflexivity.
  - reflexivity.
Defined.

(** ** What a completed build has done (buildRunnable.js, lines 159-274) *)

(** [run_complete], with the resolved record spelled out. *)
Lemma run_complete_resolved env req :
  valid env req = true ->
  transforms_succeed env req ->
  exists pJS dJS pP dP locales englishTitle,
    let r := resolved env (to_string (req_repo req)) (to_string (req_brand req))
               (req_allHTML req) pJS dJS pP dP locales englishTitle in
    resolution env req r englishTitle /\
    run env req []
    = (inr tt,
       resolveEvents env (r_repo r) (r_brand r) (r_productionJS r) (r_productionPreloads r)
       ++ artifactEvents env r englishTitle).
Proof.
  intros Hvalid Htransforms.
  destruct (run_complete env req [] Hvalid Htransforms) as (r0 & title0 & _ & Hrun).
  pose proof Hrun as Hinv.
  apply run_inv in Hinv as (_ & r & title & Hr & Hres & Htrace).
  rewrite Htrace in Hrun. clear Htrace r0 title0.
  unfold resolve in Hres. apply resolveInputs_inv in Hres
    as (locales & title' & _ & _ & _ & _ & _ & Htitle' & _ & Hr' & _).
  assert (Etitle : title' = title).
  { eapply returns_unique; [exact Htitle' |].
    pose proof (res_title _ _ _ _ Hr) as Htitle.
    now rewrite (res_repo _ _ _ _ Hr) in Htitle. }
  subst title'.
  exists (r_productionJS r), (r_debugJS r), (r_productionPreloads r), (r_debugPreloads r),
    locales, title.
  cbv zeta. rewrite <- Hr'. split; [exact Hr | exact Hrun].
Qed.

Lemma count_events_app f t1 t2 :
  count_events f (t1 ++ t2) = count_events f t1 + count_events f t2.
Proof. induction t1 as [| ev t1 IH]; simpl; [reflexivity | rewrite IH; lia]. Qed.

Lemma count_events_none f t :
  Forall (fun ev => f ev = false) t -> count_events f t = 0.
Proof. induction 1 as [| ev t Hev _ IH]; simpl; [reflexivity | now rewrite Hev, IH]. Qed.

Lemma count_events_map {A} f (g : A -> event) (l : list A) :
  (forall x, f (g x) = false) -> count_events f (map g l) = 0.
Proof. intros H. induction l as [| x l IH]; simpl; [reflexivity | now rewrite H, IH]. Qed.

Lemma count_packaged f env path options :
  f (PackageRunnable options) = true ->
  (forall p c, f (Write p c) = false) ->
  count_events f (packaged env path options) = 1.
Proof. intros H1 H2. unfold packaged. simpl. now rewrite H1, H2. Qed.

Lemma count_packaged_none f env path options :
  f (PackageRunnable options) = false ->
  (forall p c, f (Write p c) = false) ->
  count_events f (packaged env path options) = 0.
Proof. intros H1 H2. unfold packaged. simpl. now rewrite H1, H2. Qed.

(** The counts of one kind of event in the blocks after the debug artifact,
    for a kind that is neither a write nor a [mkdir] nor a packaging call. *)
Lemma count_auxiliary f env r englishTitle :
  (forall p c, f (Write p c) = false) ->
  (forall p, f (Mkdir p) = false) ->
  (forall d o, f (PackageXHTML d o) = false) ->
  count_events f (auxiliaryEvents env r englishTitle)
  = (if existsb (String.eqb (FALLBACK_LOCALE env)) (r_locales r) && is_phet r
     then if f (GruntLogDebug "Constructing HTML for iframe testing from template")
          then 1 else 0
     else 0)
    + (if is_phet_io r
       then if f (CopySupplementalPhetioFiles (r_repo r) (r_version r)) then 1 else 0
       else 0).
Proof.
  intros Hwrite Hmkdir Hxhtml. unfold auxiliaryEvents. rewrite !count_events_app.
  assert (E1 : count_events f (xhtmlEvents env r) = 0).
  { unfold xhtmlEvents. simpl. now rewrite Hmkdir, Hxhtml. }
  assert (E2 : count_events f (dependenciesEvents env r) = 0).
  { unfold dependenciesEvents. simpl. now rewrite Hwrite. }
  assert (E3 : count_events f (a11yEvents env r) = 0).
  { unfold a11yEvents. destruct (_ && _); simpl; [now rewrite Hwrite | reflexivity]. }
  assert (E4 : count_events f (thumbnailEvents env r) = 0).
  { unfold thumbnailEvents. destruct (file_exists env _); [| reflexivity].
    rewrite count_events_app. simpl. rewrite !Hwrite.
    destruct (is_phet r); simpl; [now rewrite Hwrite | reflexivity]. }
  rewrite E1, E2, E3, E4. unfold iframeEvents, supplementalEvents.
  destruct (_ && _); destruct (is_phet_io r); simpl;
    rewrite ?Hwrite; try rewrite count_events_map by (intros; apply Hwrite); lia.
Qed.

(** X16: a completed build calls [packageRunnable] once for each resolved
    locale (for phet-io: for none), once more for the combined artifact if
    [allHTML] is set or the brand is phet-io, and once for the debug
    artifact; the later steps (XHTML, iframe, a11y view, thumbnails) do not
    call it. *)
Theorem packageRunnable_calls env req :
  valid env req = true ->
  transforms_succeed env req ->
  exists r englishTitle t,
    resolution env req r englishTitle /\
    run env req [] = (inr tt, t) /\
    count_events is_packageRunnable t
    = (if String.eqb (to_string (req_brand req)) "phet-io" then 0 else length (r_locales r))
      + (if truthy (req_allHTML req) || String.eqb (to_string (req_brand req)) "phet-io"
         then 1 else 0)
      + 1.
Proof.
  intros Hvalid Htransforms.
  destruct (run_complete env req [] Hvalid Htransforms) as (r & title & Hr & Hrun).
  exists r, title. eexists. split; [exact Hr |]. split; [exact Hrun |].
  cbn [app]. rewrite count_events_app.
  rewrite (count_events_none _ (resolveEvents _ _ _ _ _)) by (repeat constructor).
  unfold artifactEvents. cbn [count_events is_packageRunnable].
  rewrite !count_events_app.
  rewrite count_auxiliary by reflexivity. cbn [is_packageRunnable].
  unfold debugEvents. rewrite count_packaged by reflexivity.
  unfold localeEvents, allEvents, is_phet_io.
  rewrite (res_brand _ _ _ _ Hr), (res_allHTML _ _ _ _ Hr).
  assert (Hloc : forall l,
             count_events is_packageRunnable
               (flat_map (fun locale =>
                            packaged env (localePath r locale) (localeOptions env r locale)) l)
             = length l).
  { induction l as [| x l IH]; [reflexivity |]. cbn [flat_map length].
    rewrite count_events_app, count_packaged by reflexivity. now rewrite IH. }
  destruct (String.eqb (to_string (req_brand req)) "phet-io");
    destruct (truthy (req_allHTML req)); cbn [orb count_events];
    rewrite ?Hloc, ?count_packaged by reflexivity;
    repeat match goal with |- context [if ?c then _ else _] => destruct c end; lia.
Qed.

Lemma packageRunnable_calls_witness :
  exists r englishTitle t,
    resolution Demo.env0 (Demo.request true true "phet" "en,es,fr") r englishTitle /\
    run Demo.env0 (Demo.request true true "phet" "en,es,fr") [] = (inr tt, t) /\
    count_events is_packageRunnable t = length (r_locales r) + 1 + 1.
Proof.
  apply (packageRunnable_calls Demo.env0 (Demo.request true true "phet" "en,es,fr")).
  - reflexivity.
  - apply demo_transforms_succeed. reflexivity.
Defined.

Lemma append_empty_r (a : string) : a +:+ "" = a.
Proof. induction a as [| x a IH]; [reflexivity |].
  change (String x (a +:+ "") = String x a). now rewrite IH. Qed.





Lemma pretty_thumbnail_widths : pretty 128%Z = "128" /\ pretty 600%Z = "600".
Proof. split; vm_compute; reflexivity. Qed.

(** X18: every completed build, whatever the flags, makes the [xhtml]
    directory, sends the XHTML packaging there and then writes
    [dependencies.json], one after the other; the XHTML packaging gets the
    script list of the combined artifact, also when that artifact is not
    written, and the dependencies written are the ones every initialization
    script is given. *)
Theorem xhtml_and_dependencies env req :
  valid env req = true ->
  transforms_succeed env req ->
  exists r englishTitle before after,
    resolution env req r englishTitle /\
    run env req []
    = (inr tt,
       before
       ++ [Mkdir (buildDir r +:+ "/xhtml");
           PackageXHTML (buildDir r +:+ "/xhtml") (xhtmlOptions env r);
           Write (buildDir r +:+ "/dependencies.json")
             (JSON_stringify env (getDependencies env (to_string (req_repo req))))]
       ++ after) /\
    xhtml_scripts (xhtmlOptions env r) = pkg_scripts (allOptions env r) /\
    forall locale all debug,
      init_dependencies (initializationOptions r locale all debug)
      = getDependencies env (to_string (req_repo req)).
Proof.
  intros Hvalid Htransforms.
  destruct (run_complete_resolved env req Hvalid Htransforms)
    as (pJS & dJS & pP & dP & locales & title & Hr & Hrun).
  cbv zeta in Hr, Hrun.
  set (r := resolved env (to_string (req_repo req)) (to_string (req_brand req))
              (req_allHTML req) pJS dJS pP dP locales title) in *.
  exists r, title,
    (resolveEvents env (r_repo r) (r_brand r) (r_productionJS r) (r_productionPreloads r)
     ++ Mkdir (buildDir r) :: localeEvents env r ++ allEvents env r ++ debugEvents env r),
    (iframeEvents env r title ++ a11yEvents env r ++ supplementalEvents r
     ++ thumbnailEvents env r).
  split; [exact Hr |]. split; [| split; reflexivity].
  rewrite Hrun. f_equal.
  unfold artifactEvents, auxiliaryEvents, xhtmlEvents, dependenciesEvents.
  rewrite <- !app_assoc. cbn [app]. do 2 f_equal. rewrite <- !app_assoc. reflexivity.
Qed.

Lemma xhtml_and_dependencies_witness :
  exists r englishTitle before after,
    resolution Demo.env0 (Demo.request false false "phet" "es") r englishTitle /\
    run Demo.env0 (Demo.request false false "phet" "es") []
    = (inr tt,
       before
       ++ [Mkdir (buildDir r +:+ "/xhtml");
           PackageXHTML (buildDir r +:+ "/xhtml") (xhtmlOptions Demo.env0 r);
           Write (buildDir r +:+ "/dependencies.json")
             (JSON_stringify Demo.env0 (getDependencies Demo.env0 "demo"))]
       ++ after) /\
    xhtml_scripts (xhtmlOptions Demo.env0 r) = pkg_scripts (allOptions Demo.env0 r) /\
    forall locale all debug,
      init_dependencies (initializationOptions r locale all debug)
      = getDependencies Demo.env0 "demo".
Proof.
  apply (xhtml_and_dependencies Demo.env0 (Demo.request false false "phet" "es")).
  - reflexivity.
  - apply demo_transforms_succeed. reflexivity.
Defined.

(** X19: between [dependencies.json] and the a11y view the build does, for
    the brand phet with the fallback locale among the resolved locales, one
    debug log, the write of [{repo}_en_iframe_phet.html] (the locale in the
    name is the literal [en], whatever the fallback locale is) and, with
    [allHTML], the write of [{repo}_all_iframe_phet.html]; in every other
    case it does nothing there: no log and no page. *)
Theorem iframe_pages env req :
  valid env req = true ->
  compressions_succeed env req ->
  exists pJS dJS pP dP locales,
    returns (productionJS env (req_uglify req) (req_mangle req) (bundle env req)) pJS /\
    returns (debugJS env (to_string (req_brand req)) (bundle env req)) dJS /\
    returns (productionPreloads env (req_uglify req) (req_mangle req) (preloads env req)) pP /\
    returns (debugPreloads env (to_string (req_brand req)) (preloads env req)) dP /\
    resolved_locales env (to_string (req_repo req)) (req_localesOption req) = Some locales /\
    let r := resolved_for env req pJS dJS pP dP locales in
    let template :=
      replaceFirst env
        (replaceFirst env (file_read env "../chipper/templates/sim-iframe.html")
           "{{PHET_SIM_TITLE}}"
           (htmlEncode env (to_string (resolved_title env req) +:+ " iframe test")))
        "{{PHET_REPOSITORY}}" (to_string (req_repo req)) in
    let page := fun locale =>
      Write ("../" +:+ to_string (req_repo req) +:+ "/build/" +:+ to_string (req_brand req)
             +:+ "/" +:+ to_string (req_repo req) +:+ "_" +:+ locale +:+ "_iframe_phet.html")
        (replaceFirst env template "{{PHET_LOCALE}}" locale) in
    let iframe :=
      if existsb (String.eqb (FALLBACK_LOCALE env)) locales
         && String.eqb (to_string (req_brand req)) "phet"
      then GruntLogDebug "Constructing HTML for iframe testing from template"
           :: page "en" :: (if truthy (req_allHTML req) then [page "all"] else [])
      else [] in
    run env req []
    = (inr tt,
       resolveEvents env (to_string (req_repo req)) (to_string (req_brand req)) pJS pP
       ++ Mkdir (buildDir r)
          :: localeEvents env r ++ allEvents env r ++ debugEvents env r
          ++ xhtmlEvents env r ++ dependenciesEvents env r
          ++ iframe
          ++ a11yEvents env r ++ supplementalEvents r ++ thumbnailEvents env r).
Proof.
  intros Hvalid Hcompress.
  destruct (run_complete_exact env req Hvalid Hcompress)
    as (pJS & dJS & pP & dP & locales & HpJS & HdJS & HpP & HdP & Hloc & Hrun).
  exists pJS, dJS, pP, dP, locales. repeat (split; [assumption |]). cbv zeta.
  rewrite Hrun. unfold artifactEvents, auxiliaryEvents. do 7 f_equal.
  unfold iframeEvents.
  change (is_phet (resolved_for env req pJS dJS pP dP locales))
    with (String.eqb (to_string (req_brand req)) "phet").
  change (r_locales (resolved_for env req pJS dJS pP dP locales)) with locales.
  destruct (existsb (String.eqb (FALLBACK_LOCALE env)) locales
            && String.eqb (to_string (req_brand req)) "phet"); [| reflexivity].
  change (r_allHTML (resolved_for env req pJS dJS pP dP locales)) with (req_allHTML req).
  unfold buildDir. cbn [r_repo r_brand resolved_for resolved].
  destruct (truthy (req_allHTML req)); cbn [map]; now rewrite !append_assoc.
Qed.

Lemma iframe_pages_witness :
  let env := Demo.env0 in
  let req := Demo.request false true "phet" "es" in
  exists pJS dJS pP dP locales,
    returns (productionJS env (req_uglify req) (req_mangle req) (bundle env req)) pJS /\
    returns (debugJS env (to_string (req_brand req)) (bundle env req)) dJS /\
    returns (productionPreloads env (req_uglify req) (req_mangle req) (preloads env req)) pP /\
    returns (debugPreloads env (to_string (req_brand req)) (preloads env req)) dP /\
    resolved_locales env (to_string (req_repo req)) (req_localesOption req) = Some locales /\
    let r := resolved_for env req pJS dJS pP dP locales in
    run env req []
    = (inr tt,
       resolveEvents env (to_string (req_repo req)) (to_string (req_brand req)) pJS pP
       ++ Mkdir (buildDir r)
          :: localeEvents env r ++ allEvents env r ++ debugEvents env r
          ++ xhtmlEvents env r ++ dependenciesEvents env r
          ++ (if existsb (String.eqb "en") locales && true
              then [GruntLogDebug "Constructing HTML for iframe testing from template";
                    Write "../demo/build/phet/demo_en_iframe_phet.html"
                      "/*../chipper/templates/sim-iframe.html*/";
                    Write "../demo/build/phet/demo_all_iframe_phet.html"
                      "/*../chipper/templates/sim-iframe.html*/"]
              else [])
          ++ a11yEvents env r ++ supplementalEvents r ++ thumbnailEvents env r).
Proof.
  intros env req. apply (iframe_pages env req).
  - reflexivity.
  - apply demo_compressions_succeed. reflexivity.
Defined.

(** X20: the supplemental phet-io files are copied once, with the target and
    the version of [package.json], when the brand is phet-io, and never for
    another brand. *)
Theorem supplemental_files_only_for_phet_io env req :
  valid env req = true ->
  transforms_succeed env req ->
  exists t,
    run env req [] = (inr tt, t) /\
    if String.eqb (to_string (req_brand req)) "phet-io"
    then count_events is_copySupplemental t = 1 /\
         In (CopySupplementalPhetioFiles (to_string (req_repo req))
               (version (file_readJSON env
                           ("../" +:+ to_string (req_repo req) +:+ "/package.json")))) t
    else count_events is_copySupplemental t = 0.
Proof.
  intros Hvalid Htransforms.
  destruct (run_complete_resolved env req Hvalid Htransforms)
    as (pJS & dJS & pP & dP & locales & title & Hr & Hrun).
  cbv zeta in Hr, Hrun.
  set (r := resolved env (to_string (req_repo req)) (to_string (req_brand req))
              (req_allHTML req) pJS dJS pP dP locales title) in *.
  eexists. split; [exact Hrun |].
  assert (Hcount : count_events is_copySupplemental
                     (resolveEvents env (r_repo r) (r_brand r) (r_productionJS r)
                        (r_productionPreloads r) ++ artifactEvents env r title)
                   = if is_phet_io r then 1 else 0).
  { rewrite count_events_app.
    rewrite (count_events_none _ (resolveEvents _ _ _ _ _)) by (repeat constructor).
    unfold artifactEvents. cbn [count_events is_copySupplemental]. rewrite !count_events_app.
    rewrite count_auxiliary by reflexivity. cbn [is_copySupplemental].
    unfold debugEvents. rewrite count_packaged_none by reflexivity.
    assert (Hloc : count_events is_copySupplemental (localeEvents env r) = 0).
    { unfold localeEvents. destruct (is_phet_io r); [reflexivity |].
      induction (r_locales r) as [| x l IH]; [reflexivity |]. cbn [flat_map].
      rewrite count_events_app, count_packaged_none by reflexivity. exact IH. }
    assert (Hall : count_events is_copySupplemental (allEvents env r) = 0).
    { unfold allEvents. destruct (_ || _); [| reflexivity].
      now rewrite count_packaged_none. }
    rewrite Hloc, Hall.
    destruct (_ && _); destruct (is_phet_io r); reflexivity. }
  rewrite Hcount. change (is_phet_io r) with (String.eqb (to_string (req_brand req)) "phet-io").
  destruct (String.eqb (to_string (req_brand req)) "phet-io") eqn:Hbrand; [| reflexivity].
  split; [reflexivity |].
  apply in_or_app. right. unfold artifactEvents, auxiliaryEvents. right.
  apply in_or_app. right. apply in_or_app. right. apply in_or_app. right.
  apply in_or_app. right. apply in_or_app. right. apply in_or_app. right.
  apply in_or_app. right. apply in_or_app. left.
  unfold supplementalEvents.
  change (is_phet_io r) with (String.eqb (to_string (req_brand req)) "phet-io").
  rewrite Hbrand. now left.
Qed.

Lemma supplemental_files_only_for_phet_io_witness :
  exists t,
    run Demo.env0 (Demo.request true false "phet-io" "*") [] = (inr tt, t) /\
    count_events is_copySupplemental t = 1 /\
    In (CopySupplementalPhetioFiles "demo" "1.0.0") t.
Proof.
  apply (supplemental_files_only_for_phet_io Demo.env0 (Demo.request true false "phet-io" "*")).
  - reflexivity.
  - apply demo_transforms_succeed. reflexivity.
Defined.

(** X21: when the screenshot of the target exists, the last thing a
    completed build does is write the two thumbnails, [{repo}-128.png] of
    128 by 84 and [{repo}-600.png] of 600 by 394, and then, for the brand
    phet only, the twitter card. *)
Theorem thumbnails_last env req :
  valid env req = true ->
  transforms_succeed env req ->
  file_exists env ("../" +:+ to_string (req_repo req) +:+ "/assets/"
                   +:+ to_string (req_repo req) +:+ "-screenshot.png") = true ->
  exists r englishTitle before,
    resolution env req r englishTitle /\
    run env req []
    = (inr tt,
       before
       ++ [Write (buildDir r +:+ "/" +:+ to_string (req_repo req) +:+ "-128.png")
             (generateThumbnails env (to_string (req_repo req)) 128 84);
           Write (buildDir r +:+ "/" +:+ to_string (req_repo req) +:+ "-600.png")
             (generateThumbnails env (to_string (req_repo req)) 600 394)]
       ++ (if String.eqb (to_string (req_brand req)) "phet"
           then [Write (buildDir r +:+ "/" +:+ to_string (req_repo req)
                        +:+ "-twitter-card.png")
                   (generateTwitterCard env (to_string (req_repo req)))]
           else [])).
Proof.
  intros Hvalid Htransforms Hscreenshot.
  destruct (run_complete_resolved env req Hvalid Htransforms)
    as (pJS & dJS & pP & dP & locales & title & Hr & Hrun).
  cbv zeta in Hr, Hrun.
  set (r := resolved env (to_string (req_repo req)) (to_string (req_brand req))
              (req_allHTML req) pJS dJS pP dP locales title) in *.
  exists r, title,
    (resolveEvents env (r_repo r) (r_brand r) (r_productionJS r) (r_productionPreloads r)
     ++ Mkdir (buildDir r) :: localeEvents env r ++ allEvents env r ++ debugEvents env r
     ++ xhtmlEvents env r ++ dependenciesEvents env r ++ iframeEvents env r title
     ++ a11yEvents env r ++ supplementalEvents r).
  split; [exact Hr |]. rewrite Hrun. f_equal.
  unfold artifactEvents, auxiliaryEvents, thumbnailEvents.
  change (r_repo r) with (to_string (req_repo req)).
  change (is_phet r) with (String.eqb (to_string (req_brand req)) "phet").
  rewrite Hscreenshot. cbn [map thumbnailSizes width height].
  destruct pretty_thumbnail_widths as [-> ->].
  rewrite <- !app_assoc. cbn [app]. do 2 f_equal. rewrite <- !app_assoc. reflexivity.
Qed.

Lemma thumbnails_last_witness :
  exists r englishTitle before,
    resolution Demo.env_full (Demo.request false false "phet" "en") r englishTitle /\
    run Demo.env_full (Demo.request false false "phet" "en") []
    = (inr tt,
       before
       ++ [Write (buildDir r +:+ "/" +:+ "demo" +:+ "-128.png")
             (generateThumbnails Demo.env_full "demo" 128 84);
           Write (buildDir r +:+ "/" +:+ "demo" +:+ "-600.png")
             (generateThumbnails Demo.env_full "demo" 600 394)]
       ++ [Write (buildDir r +:+ "/" +:+ "demo" +:+ "-twitter-card.png")
             (generateTwitterCard Demo.env_full "demo")]).
Proof.
  apply (thumbnails_last Demo.env_full (Demo.request false false "phet" "en")).
  - reflexivity.
  - intros js Hjs. apply demo_transform_succeeds.
    destruct Hjs as [<- | [<- | []]]; reflexivity.
  - reflexivity.
Defined.

(** X22: for the brand phet and a target whose [package.json] marks it
    accessible, a completed build writes the a11y view under the target's
    name with the a11y suffix: the template of the target with every
    [{{IS_BUILT}}] replaced by [true]. *)
Theorem a11y_view_written env req :
  valid env req = true ->
  transforms_succeed env req ->
  truthy (phet_accessible
            (file_readJSON env ("../" +:+ to_string (req_repo req) +:+ "/package.json")))
  = true ->
  req_brand req = VStr "phet" ->
  exists r englishTitle t,
    resolution env req r englishTitle /\
    run env req [] = (inr tt, t) /\
    In (Write (buildDir r +:+ "/" +:+ to_string (req_repo req) +:+ A11Y_VIEW_HTML_SUFFIX env)
          (replaceAll env (getA11yViewHTMLFromTemplate env (to_string (req_repo req)))
             "{{IS_BUILT}}" "true")) t.
Proof.
  intros Hvalid Htransforms Haccessible Hbrand.
  destruct (run_complete_resolved env req Hvalid Htransforms)
    as (pJS & dJS & pP & dP & locales & title & Hr & Hrun).
  cbv zeta in Hr, Hrun.
  set (r := resolved env (to_string (req_repo req)) (to_string (req_brand req))
              (req_allHTML req) pJS dJS pP dP locales title) in *.
  exists r, title. eexists. split; [exact Hr |]. split; [exact Hrun |].
  apply in_or_app. right. unfold artifactEvents, auxiliaryEvents. right.
  apply in_or_app. right. apply in_or_app. right. apply in_or_app. right.
  apply in_or_app. right. apply in_or_app. right. apply in_or_app. right.
  apply in_or_app. left. unfold a11yEvents.
  change (phet_accessible (r_packageObject r))
    with (phet_accessible
            (file_readJSON env ("../" +:+ to_string (req_repo req) +:+ "/package.json"))).
  change (is_phet r) with (String.eqb (to_string (req_brand req)) "phet").
  rewrite Haccessible, Hbrand. now left.
Qed.

Lemma a11y_view_written_witness :
  exists r englishTitle t,
    resolution Demo.env_full (Demo.request false false "phet" "en") r englishTitle /\
    run Demo.env_full (Demo.request false false "phet" "en") [] = (inr tt, t) /\
    In (Write (buildDir r +:+ "/" +:+ "demo" +:+ "_a11y_view.html")
          (replaceAll Demo.env_full (getA11yViewHTMLFromTemplate Demo.env_full "demo")
             "{{IS_BUILT}}" "true")) t.
Proof.
  apply (a11y_view_written Demo.env_full (Demo.request false false "phet" "en")).
  - reflexivity.
  - intros js Hjs. apply demo_transform_succeeds.
    destruct Hjs as [<- | [<- | []]]; reflexivity.
  - reflexivity.
  - reflexivity.
Defined.

(** ** The header and the locales (buildRunnable.js, lines 98-139) *)

Lemma starts_with_cancel a p s : starts_with (a +:+ p) (a +:+ s) = starts_with p s.
Proof.
  induction a as [| x a IH]; [reflexivity |].
  change (starts_with (String x (a +:+ p)) (String x (a +:+ s)) = starts_with p s).
  simpl. now rewrite Ascii.eqb_refl, IH.
Qed.

(** X23: both headers open alike, whatever the brand: the title and the
    version, the copyright line with the current year, the PhET line and an
    empty line; the brand decides only what follows. *)
Theorem htmlHeader_opening env brand englishTitle version :
  starts_with
    (to_string englishTitle +:+ " " +:+ version +:+ nl +:+
     "Copyright 2002-" +:+ template_today env "yyyy"
     +:+ ", Regents of the University of Colorado" +:+ nl +:+
     "PhET Interactive Simulations, University of Colorado Boulder" +:+ nl +:+ nl)
    (htmlHeader env brand englishTitle version) = true.
Proof.
  unfold htmlHeader.
  destruct (String.eqb brand "phet-io");
    rewrite !starts_with_cancel; rewrite <- (append_empty_r nl) at 1;
    rewrite starts_with_cancel; reflexivity.
Qed.




(** X25: the empty locale option resolves to one locale, the empty string;
    for a brand other than phet-io a completed build then packages and
    writes one per-locale artifact, with two underscores in a row in its
    name, [{repo}__{brand}.html]. *)
Theorem empty_locale_option env req :
  valid env req = true ->
  transforms_succeed env req ->
  req_localesOption req = VStr "" ->
  String.eqb (to_string (req_brand req)) "phet-io" = false ->
  exists r englishTitle t,
    resolution env req r englishTitle /\
    run env req [] = (inr tt, t) /\
    r_locales r = [""] /\
    In (Write ("../" +:+ to_string (req_repo req) +:+ "/build/" +:+ to_string (req_brand req)
               +:+ "/" +:+ to_string (req_repo req) +:+ "__" +:+ to_string (req_brand req)
               +:+ ".html")
          (packageRunnable env (localeOptions env r ""))) t.
Proof.
  intros Hvalid Htransforms Hoption Hbrand.
  destruct (run_complete env req [] Hvalid Htransforms) as (r & title & Hr & Hrun).
  exists r, title. eexists. split; [exact Hr |]. split; [exact Hrun |].
  pose proof (res_locales _ _ _ _ Hr) as Hloc.
  rewrite Hoption in Hloc. cbn in Hloc. inversion Hloc as [Eloc].
  split; [reflexivity |].
  apply in_or_app. right. unfold artifactEvents. right. apply in_or_app. left.
  unfold localeEvents, is_phet_io. rewrite (res_brand _ _ _ _ Hr), Hbrand, <- Eloc.
  cbn [flat_map app packaged]. right. left. f_equal.
  unfold localePath, buildDir. rewrite (res_repo _ _ _ _ Hr), (res_brand _ _ _ _ Hr).
  now rewrite !append_assoc.
Qed.

Lemma empty_locale_option_witness :
  exists r englishTitle t,
    resolution Demo.env0 (Demo.request false false "phet" "") r englishTitle /\
    run Demo.env0 (Demo.request false false "phet" "") [] = (inr tt, t) /\
    r_locales r = [""] /\
    In (Write ("../" +:+ "demo" +:+ "/build/" +:+ "phet" +:+ "/" +:+ "demo" +:+ "__"
               +:+ "phet" +:+ ".html")
          (packageRunnable Demo.env0 (localeOptions Demo.env0 r ""))) t.
Proof.
  apply (empty_locale_option Demo.env0 (Demo.request false false "phet" "")).
  - reflexivity.
  - apply demo_transforms_succeed. reflexivity.
  - reflexivity.
  - reflexivity.
Defined.
